(** * AI-Tooltip: usage-metered request gate, hover classifier, result cache
      and tooltip dispatcher

    A shallow embedding of [background.js], [popup.js] and [src/content.ts].

    Conventions of the embedding.
    - A JavaScript string is a [string]: a sequence of UTF-16 code units,
      each a number below 65536, so [String.length] is the [.length] of the
      source and an astral character takes two code units, a surrogate
      pair. The type and its operations are defined first; they take the
      names of the Standard Library's strings, which this development does
      not use.
    - A property that may be [undefined] is an [option].
    - A call that may throw returns a [Completion].
    - Counters and timestamps are integers ([Z]); the source stores them as
      JavaScript numbers.
    - [chrome.storage.sync] holds three fixed keys and is a record;
      [chrome.storage.local] is keyed by computed strings and is a [gmap].
    - Asynchronous code is written in explicit state-passing style: a function
      takes the store it reads and returns the store it leaves behind. *)

From Stdlib Require Import ZArith List Bool Lia.
From Stdlib.Strings Require Byte.
From stdpp Require Import base option list gmap.

(** ** JavaScript strings *)

Inductive string : Set :=
| EmptyString
| String (ch : N) (rest : string).

Declare Scope js_scope.
Delimit Scope js_scope with js.
Bind Scope js_scope with string.

Module String.

(** A literal denotes the string of its bytes, which are its characters as
    long as they are ASCII. *)
Fixpoint of_bytes (bytes : list Byte.byte) : string :=
  match bytes with
  | [] => EmptyString
  | b :: rest => String (Byte.to_N b) (of_bytes rest)
  end.

Fixpoint to_bytes (s : string) : option (list Byte.byte) :=
  match s with
  | EmptyString => Some []
  | String c rest =>
      match Byte.of_N c, to_bytes rest with
      | Some b, Some bs => Some (b :: bs)
      | _, _ => None
      end
  end.

(** The code units of a string, in order. *)
Fixpoint units (s : string) : list N :=
  match s with
  | EmptyString => []
  | String c rest => c :: units rest
  end.

Fixpoint of_units (cs : list N) : string :=
  match cs with
  | [] => EmptyString
  | c :: rest => String c (of_units rest)
  end.

(** [s.length]. *)
Fixpoint length (s : string) : nat :=
  match s with
  | EmptyString => 0
  | String _ rest => S (length rest)
  end.

(** [s1 + s2]. *)
Fixpoint append (s1 s2 : string) : string :=
  match s1 with
  | EmptyString => s2
  | String c rest => String c (append rest s2)
  end.

(** [s1 === s2]. *)
Fixpoint eqb (s1 s2 : string) : bool :=
  match s1, s2 with
  | EmptyString, EmptyString => true
  | String c1 rest1, String c2 rest2 => N.eqb c1 c2 && eqb rest1 rest2
  | _, _ => false
  end.

(** The code unit at index [n], if there is one. *)
Fixpoint get (n : nat) (s : string) : option N :=
  match s, n with
  | EmptyString, _ => None
  | String c _, O => Some c
  | String _ rest, S n' => get n' rest
  end.

(** [s2.startsWith(s1)]. *)
Fixpoint prefix (s1 s2 : string) : bool :=
  match s1, s2 with
  | EmptyString, _ => true
  | String c1 rest1, String c2 rest2 => N.eqb c1 c2 && prefix rest1 rest2
  | String _ _, EmptyString => false
  end.

(** The first index from [n] on at which [s1] occurs in [s2]. *)
Fixpoint index (n : nat) (s1 s2 : string) : option nat :=
  match s2, n with
  | EmptyString, O =>
      match s1 with
      | EmptyString => Some O
      | String _ _ => None
      end
  | EmptyString, S _ => None
  | String _ rest, O =>
      if prefix s1 s2 then Some O
      else match index O s1 rest with
           | Some i => Some (S i)
           | None => None
           end
  | String _ rest, S n' =>
      match index n' s1 rest with
      | Some i => Some (S i)
      | None => None
      end
  end.

(** [parts.join(sep)]. *)
Fixpoint concat (sep : string) (parts : list string) : string :=
  match parts with
  | [] => EmptyString
  | [part] => part
  | part :: rest => append part (append sep (concat sep rest))
  end.

End String.

String Notation string String.of_bytes String.to_bytes : js_scope.
Infix "+:+" := String.append (at level 60, right associativity) : js_scope.

Open Scope js_scope.
Open Scope Z_scope.

(** The [n] code units of [s] from index [b] on, or as many as there
    are. *)
Fixpoint substring (b n : nat) (s : string) : string :=
  match b, n, s with
  | O, O, _ => EmptyString
  | O, S n', EmptyString => s
  | O, S n', String c rest => String c (substring O n' rest)
  | S b', _, EmptyString => s
  | S b', _, String _ rest => substring b' n rest
  end.

Global Instance string_eq_dec : EqDecision string.
Proof. solve_decision. Defined.

Global Instance string_countable : Countable string.
Proof.
  refine (inj_countable' String.units String.of_units _).
  intros s. induction s as [| c rest IH]; simpl; congruence.
Defined.

(** The decimal digits of an integer, as a template literal shows it. *)
Fixpoint digits (d : Decimal.uint) : string :=
  match d with
  | Decimal.Nil => EmptyString
  | Decimal.D0 rest => String 48 (digits rest)
  | Decimal.D1 rest => String 49 (digits rest)
  | Decimal.D2 rest => String 50 (digits rest)
  | Decimal.D3 rest => String 51 (digits rest)
  | Decimal.D4 rest => String 52 (digits rest)
  | Decimal.D5 rest => String 53 (digits rest)
  | Decimal.D6 rest => String 54 (digits rest)
  | Decimal.D7 rest => String 55 (digits rest)
  | Decimal.D8 rest => String 56 (digits rest)
  | Decimal.D9 rest => String 57 (digits rest)
  end.

Definition pretty (z : Z) : string :=
  match Z.to_int z with
  | Decimal.Pos d => digits d
  | Decimal.Neg d => "-" +:+ digits d
  end.

(** ** JavaScript primitives used by the sources *)

Module Js.

(** The outcome of a call that may throw: [Throw name] is an exception
    whose [name] is the name of its constructor. *)
Inductive Completion (A : Type) : Type :=
| Normal (a : A)
| Throw (name : string).
Arguments Normal {A} a.
Arguments Throw {A} name.

(** The code unit of a one-character literal. *)
Definition unitOf (s : string) : N :=
  match s with
  | String c _ => c
  | EmptyString => 0
  end.

(** Truthiness of a string-valued property: [undefined] and the empty
    string are falsy. *)
Definition truthy (v : option string) : bool :=
  match v with
  | Some (String _ _) => true
  | _ => false
  end.

(** [v || d] for a string-valued [v]. *)
Definition or_else (v : option string) (d : string) : string :=
  match v with
  | Some (String c s) => String c s
  | _ => d
  end.

(** The code units that [String.prototype.trim] removes and that [\s]
    matches: white space and line terminators. *)
Definition isWhiteSpace (ch : N) : bool :=
  match ch with
  | 9 | 10 | 11 | 12 | 13 | 32 | 160 | 5760
  | 8192 | 8193 | 8194 | 8195 | 8196 | 8197 | 8198 | 8199 | 8200 | 8201 | 8202
  | 8232 | 8233 | 8239 | 8287 | 12288 | 65279 => true
  | _ => false
  end%N.

Fixpoint trimStart (s : string) : string :=
  match s with
  | EmptyString => EmptyString
  | String ch rest => if isWhiteSpace ch then trimStart rest else s
  end.

Fixpoint trimEnd (s : string) : string :=
  match s with
  | EmptyString => EmptyString
  | String ch rest =>
      match trimEnd rest with
      | EmptyString => if isWhiteSpace ch then EmptyString else String ch EmptyString
      | kept => String ch kept
      end
  end.

Definition trim (s : string) : string := trimEnd (trimStart s).

(** [s.indexOf(needle)]; [None] stands for [-1]. *)
Definition indexOf (s needle : string) : option nat := String.index 0 needle s.

Definition is_Some_b {A} (o : option A) : bool :=
  match o with Some _ => true | None => false end.

(** [s.slice(b, e)] for non-negative indices: it cuts between code units,
    also between the two halves of a surrogate pair. *)
Definition slice (s : string) (b e : nat) : string := substring b (e - b) s.

(** [s.replace(/\s+/g, ' ')]: [inRun] tells that the previous code unit
    was white space. *)
Fixpoint collapseFrom (inRun : bool) (s : string) : string :=
  match s with
  | EmptyString => EmptyString
  | String ch rest =>
      if isWhiteSpace ch then
        if inRun then collapseFrom true rest
        else String 32 (collapseFrom true rest)
      else String ch (collapseFrom false rest)
  end.

Definition collapseSpaces (s : string) : string := collapseFrom false s.

(** [a || b || ...]: the first truthy operand; [None] stands for a falsy
    result, which every caller only tests or replaces. *)
Fixpoint firstTruthy (vs : list (option string)) : option string :=
  match vs with
  | [] => None
  | v :: rest => if truthy v then v else firstTruthy rest
  end.

Definition hexDigit (n : N) : N :=
  (if n <? 10 then 48 + n else 55 + n)%N.

Definition percent (byte : N) : string :=
  String (unitOf "%")
    (String (hexDigit (byte / 16)) (String (hexDigit (byte mod 16)) EmptyString)).

Definition unreserved (ch : N) : bool :=
  ((65 <=? ch) && (ch <=? 90) || (97 <=? ch) && (ch <=? 122)
   || (48 <=? ch) && (ch <=? 57))%N
  || bool_decide (ch ∈ String.units "-_.!~*'()").

(** The leading and the trailing half of a surrogate pair. *)
Definition isHighSurrogate (ch : N) : bool := ((55296 <=? ch) && (ch <=? 56319))%N.
Definition isLowSurrogate (ch : N) : bool := ((56320 <=? ch) && (ch <=? 57343))%N.

(** The UTF-8 octets of a code point, each percent-encoded with upper-case
    hexadecimal digits. *)
Definition percentUtf8 (v : N) : string :=
  (if v <? 128 then percent v
   else if v <? 2048 then percent (192 + v / 64) +:+ percent (128 + v mod 64)
   else if v <? 65536 then
     percent (224 + v / 4096) +:+ percent (128 + (v / 64) mod 64)
     +:+ percent (128 + v mod 64)
   else
     percent (240 + v / 262144) +:+ percent (128 + (v / 4096) mod 64)
     +:+ percent (128 + (v / 64) mod 64) +:+ percent (128 + v mod 64))%N.

(** [encodeURIComponent]: a code unit that is not part of a surrogate pair
    stands for itself, a surrogate pair for its code point; a surrogate
    without its other half makes the call throw a [URIError]. *)
Fixpoint encodeURIComponent (s : string) : Completion string :=
  match s with
  | EmptyString => Normal EmptyString
  | String ch rest =>
      if unreserved ch then
        match encodeURIComponent rest with
        | Normal encoded => Normal (String ch encoded)
        | Throw e => Throw e
        end
      else if isLowSurrogate ch then Throw "URIError"
      else if isHighSurrogate ch then
        match rest with
        | String low rest' =>
            if isLowSurrogate low then
              match encodeURIComponent rest' with
              | Normal encoded =>
                  Normal (percentUtf8 ((ch - 55296) * 1024 + (low - 56320)
                                       + 65536)%N +:+ encoded)
              | Throw e => Throw e
              end
            else Throw "URIError"
        | EmptyString => Throw "URIError"
        end
      else
        match encodeURIComponent rest with
        | Normal encoded => Normal (percentUtf8 ch +:+ encoded)
        | Throw e => Throw e
        end
  end.

Definition dq : string := String 34 EmptyString.
Definition nl : string := String 10 EmptyString.

(** [String.prototype.toLowerCase], which the source applies to tag names
    only: the mapping of the code units below 256; other code units are
    left as they are. *)
Definition lowerUnit (ch : N) : N :=
  if ((65 <=? ch) && (ch <=? 90)
      || (192 <=? ch) && (ch <=? 222) && negb (ch =? 215))%N
  then (ch + 32)%N else ch.

Fixpoint toLowerCase (s : string) : string :=
  match s with
  | EmptyString => EmptyString
  | String ch rest => String (lowerUnit ch) (toLowerCase rest)
  end.

(** [Math.max(a, b)] on integers. *)
Definition Math_max (a b : Z) : Z := Z.max a b.

(** A settled promise. *)
Inductive Settled (A : Type) : Type :=
| Fulfilled (a : A)
| Rejected (message : option string).
Arguments Fulfilled {A} a.
Arguments Rejected {A} message.

End Js.

(** ** background.js: the request broker *)

Module Background.
Import Js.

(** [self.CONFIG] as read at lines 3-12; a field missing from [config.js],
    or of another type, is [None]. *)
Record Config := {
  CONFIG_FREE_TIER_LIMIT : option Z;
  CONFIG_DEFAULT_FREE_API_KEY : option string
}.

Definition FREE_TIER_LIMIT (c : Config) : Z :=
  match CONFIG_FREE_TIER_LIMIT c with
  | Some n => n
  | None => 100
  end.

Definition DEFAULT_FREE_API_KEY (c : Config) : string :=
  or_else (CONFIG_DEFAULT_FREE_API_KEY c) "".

(** The three keys of [chrome.storage.sync]. *)
Record SyncStorage := {
  llmApiKey : option string;
  freeTooltipsUsed : option Z;
  subscriptionStatus : option string
}.

(** Faults of the host storage API: [Some m] makes the call throw an
    [Error] whose message is [m]. *)
Record StorageFaults := {
  syncGetThrows : option (option string);
  syncSetThrows : option (option string)
}.

Definition noFaults : StorageFaults :=
  {| syncGetThrows := None; syncSetThrows := None |}.

Definition storageSyncGet (f : StorageFaults) (st : SyncStorage)
  : Settled SyncStorage :=
  match syncGetThrows f with
  | Some m => Rejected m
  | None => Fulfilled st
  end.

(** [storageSyncSet({ freeTooltipsUsed: n })]. *)
Definition storageSyncSet_used (f : StorageFaults) (n : Z) (st : SyncStorage)
  : SyncStorage * Settled unit :=
  match syncSetThrows f with
  | Some m => (st, Rejected m)
  | None =>
      ({| llmApiKey := llmApiKey st;
          freeTooltipsUsed := Some n;
          subscriptionStatus := subscriptionStatus st |}, Fulfilled tt)
  end.

Record UsageInfo := {
  plan : string;
  freeTierLimit : Z;
  freeTooltipsRemaining : Z;
  freeTooltipsUsedInfo : Z
}.

(** The object returned by [resolveUsageAndApiKey]. *)
Record Resolution := {
  apiKey : option string;
  error : option string;
  requiresUpgrade : option bool;
  usageInfo : UsageInfo
}.

Definition exhaustedMessage (c : Config) : string :=
  "Free tier limit of " +:+ pretty (FREE_TIER_LIMIT c) +:+
  " tooltips reached. Sign in with Google to upgrade for $3/month.".

Definition subscriptionMessage : string :=
  "Subscription active. Please add your personal API key in the popup to continue.".

Definition noFallbackMessage : string :=
  "Free tier unavailable. Configure a developer-managed API key locally to enable the first 100 tooltips.".

(** [data.subscriptionStatus || 'free'], line 112. *)
Definition planOf (data : SyncStorage) : string :=
  or_else (subscriptionStatus data) "free".

(** [Number.isFinite(data.freeTooltipsUsed) ? data.freeTooltipsUsed : 0],
    line 113. *)
Definition usedOf (data : SyncStorage) : Z :=
  match freeTooltipsUsed data with
  | Some n => n
  | None => 0
  end.

(** [resolveUsageAndApiKey(action)], lines 110-167. *)
Definition resolveUsageAndApiKey (c : Config) (f : StorageFaults)
    (action : string) (st : SyncStorage) : SyncStorage * Settled Resolution :=
  match storageSyncGet f st with
  | Rejected m => (st, Rejected m)
  | Fulfilled data =>
      let subscriptionStatus := planOf data in
      let used := usedOf data in
      let remainingBeforeUse := Math_max (FREE_TIER_LIMIT c - used) 0 in
      let usageInfoBase :=
        {| plan := subscriptionStatus;
           freeTierLimit := FREE_TIER_LIMIT c;
           freeTooltipsRemaining := remainingBeforeUse;
           freeTooltipsUsedInfo := used |} in
      if truthy (llmApiKey data) then
        (st, Fulfilled
           {| apiKey := llmApiKey data;
              error := None;
              requiresUpgrade := None;
              usageInfo :=
                {| plan := if String.eqb subscriptionStatus "paid"
                           then "paid" else "custom";
                   freeTierLimit := freeTierLimit usageInfoBase;
                   freeTooltipsRemaining := freeTooltipsRemaining usageInfoBase;
                   freeTooltipsUsedInfo := freeTooltipsUsedInfo usageInfoBase |} |})
      else if String.eqb subscriptionStatus "paid" then
        (st, Fulfilled
           {| apiKey := None;
              error := Some subscriptionMessage;
              requiresUpgrade := Some false;
              usageInfo := usageInfoBase |})
      else if used >=? FREE_TIER_LIMIT c then
        (st, Fulfilled
           {| apiKey := None;
              error := Some (exhaustedMessage c);
              requiresUpgrade := Some true;
              usageInfo :=
                {| plan := plan usageInfoBase;
                   freeTierLimit := freeTierLimit usageInfoBase;
                   freeTooltipsRemaining := 0;
                   freeTooltipsUsedInfo := freeTooltipsUsedInfo usageInfoBase |} |})
      else if String.eqb action "summarizeText"
              && negb (truthy (Some (DEFAULT_FREE_API_KEY c))) then
        (st, Fulfilled
           {| apiKey := None;
              error := Some noFallbackMessage;
              requiresUpgrade := Some true;
              usageInfo := usageInfoBase |})
      else
        let newUsedCount := used + 1 in
        match storageSyncSet_used f newUsedCount st with
        | (st', Rejected m) => (st', Rejected m)
        | (st', Fulfilled _) =>
            (st', Fulfilled
               {| apiKey := if String.eqb action "summarizeText"
                            then Some (DEFAULT_FREE_API_KEY c) else None;
                  error := None;
                  requiresUpgrade := None;
                  usageInfo :=
                    {| plan := "free";
                       freeTierLimit := freeTierLimit usageInfoBase;
                       freeTooltipsRemaining :=
                         Math_max (FREE_TIER_LIMIT c - newUsedCount) 0;
                       freeTooltipsUsedInfo := newUsedCount |} |})
        end
  end.

(** The [data] object of a request, and the request itself. *)
Record MessageData := {
  text : option string;
  imageUrl : option string;
  data_apiKey : option string
}.

Record Message := {
  action : string;
  data : MessageData
}.

(** What the service worker forwards to the offscreen document. *)
Record OffscreenRequest := {
  off_action : string;
  off_type : string;
  off_data : MessageData
}.

(** The response object handed to [sendResponse]. *)
Record Response := {
  success : bool;
  result : option string;
  resp_error : option string;
  errorCode : option string;
  resp_usageInfo : option UsageInfo
}.

(** What the offscreen document does with a forwarded request. *)
Inductive Offscreen :=
| OffscreenUnavailable
| ChannelError (message : option string)
| ProcessorReply (response : option Response).

Record Handled := {
  forwarded : option OffscreenRequest;
  settled : Settled Response
}.

(** [handleRequest(message)], lines 169-229. *)
Definition handleRequest (c : Config) (f : StorageFaults) (off : Offscreen)
    (message : Message) (st : SyncStorage) : SyncStorage * Handled :=
  let action := action message in
  match resolveUsageAndApiKey c f action st with
  | (st', Rejected m) =>
      (st', {| forwarded := None; settled := Rejected m |})
  | (st', Fulfilled apiResolution) =>
      if truthy (error apiResolution) then
        (st', {| forwarded := None;
                 settled := Fulfilled
                   {| success := false;
                      result := None;
                      resp_error := error apiResolution;
                      errorCode :=
                        Some (match requiresUpgrade apiResolution with
                              | Some true => "FREE_TIER_EXHAUSTED"
                              | _ => "API_KEY_REQUIRED"
                              end);
                      resp_usageInfo := Some (usageInfo apiResolution) |} |})
      else
        let processType :=
          if String.eqb action "summarizeText" then "summarize" else "ocr" in
        let requestData :=
          {| text := text (data message);
             imageUrl := imageUrl (data message);
             data_apiKey :=
               if truthy (apiKey apiResolution) then apiKey apiResolution
               else data_apiKey (data message) |} in
        match off with
        | OffscreenUnavailable =>
            (st', {| forwarded := None;
                     settled := Fulfilled
                       {| success := false;
                          result := None;
                          resp_error :=
                            Some "Background worker unavailable. Try reloading the extension.";
                          errorCode := Some "OFFSCREEN_UNAVAILABLE";
                          resp_usageInfo := Some (usageInfo apiResolution) |} |})
        | ChannelError m =>
            (st', {| forwarded :=
                       Some {| off_action := "processInOffscreen";
                               off_type := processType;
                               off_data := requestData |};
                     settled := Fulfilled
                       {| success := false;
                          result := None;
                          resp_error := Some (or_else m "Processor unavailable.");
                          errorCode := Some "OFFSCREEN_UNAVAILABLE";
                          resp_usageInfo := Some (usageInfo apiResolution) |} |})
        | ProcessorReply response =>
            let payload :=
              match response with
              | Some r => r
              | None =>
                  {| success := false;
                     result := None;
                     resp_error := Some "No response from processor.";
                     errorCode := Some "NO_PROCESSOR_RESPONSE";
                     resp_usageInfo := None |}
              end in
            (st', {| forwarded :=
                       Some {| off_action := "processInOffscreen";
                               off_type := processType;
                               off_data := requestData |};
                     settled := Fulfilled
                       {| success := success payload;
                          result := result payload;
                          resp_error := resp_error payload;
                          errorCode := errorCode payload;
                          resp_usageInfo := Some (usageInfo apiResolution) |} |})
        end
  end.

(** Outcome of [chrome.tabs.captureVisibleTab]. *)
Record Capture := {
  captureLastError : option string;
  capturedDataUrl : option string
}.

Inductive Reply :=
| TooltipReply (r : Response)
| CaptureReply (ok : bool) (dataUrl : option string) (err : option string).

(** The [chrome.runtime.onMessage] listener, lines 239-270: the value it
    passes to [sendResponse], if any. *)
Definition onMessage (c : Config) (f : StorageFaults) (off : Offscreen)
    (cap : Capture) (message : Message) (st : SyncStorage)
  : SyncStorage * option Reply :=
  if String.eqb (action message) "capturePreview" then
    if is_Some_b (captureLastError cap) || negb (truthy (capturedDataUrl cap)) then
      let errorMessage :=
        match captureLastError cap with
        | Some m => m
        | None => "Failed to capture preview."
        end in
      (st, Some (CaptureReply false None (Some errorMessage)))
    else (st, Some (CaptureReply true (capturedDataUrl cap) None))
  else if String.eqb (action message) "summarizeText"
          || String.eqb (action message) "ocrImage" then
    match handleRequest c f off message st with
    | (st', {| settled := Fulfilled r |}) => (st', Some (TooltipReply r))
    | (st', {| settled := Rejected m |}) =>
        (st', Some (TooltipReply
           {| success := false;
              result := None;
              resp_error := Some (or_else m "Unexpected error occurred.");
              errorCode := Some "UNEXPECTED_ERROR";
              resp_usageInfo := None |}))
    end
  else (st, None).

(** Successive requests served by the broker, each with its own
    environment. *)
Fixpoint serve (c : Config) (reqs : list (StorageFaults * Offscreen * Message))
    (st : SyncStorage) : SyncStorage * list Handled :=
  match reqs with
  | [] => (st, [])
  | (f, off, m) :: rest =>
      let '(st1, h) := handleRequest c f off m st in
      let '(st2, hs) := serve c rest st1 in
      (st2, h :: hs)
  end.

End Background.

(** ** popup.js: the two writers of the subscription state *)

Module Popup.
Import Js Background.

(** The [saveButton] click handler, lines 105-121: the store it leaves and
    the status line it shows. *)
Definition saveButton_click (apiKeyInput : string) (st : SyncStorage)
  : SyncStorage * string :=
  let apiKey := trim apiKeyInput in
  if truthy (Some apiKey) then
    ({| llmApiKey := Some apiKey;
        freeTooltipsUsed := freeTooltipsUsed st;
        subscriptionStatus := Some "custom" |},
     "API Key saved successfully!")
  else (st, "API Key cannot be empty.").

(** The callback of [chrome.identity.launchWebAuthFlow], lines 77-98. *)
Definition onWebAuthFlow (lastError : option string)
    (redirectUrl : option string) (st : SyncStorage) : SyncStorage * string :=
  match lastError with
  | Some m => (st, "Google sign-in failed: " +:+ m)
  | None =>
      if negb (truthy redirectUrl)
         || bool_decide (indexOf (or_else redirectUrl "") "access_token=" = None)
      then (st, "Google sign-in did not return an access token.")
      else
        ({| llmApiKey := llmApiKey st;
            freeTooltipsUsed := freeTooltipsUsed st;
            subscriptionStatus := Some "paid" |},
         "Upgrade successful! Add your personal API key for premium usage.")
  end.

End Popup.

(** ** src/content.ts: classifier, cache and dispatcher *)

Module Content.
Import Js.

Definition TOOLTIP_ID : string := "ai-tooltip-summary".
Definition HOVER_DELAY : Z := 500.
Definition AUTO_HIDE_DELAY : Z := 5000.
Definition PREVIEW_CACHE_DURATION_MS : Z := 5 * 60 * 1000.
Definition SUMMARY_CACHE_DURATION_MS : Z := 10 * 60 * 1000.
Definition MIN_TEXT_LENGTH : nat := 50.
Definition MAX_TEXT_LENGTH : nat := 2000.

(** The DOM interface an element implements, as far as [instanceof] tests
    of the source can tell. *)
Inductive Interface :=
| HTMLAnchorElement
| HTMLButtonElement
| HTMLInputElement
| HTMLTextAreaElement
| HTMLSelectElement
| HTMLImageElement
| HTMLElement.

Global Instance Interface_eq_dec : EqDecision Interface.
Proof. solve_decision. Defined.

(** An [HTMLElement] as the content script sees it. [node] is the identity
    of the DOM node. *)
Record Element := {
  node : nat;
  interface : Interface;
  tagName : string;
  attributes : gmap string string;
  id : string;
  textContent : option string;
  href : string;
  src : string;
  parentTextContent : option string
}.

Definition getAttribute (element : Element) (name : string) : option string :=
  attributes element !! name.

Definition instanceof (element : Element) (i : Interface) : bool :=
  bool_decide (interface element = i).

(** [window.location]. *)
Record Location := {
  origin : string;
  pathname : string
}.

(** [getElementLabel], lines 83-94. *)
Definition getElementLabel (element : Element) : option string :=
  match firstTruthy [getAttribute element "aria-label";
                     getAttribute element "title";
                     textContent element;
                     if instanceof element HTMLAnchorElement
                     then Some (href element) else None] with
  | Some label => Some (collapseSpaces (trim label))
  | None => None
  end.

Definition textContainers : list string :=
  ["P"; "H1"; "H2"; "H3"; "H4"; "H5"; "H6"; "LI"; "BLOCKQUOTE"; "DD"; "DT";
   "TD"; "TH"; "SPAN"; "DIV"; "ARTICLE"; "SECTION"].

(** [extractTextFromElement], lines 96-142. *)
Definition extractTextFromElement (element : Element) : option string :=
  if instanceof element HTMLAnchorElement
     || instanceof element HTMLButtonElement
     || bool_decide (getAttribute element "role" = Some "button")
     || instanceof element HTMLInputElement
     || instanceof element HTMLTextAreaElement
     || instanceof element HTMLSelectElement
  then None
  else if negb (bool_decide (tagName element ∈ textContainers)) then None
  else
    let text := or_else (trim <$> textContent element) "" in
    if (String.length text <? MIN_TEXT_LENGTH)%nat then None
    else Some (if (MAX_TEXT_LENGTH <? String.length text)%nat
               then slice text 0 MAX_TEXT_LENGTH +:+ "..."
               else text).

Definition pageId (loc : Location) : string := origin loc +:+ pathname loc.

(** [getSummaryCacheKey], lines 144-149; it throws when
    [encodeURIComponent] does. *)
Definition getSummaryCacheKey (loc : Location) (text : string)
  : Completion string :=
  let textHash := trim (collapseSpaces (slice text 0 100)) in
  match encodeURIComponent textHash with
  | Throw e => Throw e
  | Normal encoded => Normal ("summary::" +:+ pageId loc +:+ "::" +:+ encoded)
  end.

(** [getButtonSummaryCacheKey], lines 151-161; it throws when
    [encodeURIComponent] does. *)
Definition getButtonSummaryCacheKey (loc : Location) (element : Element)
    (buttonText : string) (href : option string) : Completion string :=
  let identifier :=
    or_else (firstTruthy [href; Some buttonText; Some (id element);
                          getAttribute element "aria-label"]) "" in
  let hash := trim (collapseSpaces (slice identifier 0 100)) in
  match encodeURIComponent hash with
  | Throw e => Throw e
  | Normal encoded =>
      Normal ("button-summary::" +:+ pageId loc +:+ "::" +:+ encoded)
  end.

(** [parts.join('\n')]. *)
Fixpoint join (sep : string) (parts : list string) : string :=
  match parts with
  | [] => ""
  | [part] => part
  | part :: rest => part +:+ sep +:+ join sep rest
  end.

(** [buildButtonContext], lines 163-194. *)
Definition buildButtonContext (element : Element) (buttonText : string)
    (href : option string) : string :=
  let parts1 :=
    if truthy (Some buttonText)
    then ["Button text: " +:+ dq +:+ buttonText +:+ dq] else [] in
  let parts2 :=
    match href with
    | Some (String _ _ as h) => ["Link URL: " +:+ h]
    | _ => []
    end in
  let parts3 :=
    match getAttribute element "aria-label" with
    | Some (String _ _ as ariaLabel) =>
        if String.eqb ariaLabel buttonText then []
        else ["Aria label: " +:+ dq +:+ ariaLabel +:+ dq]
    | _ => []
    end in
  let parts4 :=
    match getAttribute element "title" with
    | Some (String _ _ as title) =>
        if String.eqb title buttonText then []
        else ["Title: " +:+ dq +:+ title +:+ dq]
    | _ => []
    end in
  let parts5 :=
    match trim <$> parentTextContent element with
    | Some (String _ _ as parentText) =>
        if (String.length parentText <? 200)%nat
        then ["Context: " +:+ parentText] else []
    | _ => []
    end in
  join nl (parts1 ++ parts2 ++ parts3 ++ parts4 ++ parts5).

(** [getPreviewCacheKey], lines 243-266; [None] is [null], and it throws
    when [encodeURIComponent] does. *)
Definition getPreviewCacheKey (loc : Location) (element : Element)
  : Completion (option string) :=
  if negb (instanceof element HTMLAnchorElement)
     && negb (instanceof element HTMLButtonElement)
     && negb (bool_decide (getAttribute element "role" = Some "button"))
  then Normal None
  else
    let identifier :=
      if instanceof element HTMLAnchorElement
      then firstTruthy [Some (href element); textContent element;
                        getAttribute element "aria-label"; Some (id element)]
      else firstTruthy [Some (id element); getAttribute element "aria-label";
                        textContent element] in
    match identifier with
    | None => Normal None
    | Some identifier =>
        let trimmed := slice (collapseSpaces (trim identifier)) 0 200 in
        match encodeURIComponent trimmed with
        | Throw e => Throw e
        | Normal encoded =>
            let elementType :=
              if instanceof element HTMLAnchorElement then "link"
              else "button" in
            Normal (Some ("preview::" +:+ elementType +:+ "::" +:+ pageId loc
                          +:+ "::" +:+ encoded))
        end
    end.

(** An entry of [chrome.storage.local]: a [SummaryCacheEntry] has
    [summary], a [PreviewCacheEntry] has [dataUrl]. *)
Record CacheEntry := {
  summary : option string;
  dataUrl : option string;
  timestamp : Z
}.

(** [getCachedSummary], lines 196-221, run at time [now] against the
    store; [lastError] is [chrome.runtime.lastError] in the callback. *)
Definition getCachedSummary (now : Z) (lastError : option string)
    (summaryKey : string) (local : gmap string CacheEntry)
  : gmap string CacheEntry * Settled (option string) :=
  match lastError with
  | Some m => (local, Rejected (Some m))
  | None =>
      match local !! summaryKey with
      | None => (local, Fulfilled None)
      | Some entry =>
          let isExpired := now - timestamp entry >? SUMMARY_CACHE_DURATION_MS in
          if isExpired then (delete summaryKey local, Fulfilled None)
          else (local, Fulfilled (summary entry))
      end
  end.

(** [cacheSummary], lines 223-241. *)
Definition cacheSummary (now : Z) (lastError : option string)
    (summaryKey summary : string) (local : gmap string CacheEntry)
  : gmap string CacheEntry * Settled unit :=
  let entry := {| summary := Some summary; dataUrl := None; timestamp := now |} in
  match lastError with
  | Some m => (local, Rejected (Some m))
  | None => (<[summaryKey := entry]> local, Fulfilled tt)
  end.

(** [getCachedPreview], lines 268-293. *)
Definition getCachedPreview (now : Z) (lastError : option string)
    (previewKey : string) (local : gmap string CacheEntry)
  : gmap string CacheEntry * Settled (option string) :=
  match lastError with
  | Some m => (local, Rejected (Some m))
  | None =>
      match local !! previewKey with
      | None => (local, Fulfilled None)
      | Some entry =>
          let isExpired := now - timestamp entry >? PREVIEW_CACHE_DURATION_MS in
          if isExpired then (delete previewKey local, Fulfilled None)
          else (local, Fulfilled (dataUrl entry))
      end
  end.

(** [cachePreview], lines 295-313. *)
Definition cachePreview (now : Z) (lastError : option string)
    (previewKey dataUrl : string) (local : gmap string CacheEntry)
  : gmap string CacheEntry * Settled unit :=
  let entry := {| summary := None; dataUrl := Some dataUrl; timestamp := now |} in
  match lastError with
  | Some m => (local, Rejected (Some m))
  | None => (<[previewKey := entry]> local, Fulfilled tt)
  end.

(** [escapeHtml], lines 64-81. *)
Fixpoint escapeHtml (value : string) : string :=
  match value with
  | EmptyString => EmptyString
  | String ch rest =>
      (if N.eqb ch (unitOf "&") then "&amp;"
       else if N.eqb ch (unitOf "<") then "&lt;"
       else if N.eqb ch (unitOf ">") then "&gt;"
       else if N.eqb ch (unitOf dq) then "&quot;"
       else if N.eqb ch (unitOf "'") then "&#39;"
       else String ch EmptyString) +:+ escapeHtml rest
  end.

(** [buildUsageFooter], lines 56-62. *)
Definition buildUsageFooter (usageInfo : option Background.UsageInfo) : string :=
  match usageInfo with
  | None => ""
  | Some u =>
      "<p class=" +:+ dq +:+ "ai-tooltip-footer" +:+ dq +:+ ">Free tooltips left: "
      +:+ pretty (Background.freeTooltipsRemaining u) +:+ "/"
      +:+ pretty (Background.freeTierLimit u) +:+ "</p>"
  end.

(** A tooltip [div] inside [document.body]. *)
Record Tooltip := {
  tip_node : nat;
  tip_id : string;
  innerHTML : string
}.

(** Callbacks handed to [window.setTimeout]. *)
Inductive TimerTask :=
| ImageHoverFired (target : Element) (imageUrl : string)
| PreviewHoverFired (target : Element)
    (previewKey buttonContext buttonSummaryKey : string)
| TextHoverFired (target : Element) (text summaryKey : string)
| AutoHide (tooltip : nat)
| RemoveFixed (fixedTooltip : nat).

(** Callbacks waiting for storage or for the background worker. *)
Inductive Continuation :=
| OcrResponse (target : Element)
| TextCacheRead (target : Element) (text summaryKey : string)
| TextResponse (target : Element) (summaryKey : string)
| TextCacheWritten (target : Element) (summaryKey : string) (stamped : Z)
    (result usageFooter : string)
| PreviewCacheRead (target : Element)
    (previewKey buttonContext buttonSummaryKey : string)
| FixedResponse (fixedTooltip : nat).

(** The page as the content script sees and changes it. *)
Record Page := {
  location : Location;
  attached : gset nat;
  tooltips : list Tooltip;
  currentTooltip : option nat;
  hoverTimeout : option nat;
  timers : list (nat * (Z * TimerTask));
  pending : list (nat * Continuation);
  mouseoutOnce : list nat;
  local : gmap string CacheEntry;
  sent : list Background.Message;
  fresh : nat
}.

Definition initialPage (loc : Location) (elements : gset nat) : Page :=
  {| location := loc; attached := elements; tooltips := [];
     currentTooltip := None; hoverTimeout := None; timers := [];
     pending := []; mouseoutOnce := []; local := ∅; sent := []; fresh := 0 |}.

Definition set_attached (v : gset nat) (st : Page) : Page :=
  {| location := location st; attached := v; tooltips := tooltips st;
     currentTooltip := currentTooltip st; hoverTimeout := hoverTimeout st;
     timers := timers st; pending := pending st;
     mouseoutOnce := mouseoutOnce st; local := local st; sent := sent st;
     fresh := fresh st |}.

Definition set_tooltips (v : list Tooltip) (st : Page) : Page :=
  {| location := location st; attached := attached st; tooltips := v;
     currentTooltip := currentTooltip st; hoverTimeout := hoverTimeout st;
     timers := timers st; pending := pending st;
     mouseoutOnce := mouseoutOnce st; local := local st; sent := sent st;
     fresh := fresh st |}.

Definition set_currentTooltip (v : option nat) (st : Page) : Page :=
  {| location := location st; attached := attached st; tooltips := tooltips st;
     currentTooltip := v; hoverTimeout := hoverTimeout st;
     timers := timers st; pending := pending st;
     mouseoutOnce := mouseoutOnce st; local := local st; sent := sent st;
     fresh := fresh st |}.

Definition set_hoverTimeout (v : option nat) (st : Page) : Page :=
  {| location := location st; attached := attached st; tooltips := tooltips st;
     currentTooltip := currentTooltip st; hoverTimeout := v;
     timers := timers st; pending := pending st;
     mouseoutOnce := mouseoutOnce st; local := local st; sent := sent st;
     fresh := fresh st |}.

Definition set_timers (v : list (nat * (Z * TimerTask))) (st : Page) : Page :=
  {| location := location st; attached := attached st; tooltips := tooltips st;
     currentTooltip := currentTooltip st; hoverTimeout := hoverTimeout st;
     timers := v; pending := pending st;
     mouseoutOnce := mouseoutOnce st; local := local st; sent := sent st;
     fresh := fresh st |}.

Definition set_pending (v : list (nat * Continuation)) (st : Page) : Page :=
  {| location := location st; attached := attached st; tooltips := tooltips st;
     currentTooltip := currentTooltip st; hoverTimeout := hoverTimeout st;
     timers := timers st; pending := v;
     mouseoutOnce := mouseoutOnce st; local := local st; sent := sent st;
     fresh := fresh st |}.

Definition set_mouseoutOnce (v : list nat) (st : Page) : Page :=
  {| location := location st; attached := attached st; tooltips := tooltips st;
     currentTooltip := currentTooltip st; hoverTimeout := hoverTimeout st;
     timers := timers st; pending := pending st;
     mouseoutOnce := v; local := local st; sent := sent st;
     fresh := fresh st |}.

Definition set_local (v : gmap string CacheEntry) (st : Page) : Page :=
  {| location := location st; attached := attached st; tooltips := tooltips st;
     currentTooltip := currentTooltip st; hoverTimeout := hoverTimeout st;
     timers := timers st; pending := pending st;
     mouseoutOnce := mouseoutOnce st; local := v; sent := sent st;
     fresh := fresh st |}.

Definition set_sent (v : list Background.Message) (st : Page) : Page :=
  {| location := location st; attached := attached st; tooltips := tooltips st;
     currentTooltip := currentTooltip st; hoverTimeout := hoverTimeout st;
     timers := timers st; pending := pending st;
     mouseoutOnce := mouseoutOnce st; local := local st; sent := v;
     fresh := fresh st |}.

Definition set_fresh (v : nat) (st : Page) : Page :=
  {| location := location st; attached := attached st; tooltips := tooltips st;
     currentTooltip := currentTooltip st; hoverTimeout := hoverTimeout st;
     timers := timers st; pending := pending st;
     mouseoutOnce := mouseoutOnce st; local := local st; sent := sent st;
     fresh := v |}.

(** [document.body.contains(target)]. *)
Definition contains (st : Page) (target : Element) : bool :=
  bool_decide (node target ∈ attached st).

(** [node.remove()] for a tooltip [div]. *)
Definition removeNode (n : nat) (ts : list Tooltip) : list Tooltip :=
  filter (λ t, tip_node t ≠ n) ts.

(** [removeCurrentTooltip], lines 42-47. *)
Definition removeCurrentTooltip (st : Page) : Page :=
  match currentTooltip st with
  | Some n => set_currentTooltip None (set_tooltips (removeNode n (tooltips st)) st)
  | None => st
  end.

(** Removal of what [document.getElementById(i)] finds: the first [div]
    with that id in document order. *)
Fixpoint removeFirstWithId (i : string) (ts : list Tooltip) : list Tooltip :=
  match ts with
  | [] => []
  | t :: rest =>
      if String.eqb (tip_id t) i then rest else t :: removeFirstWithId i rest
  end.

(** [removeFixedSummaryTooltip], lines 49-54. *)
Definition removeFixedSummaryTooltip (st : Page) : Page :=
  set_tooltips (removeFirstWithId TOOLTIP_ID (tooltips st)) st.

(** [window.setTimeout(task, delay)] called at time [now]: the timer id
    and the page. *)
Definition setTimeout (now : Z) (task : TimerTask) (delay : Z) (st : Page)
  : nat * Page :=
  (fresh st,
   set_fresh (S (fresh st))
     (set_timers (timers st ++ [(fresh st, (now + delay, task))]) st)).

(** [window.clearTimeout(id)]. *)
Definition clearTimeout (i : nat) (st : Page) : Page :=
  set_timers (filter (λ t, t.1 ≠ i) (timers st)) st.

Definition spinner : string :=
  " <span class=" +:+ dq +:+ "loading-spinner" +:+ dq +:+ "></span>".

(** [showTooltip], lines 361-389. *)
Definition showTooltip (now : Z) (element : Element) (content : string)
    (isProcessing : bool) (st : Page) : Page :=
  let st := removeCurrentTooltip st in
  let st := removeFixedSummaryTooltip st in
  let tooltip :=
    {| tip_node := fresh st; tip_id := "";
       innerHTML := if isProcessing then content +:+ spinner else content |} in
  let st := set_fresh (S (fresh st)) (set_tooltips (tooltips st ++ [tooltip]) st) in
  let st := set_currentTooltip (Some (tip_node tooltip)) st in
  let st := set_mouseoutOnce (node element :: mouseoutOnce st) st in
  if isProcessing then st
  else (setTimeout now (AutoHide (tip_node tooltip)) AUTO_HIDE_DELAY st).2.

(** [chrome.runtime.sendMessage(message, callback)]. *)
Definition sendMessage (message : Background.Message) (callback : Continuation)
    (st : Page) : Page :=
  set_fresh (S (fresh st))
    (set_pending (pending st ++ [(fresh st, callback)])
       (set_sent (sent st ++ [message]) st)).

(** A storage call whose callback is [callback]. *)
Definition awaitStorage (callback : Continuation) (st : Page) : Page :=
  set_fresh (S (fresh st)) (set_pending (pending st ++ [(fresh st, callback)]) st).

(** [scheduleImageHover], lines 391-439: the scheduling part. *)
Definition scheduleImageHover (now : Z) (target : Element) (st : Page) : Page :=
  let imageUrl := src target in
  let '(i, st) := setTimeout now (ImageHoverFired target imageUrl) HOVER_DELAY st in
  set_hoverTimeout (Some i) st.

(** The constants [href] and [buttonText] of [schedulePreviewHover],
    lines 442-445. *)
Definition previewHref (target : Element) : option string :=
  let isLink := instanceof target HTMLAnchorElement in
  if isLink then Some (href target) else None.

Definition previewButtonText (target : Element) : string :=
  let label := getElementLabel target in
  or_else (firstTruthy [trim <$> textContent target; label])
          (toLowerCase (tagName target)).

(** [schedulePreviewHover], lines 441-582: the scheduling part. The key of
    the button summary is derived before the timer is set (line 446): when
    that throws, the exception leaves the function with the page as it
    was. *)
Definition schedulePreviewHover (now : Z) (target : Element)
    (previewKey : string) (st : Page) : Page * Completion unit :=
  let href := previewHref target in
  let buttonText := previewButtonText target in
  let buttonContext := buildButtonContext target buttonText href in
  match getButtonSummaryCacheKey (location st) target buttonText href with
  | Throw e => (st, Throw e)
  | Normal buttonSummaryKey =>
      let '(i, st) :=
        setTimeout now
          (PreviewHoverFired target previewKey buttonContext buttonSummaryKey)
          HOVER_DELAY st in
      (set_hoverTimeout (Some i) st, Normal tt)
  end.

(** [scheduleTextHover], lines 584-666: the scheduling part. The summary
    key is derived before the timer is set (line 585): when that throws,
    the exception leaves the function with the page as it was. *)
Definition scheduleTextHover (now : Z) (target : Element) (text : string)
    (st : Page) : Page * Completion unit :=
  match getSummaryCacheKey (location st) text with
  | Throw e => (st, Throw e)
  | Normal summaryKey =>
      let '(i, st) :=
        setTimeout now (TextHoverFired target text summaryKey) HOVER_DELAY st in
      (set_hoverTimeout (Some i) st, Normal tt)
  end.

(** [resetHoverTimeout], lines 699-704. *)
Definition resetHoverTimeout (st : Page) : Page :=
  match hoverTimeout st with
  | Some i => set_hoverTimeout None (clearTimeout i st)
  | None => st
  end.

(** [handleHover], lines 668-697; [None] is an event target that is not
    an [HTMLElement]. The listener has no handler of its own: an exception
    of a key derivation leaves it, with the page as it is at that point,
    the pending timer cleared and no new one set. *)
Definition handleHover (now : Z) (target : option Element) (st : Page)
  : Page * Completion unit :=
  match target with
  | None => (st, Normal tt)
  | Some target =>
      let st :=
        match hoverTimeout st with
        | Some i => set_hoverTimeout None (clearTimeout i st)
        | None => st
        end in
      if instanceof target HTMLImageElement && truthy (Some (src target)) then
        (scheduleImageHover now target st, Normal tt)
      else
        match getPreviewCacheKey (location st) target with
        | Throw e => (st, Throw e)
        | Normal (Some (String _ _ as previewKey)) =>
            schedulePreviewHover now target previewKey st
        | Normal _ =>
            match extractTextFromElement target with
            | Some (String _ _ as text) => scheduleTextHover now target text st
            | _ => (st, Normal tt)
            end
        end
  end.

Definition upgradeHint (response : option Background.Response) : string :=
  if bool_decide (response ≫= Background.errorCode = Some "FREE_TIER_EXHAUSTED")
  then "<p><em>Limit reached. Open the extension popup to upgrade.</em></p>"
  else "".

Definition succeeded (response : option Background.Response) : bool :=
  match response with
  | Some r => Background.success r
  | None => false
  end.

Definition summarizeRequest (text : string) : Background.Message :=
  {| Background.action := "summarizeText";
     Background.data :=
       {| Background.text := Some text; Background.imageUrl := None;
          Background.data_apiKey := None |} |}.

Definition ocrRequest (imageUrl : string) : Background.Message :=
  {| Background.action := "ocrImage";
     Background.data :=
       {| Background.text := None; Background.imageUrl := Some imageUrl;
          Background.data_apiKey := None |} |}.

(** The callback of [chrome.runtime.sendMessage] in [scheduleImageHover],
    lines 401-436. *)
Definition onOcrResponse (now : Z) (target : Element)
    (lastError : option string) (response : option Background.Response)
    (st : Page) : Page :=
  match lastError with
  | Some m =>
      showTooltip now target
        ("<p><strong>Error:</strong></p><p>" +:+ m +:+ "</p>") false st
  | None =>
      let usageFooter := buildUsageFooter (response ≫= Background.resp_usageInfo) in
      if succeeded response then
        showTooltip now target
          ("<p><strong>Image OCR Result:</strong></p><p>"
           +:+ default "" (response ≫= Background.result) +:+ "</p>"
           +:+ usageFooter) false st
      else if truthy (response ≫= Background.resp_error) then
        showTooltip now target
          ("<p><strong>Error:</strong></p><p>"
           +:+ default "" (response ≫= Background.resp_error) +:+ "</p>"
           +:+ upgradeHint response +:+ usageFooter) false st
      else
        showTooltip now target
          ("<p><strong>Error:</strong></p><p>Failed to get response from background worker.</p>"
           +:+ usageFooter) false st
  end.

(** [scheduleTextHover] after [await getCachedSummary(summaryKey)],
    lines 592-660. *)
Definition onTextCacheRead (now : Z) (target : Element)
    (text summaryKey : string) (lastError : option string) (st : Page) : Page :=
  let '(local', read) := getCachedSummary now lastError summaryKey (local st) in
  let summary := match read with Fulfilled v => v | Rejected _ => None end in
  let st := set_local local' st in
  if negb (contains st target) then st
  else if truthy summary then
    showTooltip now target
      ("<p><strong>Summary:</strong></p><p>"
       +:+ escapeHtml (default "" summary) +:+ "</p>") false st
  else sendMessage (summarizeRequest text) (TextResponse target summaryKey) st.

(** The callback of [chrome.runtime.sendMessage] in [scheduleTextHover],
    lines 615-659, up to [await cacheSummary]. *)
Definition onTextResponse (now : Z) (target : Element) (summaryKey : string)
    (lastError : option string) (response : option Background.Response)
    (st : Page) : Page :=
  if negb (contains st target) then st
  else
    match lastError with
    | Some m =>
        let errorMessage := or_else (Some m) "Unknown error occurred." in
        showTooltip now target
          ("<p><strong>Error:</strong></p><p>" +:+ escapeHtml errorMessage
           +:+ "</p>") false st
    | None =>
        let usageFooter :=
          buildUsageFooter (response ≫= Background.resp_usageInfo) in
        if succeeded response && truthy (response ≫= Background.result) then
          awaitStorage
            (TextCacheWritten target summaryKey now
               (default "" (response ≫= Background.result)) usageFooter) st
        else if truthy (response ≫= Background.resp_error) then
          showTooltip now target
            ("<p><strong>Error:</strong></p><p>"
             +:+ escapeHtml (default "" (response ≫= Background.resp_error))
             +:+ "</p>" +:+ upgradeHint response +:+ usageFooter) false st
        else
          showTooltip now target
            ("<p><strong>Error:</strong></p><p>Failed to get response from background worker.</p>"
             +:+ usageFooter) false st
    end.

(** [scheduleTextHover] after [await cacheSummary(...)], lines 630-640. *)
Definition onTextCacheWritten (now : Z) (target : Element)
    (summaryKey : string) (stamped : Z) (result usageFooter : string)
    (lastError : option string) (st : Page) : Page :=
  let '(local', _) := cacheSummary stamped lastError summaryKey result (local st) in
  showTooltip now target
    ("<p><strong>Summary:</strong></p><p>" +:+ escapeHtml result +:+ "</p>"
     +:+ usageFooter) false (set_local local' st).

Definition setInnerHTML (n : nat) (html : string) (ts : list Tooltip)
  : list Tooltip :=
  map (λ t, if bool_decide (tip_node t = n)
            then {| tip_node := tip_node t; tip_id := tip_id t; innerHTML := html |}
            else t) ts.

(** The [showSummaryTooltip] listener, lines 709-757. *)
Definition onRuntimeMessage (action : string) (text : option string)
    (st : Page) : Page :=
  match text with
  | None => st
  | Some text =>
      if negb (String.eqb action "showSummaryTooltip") then st
      else
        let preview := slice text 0 50 in
        let fixedTooltip :=
          {| tip_node := fresh st; tip_id := TOOLTIP_ID;
             innerHTML :=
               "<p>Processing summary for: <strong>" +:+ preview
               +:+ "...</strong></p><p>Loading..." +:+ spinner +:+ "</p>" |} in
        let st :=
          set_fresh (S (fresh st))
            (set_tooltips (tooltips st ++ [fixedTooltip]) st) in
        sendMessage (summarizeRequest text)
          (FixedResponse (tip_node fixedTooltip)) st
  end.

(** The callback of [chrome.runtime.sendMessage] in that listener,
    lines 731-753. *)
Definition onFixedResponse (now : Z) (fixedTooltip : nat)
    (lastError : option string) (response : option Background.Response)
    (st : Page) : Page :=
  let html :=
    match lastError with
    | Some m => "<p><strong>Error:</strong></p><p>" +:+ m +:+ "</p>"
    | None =>
        let usageFooter :=
          buildUsageFooter (response ≫= Background.resp_usageInfo) in
        if succeeded response then
          "<p><strong>Summary:</strong></p><p>"
          +:+ default "" (response ≫= Background.result) +:+ "</p>"
          +:+ usageFooter
        else if truthy (response ≫= Background.resp_error) then
          "<p><strong>Error:</strong></p><p>"
          +:+ default "" (response ≫= Background.resp_error) +:+ "</p>"
          +:+ upgradeHint response +:+ usageFooter
        else
          "<p><strong>Error:</strong></p><p>Failed to get response from background worker.</p>"
          +:+ usageFooter
    end in
  let st := set_tooltips (setInnerHTML fixedTooltip html (tooltips st)) st in
  (setTimeout now (RemoveFixed fixedTooltip) AUTO_HIDE_DELAY st).2.

(** A timer callback runs. *)
Definition fire (now : Z) (task : TimerTask) (st : Page) : Page :=
  match task with
  | ImageHoverFired target imageUrl =>
      let st :=
        showTooltip now target
          "<p>Processing Image OCR...</p><p>Loading...</p>" true st in
      sendMessage (ocrRequest imageUrl) (OcrResponse target) st
  | PreviewHoverFired target previewKey buttonContext buttonSummaryKey =>
      let st := showTooltip now target "<p><em>Analyzing...</em></p>" true st in
      awaitStorage
        (PreviewCacheRead target previewKey buttonContext buttonSummaryKey) st
  | TextHoverFired target text summaryKey =>
      let st :=
        showTooltip now target
          "<p>Processing summary...</p><p>Loading...</p>" true st in
      awaitStorage (TextCacheRead target text summaryKey) st
  | AutoHide tooltip =>
      if bool_decide (currentTooltip st = Some tooltip)
      then removeCurrentTooltip st else st
  | RemoveFixed fixedTooltip =>
      set_tooltips (removeNode fixedTooltip (tooltips st)) st
  end.

(** What happens to the page. *)
Inductive Event :=
| mouseover (target : option Element)
| mouseout (target : nat)
| timeout (i : nat)
| elementRemoved (n : nat)
| elementInserted (n : nat)
| storageGot (k : nat) (lastError : option string)
| storageSet (k : nat) (lastError : option string)
| responded (k : nat) (lastError : option string)
    (response : option Background.Response)
| runtimeMessage (action : string) (text : option string).

Definition lookupId {A} (i : nat) (l : list (nat * A)) : option A :=
  snd <$> find (λ e, bool_decide (e.1 = i)) l.

Definition dropId {A} (i : nat) (l : list (nat * A)) : list (nat * A) :=
  filter (λ e, e.1 ≠ i) l.

(** One turn of the event loop at time [now]. A timer fires only when it
    is due. An exception that leaves the hover listener is reported by the
    host and the page stays as the listener left it. The preview pipeline
    is followed up to its first suspension (the read of the cached button
    summary); its later stages are not part of this development. *)
Definition step (now : Z) (ev : Event) (st : Page) : Page :=
  match ev with
  | mouseover target => (handleHover now target st).1
  | mouseout target =>
      let st :=
        if bool_decide (target ∈ mouseoutOnce st) then
          removeCurrentTooltip
            (set_mouseoutOnce (filter (λ n, n ≠ target) (mouseoutOnce st)) st)
        else st in
      resetHoverTimeout st
  | timeout i =>
      match lookupId i (timers st) with
      | Some (due, task) =>
          if due <=? now then fire now task (set_timers (dropId i (timers st)) st)
          else st
      | None => st
      end
  | elementRemoved n => set_attached (attached st ∖ {[n]}) st
  | elementInserted n => set_attached (attached st ∪ {[n]}) st
  | storageGot k lastError =>
      match lookupId k (pending st) with
      | Some (TextCacheRead target text summaryKey) =>
          onTextCacheRead now target text summaryKey lastError
            (set_pending (dropId k (pending st)) st)
      | _ => st
      end
  | storageSet k lastError =>
      match lookupId k (pending st) with
      | Some (TextCacheWritten target summaryKey stamped result usageFooter) =>
          onTextCacheWritten now target summaryKey stamped result usageFooter
            lastError (set_pending (dropId k (pending st)) st)
      | _ => st
      end
  | responded k lastError response =>
      match lookupId k (pending st) with
      | Some (OcrResponse target) =>
          onOcrResponse now target lastError response
            (set_pending (dropId k (pending st)) st)
      | Some (TextResponse target summaryKey) =>
          onTextResponse now target summaryKey lastError response
            (set_pending (dropId k (pending st)) st)
      | Some (FixedResponse fixedTooltip) =>
          onFixedResponse now fixedTooltip lastError response
            (set_pending (dropId k (pending st)) st)
      | _ => st
      end
  | runtimeMessage action text => onRuntimeMessage action text st
  end.

(** A run of timed events. *)
Fixpoint run (events : list (Z * Event)) (st : Page) : Page :=
  match events with
  | [] => st
  | (now, ev) :: rest => run rest (step now ev st)
  end.

End Content.

(** ** background.js: install-time defaults, the offscreen document and the
       context menu *)

Module Lifecycle.
Import Js Background.

(** [initializeFreeTierDefaults], lines 96-108: the store it leaves. *)
Definition initializeFreeTierDefaults (data : SyncStorage) : SyncStorage :=
  {| llmApiKey := llmApiKey data;
     freeTooltipsUsed :=
       match freeTooltipsUsed data with
       | Some n => Some n
       | None => Some 0
       end;
     subscriptionStatus :=
       if truthy (subscriptionStatus data) then subscriptionStatus data
       else Some "free" |}.

(** How one [pingOffscreen] call ends, lines 30-58. *)
Inductive Ping :=
| PingOk
| PingTimedOut
| PingLastError (message : string)
| PingUnexpected.

Definition pingOffscreen (p : Ping) : Settled unit :=
  match p with
  | PingOk => Fulfilled tt
  | PingTimedOut => Rejected (Some "Timed out waiting for offscreen ping response.")
  | PingLastError m => Rejected (Some m)
  | PingUnexpected => Rejected (Some "Offscreen ping returned unexpected response.")
  end.

(** The offscreen document as the service worker drives it: whether it
    exists, and what the worker has done so far. Creating and closing the
    document are taken to succeed when they apply, and nothing else creates
    or closes it meanwhile. *)
Record Worker := {
  hasDocument : bool;
  created : nat;
  closed : nat;
  pinged : nat;
  delayed : Z
}.

(** [createOffscreen], lines 21-28. *)
Definition createOffscreen (w : Worker) : Worker :=
  if hasDocument w then w
  else {| hasDocument := true; created := S (created w); closed := closed w;
          pinged := pinged w; delayed := delayed w |}.

(** [chrome.offscreen.closeDocument()] inside its own [try], lines 86-90. *)
Definition closeDocument (w : Worker) : Worker :=
  if hasDocument w then
    {| hasDocument := false; created := created w; closed := S (closed w);
       pinged := pinged w; delayed := delayed w |}
  else w.

Definition delay (ms : Z) (w : Worker) : Worker :=
  {| hasDocument := hasDocument w; created := created w; closed := closed w;
     pinged := pinged w; delayed := delayed w + ms |}.

Definition countPing (w : Worker) : Worker :=
  {| hasDocument := hasDocument w; created := created w; closed := closed w;
     pinged := S (pinged w); delayed := delayed w |}.

Definition MAX_ATTEMPTS : nat := 5.

(** The [while] loop of [ensureOffscreenReady], lines 64-93, with
    [remaining = MAX_ATTEMPTS - attempt] iterations to go; [ping a] is the
    outcome of the ping of attempt [a]. *)
Fixpoint ensureLoop (remaining : nat) (ping : nat → Ping) (w : Worker)
  : Worker * Settled unit :=
  match remaining with
  | O => (w, Fulfilled tt)
  | S rest =>
      let attempt := (MAX_ATTEMPTS - rest)%nat in
      let w :=
        if negb (hasDocument w)
        then delay (100 * Z.of_nat attempt) (createOffscreen w)
        else w in
      let w := countPing w in
      match pingOffscreen (ping attempt) with
      | Fulfilled _ => (w, Fulfilled tt)
      | Rejected error =>
          if (MAX_ATTEMPTS <=? attempt)%nat then (w, Rejected error)
          else ensureLoop rest ping (delay (150 * Z.of_nat attempt) (closeDocument w))
      end
  end.

(** [ensureOffscreenReady], lines 60-94. *)
Definition ensureOffscreenReady (ping : nat → Ping) (w : Worker)
  : Worker * Settled unit :=
  ensureLoop MAX_ATTEMPTS ping w.

(** The [chrome.contextMenus.onClicked] listener, lines 282-291: the
    message it sends to the tab, if any, as [action] and [text]. *)
Definition onContextMenuClicked (menuItemId : string)
    (selectionText : option string) : option (string * option string) :=
  if String.eqb menuItemId "summarizeWithAI" && truthy selectionText
  then Some ("showSummaryTooltip", selectionText)
  else None.

End Lifecycle.

(** ** offscreen.js and lib/mock-ocr.js: the processor *)

Module OffscreenJs.
Import Js Background.

(** The parts of the completion payload that [extractOpenAIOutputText]
    reads. An absent or differently typed field is [None]; a [None] item is
    one that is not an object. *)
Record OutputItem := {
  item_type : option string;
  item_text : option string
}.

Record OutputBlock := {
  block_content : option (list (option OutputItem))
}.

Record Choice := {
  message_content : option string
}.

Record Payload := {
  output_text : option string;
  output : option (list OutputBlock);
  choices : option (list Choice)
}.

Definition itemTexts (item : option OutputItem) : list string :=
  match item with
  | Some i =>
      match item_text i with
      | Some t =>
          (if bool_decide (item_type i = Some "output_text") then [t] else [])
          ++ (if bool_decide (item_type i = Some "text") then [t] else [])
      | None => []
      end
  | None => []
  end.

Definition blockTexts (block : OutputBlock) : list string :=
  match block_content block with
  | Some items => concat (map itemTexts items)
  | None => []
  end.

(** [extractOpenAIOutputText], lines 305-334 ([None]: a payload that is not
    an object). *)
Definition extractOpenAIOutputText (payload : option Payload) : string :=
  match payload with
  | None => ""
  | Some p =>
      match output_text p with
      | Some t => trim t
      | None =>
          let textParts :=
            match output p with
            | Some blocks => concat (map blockTexts blocks)
            | None => []
            end in
          match textParts with
          | _ :: _ => trim (String.concat nl textParts)
          | [] =>
              match choices p with
              | Some (first :: _) =>
                  if truthy (message_content first)
                  then trim (or_else (message_content first) "")
                  else ""
              | _ => ""
              end
          end
      end
  end.

(** What [fetch] and the reading of its response do. *)
Inductive Fetched :=
| FetchFailed (message : option string)
| HttpError (status : Z) (errorBody : option string) (statusText : string)
| HttpOk (json : Settled (option Payload)).

(** [callOpenAISummarize], lines 336-369. *)
Definition callOpenAISummarize (apiKey : option string) (fetched : Fetched)
  : Settled string :=
  if negb (truthy apiKey) then Rejected (Some "Missing OpenAI API key.")
  else
    match fetched with
    | FetchFailed m => Rejected m
    | HttpError status errorBody statusText =>
        Rejected (Some ("OpenAI request failed (" +:+ pretty status +:+ "): "
                        +:+ or_else errorBody statusText))
    | HttpOk (Rejected m) => Rejected m
    | HttpOk (Fulfilled payload) =>
        let outputText := extractOpenAIOutputText payload in
        if negb (truthy (Some outputText))
        then Rejected (Some "OpenAI returned an empty response.")
        else Fulfilled outputText
    end.

(** [runClientSideOCR], lib/mock-ocr.js lines 10-28. *)
Definition runClientSideOCR (imageUrl : string) : string :=
  if is_Some_b (indexOf imageUrl "chart") then
    "OCR Result: " +:+ dq
    +:+ "Quarterly Sales Report: Q1: $1.2M, Q2: $1.5M, Q3: $1.8M, Q4: $2.1M. Growth is steady."
    +:+ dq
  else if is_Some_b (indexOf imageUrl "code") then
    "OCR Result: " +:+ dq
    +:+ "function helloWorld() { console.log('Hello, World!'); }" +:+ dq
  else
    "Text recognized from image at " +:+ imageUrl +:+ ": " +:+ dq
    +:+ "The image contains a paperclip mascot with a speech bubble, ready to assist the user."
    +:+ dq.

Definition failure (message : string) : Response :=
  {| success := false; result := None; resp_error := Some message;
     errorCode := None; resp_usageInfo := None |}.

Definition successWith (value : string) : Response :=
  {| success := true; result := Some value; resp_error := None;
     errorCode := None; resp_usageInfo := None |}.

(** [processLLM], lines 375-401. An [ocr] request without [imageUrl] makes
    the mock throw the engine's [TypeError], whose message is V8's. *)
Definition processLLM (type : string) (data : MessageData) (fetched : Fetched)
  : Response :=
  if String.eqb type "summarize" then
    match callOpenAISummarize (data_apiKey data) fetched with
    | Fulfilled summary => successWith summary
    | Rejected m => failure (or_else m "OpenAI request failed.")
    end
  else if String.eqb type "ocr" then
    match imageUrl data with
    | Some url => successWith (runClientSideOCR url)
    | None =>
        failure ("OCR failed: "
                 +:+ "Cannot read properties of undefined (reading 'includes')")
    end
  else failure "Unknown processing type.".

(** The listener of the offscreen document, lines 404-425, for a
    [processInOffscreen] message: the response it sends. *)
Definition onProcessInOffscreen (request : OffscreenRequest) (fetched : Fetched)
  : Response :=
  processLLM (off_type request) (off_data request) fetched.

End OffscreenJs.

(** ** popup.js: the usage line and the upgrade button *)

Module PopupView.
Import Js Background Popup.

(** What [renderUsage] puts on the page: the text of the usage line and
    whether the section carries the class [unlimited]. *)
Record UsageLine := {
  usageCount : string;
  unlimited : bool
}.

(** [renderUsage], lines 19-35. The line for an unlimited plan starts with
    the character U+2728, the code unit 10024. *)
Definition renderUsage (c : Config) (data : SyncStorage) : UsageLine :=
  let subscriptionStatus := planOf data in
  let hasCustomKey := truthy (llmApiKey data) in
  if String.eqb subscriptionStatus "paid" || hasCustomKey
     || String.eqb subscriptionStatus "custom"
  then {| usageCount := String 10024 " Unlimited tooltips enabled.";
          unlimited := true |}
  else
    let used := usedOf data in
    let remaining := Math_max (FREE_TIER_LIMIT c - used) 0 in
    {| usageCount := pretty remaining +:+ " of " +:+ pretty (FREE_TIER_LIMIT c)
                     +:+ " free tooltips remaining";
       unlimited := false |}.

(** [startGoogleUpgrade], lines 57-100: [flow] is what the web-auth flow
    calls back with, as [lastError] and [redirectUrl]. *)
Definition startGoogleUpgrade (GOOGLE_CLIENT_ID : option string)
    (flow : option string * option string) (st : SyncStorage)
  : SyncStorage * string :=
  if negb (truthy GOOGLE_CLIENT_ID)
  then (st, "Google OAuth is not configured. Update config.js.")
  else onWebAuthFlow flow.1 flow.2 st.

End PopupView.

(** * Vocabulary of the properties *)

Import Js Background Popup Content.

(** The denial the broker returns once the free tier is used up. *)
Definition exhaustedResponse (c : Config) : Response :=
  {| success := false;
     result := None;
     resp_error := Some (exhaustedMessage c);
     errorCode := Some "FREE_TIER_EXHAUSTED";
     resp_usageInfo :=
       Some {| plan := "free";
               freeTierLimit := FREE_TIER_LIMIT c;
               freeTooltipsRemaining := 0;
               freeTooltipsUsedInfo := FREE_TIER_LIMIT c |} |}.

(** The denial the broker returns to a paid plan without a credential. *)
Definition needsCredentialResponse (c : Config) (st : SyncStorage) : Response :=
  {| success := false;
     result := None;
     resp_error := Some subscriptionMessage;
     errorCode := Some "API_KEY_REQUIRED";
     resp_usageInfo :=
       Some {| plan := "paid";
               freeTierLimit := FREE_TIER_LIMIT c;
               freeTooltipsRemaining := Z.max (FREE_TIER_LIMIT c - usedOf st) 0;
               freeTooltipsUsedInfo := usedOf st |} |}.

(** An element of one of the text container tags that none of the earlier
    branches of the classifier takes: it implements none of the interfaces
    the source tests for and does not carry [role="button"]. *)
Definition textBearing (e : Element) : Prop :=
  interface e = HTMLElement
  ∧ tagName e ∈ textContainers
  ∧ getAttribute e "role" ≠ Some "button".

Global Instance textBearing_dec (e : Element) : Decision (textBearing e).
Proof. unfold textBearing. apply _. Defined.

(** [element.textContent?.trim() || '']. *)
Definition trimmedText (e : Element) : string :=
  or_else (trim <$> textContent e) "".

(** The interactive form controls: text input, multi-line input, selection
    control. *)
Definition formControl (e : Element) : Prop :=
  interface e = HTMLInputElement
  ∨ interface e = HTMLTextAreaElement
  ∨ interface e = HTMLSelectElement.

Global Instance formControl_dec (e : Element) : Decision (formControl e).
Proof. unfold formControl. apply _. Defined.

(** At most one tooltip is in the page, and it is the tracked one. *)
Definition atMostCurrent (st : Page) : Prop :=
  tooltips st = []
  ∨ ∃ t, tooltips st = [t] ∧ currentTooltip st = Some (tip_node t).

(** The most that the remaining attempts of [ensureOffscreenReady] can
    spend in [delay]: 100 ms times the attempt number when the document has
    to be created, 150 ms times the attempt number after a failed ping that
    is not the last. *)
Fixpoint delayBudget (remaining : nat) : Z :=
  match remaining with
  | O => 0
  | S rest =>
      let attempt := (Lifecycle.MAX_ATTEMPTS - rest)%nat in
      100 * Z.of_nat attempt
      + (if (Lifecycle.MAX_ATTEMPTS <=? attempt)%nat then 0
         else 150 * Z.of_nat attempt)
      + delayBudget rest
  end.

(** The inverse of [Content.escapeHtml] on its image: the five entities
    [&amp;], [&lt;], [&gt;], [&quot;] and [&#39;] are read back as the
    characters they stand for. The patterns spell the entities by their code
    units. *)
Fixpoint unescapeHtml (s : string) : string :=
  match s with
  | String 38 (String 97 (String 109 (String 112 (String 59 rest)))) =>
      String (unitOf "&") (unescapeHtml rest)
  | String 38 (String 108 (String 116 (String 59 rest))) =>
      String (unitOf "<") (unescapeHtml rest)
  | String 38 (String 103 (String 116 (String 59 rest))) =>
      String (unitOf ">") (unescapeHtml rest)
  | String 38 (String 113 (String 117 (String 111 (String 116 (String 59 rest))))) =>
      String (unitOf dq) (unescapeHtml rest)
  | String 38 (String 35 (String 51 (String 57 (String 59 rest)))) =>
      String (unitOf "'") (unescapeHtml rest)
  | String ch rest => String ch (unescapeHtml rest)
  | EmptyString => EmptyString
  end.

(** The characters that open or close markup or an attribute value. *)
Definition markup (ch : N) : Prop :=
  ch = unitOf "<" ∨ ch = unitOf ">" ∨ ch = unitOf dq ∨ ch = unitOf "'".

(** A paragraph of 128 code units whose code units at the indices 99 and
    100 are the two halves of the surrogate pair of U+1F600. *)
Definition splitPairText : string :=
  "The release went out on Friday evening, and by Monday morning the dashboards showed no regressions "
  +:+ String 55357 (String 56832 " which nobody had expected.").

Definition splitPairParagraph : Element :=
  {| node := 1; interface := HTMLElement; tagName := "P";
     attributes := ∅; id := "";
     textContent := Some splitPairText;
     href := ""; src := ""; parentTextContent := None |}.


(** The debounce timers: the scheduled starts of a pipeline. *)
Definition isHoverTask (task : TimerTask) : bool :=
  match task with
  | ImageHoverFired _ _ | PreviewHoverFired _ _ _ _ | TextHoverFired _ _ _ => true
  | AutoHide _ | RemoveFixed _ => false
  end.

Definition debouncing (st : Page) : list (nat * (Z * TimerTask)) :=
  filter (λ t, isHoverTask t.2.2 = true) (timers st).

(** The timer table is in order: ids are below the next fresh id and
    distinct, and a pending debounce timer is the one [hoverTimeout]
    names. *)
Definition timersOk (st : Page) : Prop :=
  Forall (λ t, (t.1 < fresh st)%nat) (timers st)
  ∧ NoDup (timers st).*1
  ∧ Forall (λ t, isHoverTask t.2.2 = true → hoverTimeout st = Some t.1)
      (timers st).

(** [st'] differs from [st], as far as timers go, by new timers that are
    not debounce timers. *)
Definition extends (st st' : Page) : Prop :=
  hoverTimeout st' = hoverTimeout st
  ∧ (fresh st ≤ fresh st')%nat
  ∧ ∃ extra,
      timers st' = (timers st ++ extra)%list
      ∧ Forall (λ t, (fresh st ≤ t.1 < fresh st')%nat
                     ∧ isHoverTask t.2.2 = false) extra
      ∧ NoDup extra.*1.

(** * Properties *)

(** ** Strings *)

Module StringFacts.

Lemma eqb_eq (s1 s2 : string) : String.eqb s1 s2 = true ↔ s1 = s2.
Proof.
  revert s2. induction s1 as [| c1 rest1 IH]; intros [| c2 rest2]; simpl;
    try done.
  rewrite andb_true_iff, N.eqb_eq, IH.
  split; [intros [-> ->] | intros [= -> ->]]; done.
Qed.

Lemma eqb_refl (s : string) : String.eqb s s = true.
Proof. by apply eqb_eq. Qed.

Lemma eqb_neq (s1 s2 : string) : String.eqb s1 s2 = false ↔ s1 ≠ s2.
Proof.
  rewrite <- eqb_eq. destruct (String.eqb s1 s2); split; try done.
Qed.

Lemma eqb_spec (s1 s2 : string) : reflect (s1 = s2) (String.eqb s1 s2).
Proof.
  destruct (String.eqb s1 s2) eqn:H; constructor.
  - by apply eqb_eq.
  - by apply eqb_neq.
Qed.

Lemma units_app (s1 s2 : string) :
  String.units (s1 +:+ s2) = (String.units s1 ++ String.units s2)%list.
Proof. induction s1 as [| c rest IH]; simpl; congruence. Qed.

End StringFacts.


(** ** The request gate *)

Section Gate.

Variable c : Config.

Lemma storageSyncGet_noFaults st : storageSyncGet noFaults st = Fulfilled st.
Proof. reflexivity. Qed.

(** The two denial messages of the free tier differ whatever the ceiling. *)
Lemma noFallbackMessage_not_exhausted : noFallbackMessage ≠ exhaustedMessage c.
Proof.
  unfold noFallbackMessage, exhaustedMessage. intros H.
  apply (f_equal (String.get 10)) in H. simpl in H. discriminate H.
Qed.

(** Free plan, no credential, ceiling reached: the gate denies and writes
    nothing. *)
Lemma resolve_exhausted action st :
  planOf st ≠ "paid" →
  truthy (llmApiKey st) = false →
  FREE_TIER_LIMIT c ≤ usedOf st →
  resolveUsageAndApiKey c noFaults action st =
    (st, Fulfilled
           {| apiKey := None;
              error := Some (exhaustedMessage c);
              requiresUpgrade := Some true;
              usageInfo :=
                {| plan := planOf st;
                   freeTierLimit := FREE_TIER_LIMIT c;
                   freeTooltipsRemaining := 0;
                   freeTooltipsUsedInfo := usedOf st |} |}).
Proof.
  intros Hplan Hkey Hused. unfold resolveUsageAndApiKey.
  rewrite storageSyncGet_noFaults, Hkey.
  apply StringFacts.eqb_neq in Hplan. rewrite Hplan.
  destruct (Z.geb_spec (usedOf st) (FREE_TIER_LIMIT c)); [reflexivity | lia].
Qed.

(** Free plan, no credential, below the ceiling, and either a recognition
    request or a configured fallback credential: the gate proceeds and
    stores the incremented counter. *)
Lemma resolve_free_proceeds action st :
  planOf st ≠ "paid" →
  truthy (llmApiKey st) = false →
  usedOf st < FREE_TIER_LIMIT c →
  (action = "summarizeText" → DEFAULT_FREE_API_KEY c ≠ "") →
  resolveUsageAndApiKey c noFaults action st =
    ({| llmApiKey := llmApiKey st;
        freeTooltipsUsed := Some (usedOf st + 1);
        subscriptionStatus := subscriptionStatus st |},
     Fulfilled
       {| apiKey := if String.eqb action "summarizeText"
                    then Some (DEFAULT_FREE_API_KEY c) else None;
          error := None;
          requiresUpgrade := None;
          usageInfo :=
            {| plan := "free";
               freeTierLimit := FREE_TIER_LIMIT c;
               freeTooltipsRemaining :=
                 Z.max (FREE_TIER_LIMIT c - (usedOf st + 1)) 0;
               freeTooltipsUsedInfo := usedOf st + 1 |} |}).
Proof.
  intros Hplan Hkey Hused Hfallback. unfold resolveUsageAndApiKey.
  rewrite storageSyncGet_noFaults, Hkey.
  apply StringFacts.eqb_neq in Hplan. rewrite Hplan.
  destruct (Z.geb_spec (usedOf st) (FREE_TIER_LIMIT c)); [lia |].
  destruct (StringFacts.eqb_spec action "summarizeText") as [-> | Hact]; simpl.
  - destruct (DEFAULT_FREE_API_KEY c) eqn:Hd; [by destruct Hfallback |].
    reflexivity.
  - reflexivity.
Qed.

End Gate.

Section Broker.

Variable c : Config.

(** A denial of the gate is returned to the caller at once, with the
    error code chosen by [requiresUpgrade]. *)
Lemma handleRequest_denied f off m st st' r :
  resolveUsageAndApiKey c f (action m) st = (st', Fulfilled r) →
  truthy (error r) = true →
  handleRequest c f off m st =
    (st', {| forwarded := None;
             settled := Fulfilled
               {| success := false;
                  result := None;
                  resp_error := error r;
                  errorCode :=
                    Some (match requiresUpgrade r with
                          | Some true => "FREE_TIER_EXHAUSTED"
                          | _ => "API_KEY_REQUIRED"
                          end);
                  resp_usageInfo := Some (usageInfo r) |} |}).
Proof. intros Hres Herr. unfold handleRequest. by rewrite Hres, Herr. Qed.

(** With a stored credential the gate reads the store and writes nothing. *)
Lemma resolve_custom f action st :
  truthy (llmApiKey st) = true →
  syncGetThrows f = None →
  resolveUsageAndApiKey c f action st =
    (st, Fulfilled
           {| apiKey := llmApiKey st;
              error := None;
              requiresUpgrade := None;
              usageInfo :=
                {| plan := if String.eqb (planOf st) "paid"
                           then "paid" else "custom";
                   freeTierLimit := FREE_TIER_LIMIT c;
                   freeTooltipsRemaining :=
                     Z.max (FREE_TIER_LIMIT c - usedOf st) 0;
                   freeTooltipsUsedInfo := usedOf st |} |}).
Proof.
  intros Hkey Hget. unfold resolveUsageAndApiKey, storageSyncGet.
  by rewrite Hget, Hkey.
Qed.

Lemma resolve_custom_frame f action st :
  truthy (llmApiKey st) = true →
  (resolveUsageAndApiKey c f action st).1 = st.
Proof.
  intros Hkey. unfold resolveUsageAndApiKey, storageSyncGet.
  destruct (syncGetThrows f); [reflexivity |]. by rewrite Hkey.
Qed.

Lemma handleRequest_store f off m st :
  (handleRequest c f off m st).1 = (resolveUsageAndApiKey c f (action m) st).1.
Proof.
  unfold handleRequest.
  destruct (resolveUsageAndApiKey c f (action m) st) as [st' [r | e]];
    [| reflexivity].
  destruct (truthy (error r)); [reflexivity |].
  destruct off; reflexivity.
Qed.

Lemma serve_custom_frame reqs st :
  truthy (llmApiKey st) = true → (serve c reqs st).1 = st.
Proof.
  intros Hkey. induction reqs as [| [[f off] m] rest IH]; [reflexivity |].
  simpl.
  pose proof (handleRequest_store f off m st) as Hst.
  rewrite (resolve_custom_frame _ _ _ Hkey) in Hst.
  destruct (handleRequest c f off m st) as [st1 h]. simpl in Hst. subst st1.
  destruct (serve c rest st) as [st2 hs]. exact IH.
Qed.

Lemma resolve_paid action st :
  planOf st = "paid" →
  truthy (llmApiKey st) = false →
  resolveUsageAndApiKey c noFaults action st =
    (st, Fulfilled
           {| apiKey := None;
              error := Some subscriptionMessage;
              requiresUpgrade := Some false;
              usageInfo :=
                {| plan := "paid";
                   freeTierLimit := FREE_TIER_LIMIT c;
                   freeTooltipsRemaining :=
                     Z.max (FREE_TIER_LIMIT c - usedOf st) 0;
                   freeTooltipsUsedInfo := usedOf st |} |}).
Proof.
  intros Hplan Hkey. unfold resolveUsageAndApiKey.
  by rewrite storageSyncGet_noFaults, Hkey, Hplan.
Qed.

Lemma resolve_noFallback st :
  planOf st ≠ "paid" →
  truthy (llmApiKey st) = false →
  usedOf st < FREE_TIER_LIMIT c →
  DEFAULT_FREE_API_KEY c = "" →
  resolveUsageAndApiKey c noFaults "summarizeText" st =
    (st, Fulfilled
           {| apiKey := None;
              error := Some noFallbackMessage;
              requiresUpgrade := Some true;
              usageInfo :=
                {| plan := planOf st;
                   freeTierLimit := FREE_TIER_LIMIT c;
                   freeTooltipsRemaining :=
                     Z.max (FREE_TIER_LIMIT c - usedOf st) 0;
                   freeTooltipsUsedInfo := usedOf st |} |}).
Proof.
  intros Hplan Hkey Hused Hnone. unfold resolveUsageAndApiKey.
  rewrite storageSyncGet_noFaults, Hkey.
  apply StringFacts.eqb_neq in Hplan. rewrite Hplan.
  destruct (Z.geb_spec (usedOf st) (FREE_TIER_LIMIT c)); [lia |].
  by rewrite Hnone.
Qed.

(** Whatever the gate resolves with, its snapshot reports the ceiling, the
    count the store holds after the call, and what is left of the quota. *)
Lemma resolve_snapshot f action st st' r :
  resolveUsageAndApiKey c f action st = (st', Fulfilled r) →
  freeTierLimit (usageInfo r) = FREE_TIER_LIMIT c
  ∧ freeTooltipsUsedInfo (usageInfo r) = usedOf st'
  ∧ freeTooltipsRemaining (usageInfo r)
    = Z.max (FREE_TIER_LIMIT c - usedOf st') 0.
Proof.
  unfold resolveUsageAndApiKey, storageSyncGet, storageSyncSet_used, Math_max.
  destruct (syncGetThrows f); [discriminate |].
  destruct (truthy (llmApiKey st)); [by intros [= <- <-] |].
  destruct (String.eqb (planOf st) "paid"); [by intros [= <- <-] |].
  destruct (Z.geb_spec (usedOf st) (FREE_TIER_LIMIT c)).
  { intros [= <- <-]. simpl. repeat split. lia. }
  destruct (_ && _); [by intros [= <- <-] |].
  destruct (syncSetThrows f); [discriminate |].
  by intros [= <- <-].
Qed.

End Broker.

(** C1, as stated, fails: with the shipped configuration (no fallback
    credential), a summarization request made on the free plan at
    [ceiling - 1] is denied and the counter stays where it was. *)
Lemma C1_counterexample :
  let c := {| CONFIG_FREE_TIER_LIMIT := Some 100;
              CONFIG_DEFAULT_FREE_API_KEY := Some "" |} in
  let st := {| llmApiKey := None; freeTooltipsUsed := Some 99;
               subscriptionStatus := Some "free" |} in
  planOf st = "free"
  ∧ truthy (llmApiKey st) = false
  ∧ usedOf st = FREE_TIER_LIMIT c - 1
  ∧ ∃ r, resolveUsageAndApiKey c noFaults "summarizeText" st = (st, Fulfilled r)
         ∧ error r = Some noFallbackMessage
         ∧ freeTooltipsRemaining (usageInfo r) = 1.
Proof. repeat split. eexists. repeat split. Qed.

(** C1 (amended): on the free plan with no stored credential and
    [freeTooltipsUsed = ceiling - 1], a request that is recognition-class, or
    summarization-class with a fallback credential configured, proceeds,
    stores the counter [ceiling] and reports [freeTooltipsRemaining = 0];
    every request made in the resulting state is denied with the
    free-tier-exhausted error, a snapshot with 0 remaining, and leaves the
    store as it is. *)
Theorem C1_last_free_action (c : Config) (action : string) (st : SyncStorage) :
  planOf st = "free" →
  truthy (llmApiKey st) = false →
  usedOf st = FREE_TIER_LIMIT c - 1 →
  (action = "summarizeText" → DEFAULT_FREE_API_KEY c ≠ "") →
  let st1 := {| llmApiKey := llmApiKey st;
                freeTooltipsUsed := Some (FREE_TIER_LIMIT c);
                subscriptionStatus := subscriptionStatus st |} in
  (∃ r, resolveUsageAndApiKey c noFaults action st = (st1, Fulfilled r)
        ∧ error r = None
        ∧ plan (usageInfo r) = "free"
        ∧ freeTooltipsRemaining (usageInfo r) = 0
        ∧ freeTooltipsUsedInfo (usageInfo r) = FREE_TIER_LIMIT c)
  ∧ ∀ off m,
      handleRequest c noFaults off m st1 =
        (st1, {| forwarded := None; settled := Fulfilled (exhaustedResponse c) |}).
Proof.
  intros Hplan Hkey Hused Hfallback st1.
  assert (Hnp : planOf st ≠ "paid") by (rewrite Hplan; discriminate).
  split.
  - eexists. split.
    + rewrite (resolve_free_proceeds c action st Hnp Hkey); [| lia | exact Hfallback].
      replace (usedOf st + 1) with (FREE_TIER_LIMIT c) by lia. reflexivity.
    + simpl. repeat split; lia.
  - intros off m.
    assert (Hplan1 : planOf st1 = "free") by exact Hplan.
    assert (Hnp1 : planOf st1 ≠ "paid") by (rewrite Hplan1; discriminate).
    assert (Hused1 : FREE_TIER_LIMIT c ≤ usedOf st1) by (unfold st1, usedOf; simpl; lia).
    rewrite (handleRequest_denied c noFaults off m st1 st1 _
               (resolve_exhausted c (Background.action m) st1 Hnp1 Hkey Hused1)
               eq_refl).
    simpl. unfold exhaustedResponse. by rewrite Hplan1.
Qed.

Lemma C1_last_free_action_witness :
  let c := {| CONFIG_FREE_TIER_LIMIT := Some 100;
              CONFIG_DEFAULT_FREE_API_KEY := Some "sk-shared" |} in
  let st := {| llmApiKey := None; freeTooltipsUsed := Some 99;
               subscriptionStatus := Some "free" |} in
  let st1 := {| llmApiKey := None; freeTooltipsUsed := Some 100;
                subscriptionStatus := Some "free" |} in
  (∃ r, resolveUsageAndApiKey c noFaults "summarizeText" st = (st1, Fulfilled r)
        ∧ error r = None
        ∧ plan (usageInfo r) = "free"
        ∧ freeTooltipsRemaining (usageInfo r) = 0
        ∧ freeTooltipsUsedInfo (usageInfo r) = 100)
  ∧ ∀ off m,
      handleRequest c noFaults off m st1 =
        (st1, {| forwarded := None; settled := Fulfilled (exhaustedResponse c) |}).
Proof.
  intros c st st1.
  apply (C1_last_free_action c "summarizeText" st);
    [reflexivity | reflexivity | reflexivity | discriminate].
Defined.

(** C2: while a non-empty [llmApiKey] is stored, every call of the gate
    proceeds with that key, the key is attached to the request forwarded to
    the processor, and no run of requests, whatever their action and
    whatever the storage or the processor does, changes the store (so
    [freeTooltipsUsed] is never incremented). *)
Theorem C2_custom_key_not_metered (c : Config) (st : SyncStorage) :
  truthy (llmApiKey st) = true →
  (∀ action, ∃ r,
      resolveUsageAndApiKey c noFaults action st = (st, Fulfilled r)
      ∧ apiKey r = llmApiKey st ∧ error r = None)
  ∧ (∀ off m, off ≠ OffscreenUnavailable → ∃ req r,
        handleRequest c noFaults off m st =
          (st, {| forwarded := Some req; settled := Fulfilled r |})
        ∧ data_apiKey (off_data req) = llmApiKey st)
  ∧ (∀ reqs, (serve c reqs st).1 = st).
Proof.
  intros Hkey. split; [| split].
  - intros action. eexists. split; [by apply resolve_custom |]. by split.
  - intros off m Hoff. unfold handleRequest.
    rewrite (resolve_custom c noFaults _ st Hkey eq_refl). simpl. rewrite Hkey.
    destruct off as [| e | resp]; [done | |]; by do 2 eexists.
  - intros reqs. by apply serve_custom_frame.
Qed.

Lemma C2_custom_key_not_metered_witness :
  let c := {| CONFIG_FREE_TIER_LIMIT := Some 100;
              CONFIG_DEFAULT_FREE_API_KEY := Some "" |} in
  let st := {| llmApiKey := Some "sk-mine"; freeTooltipsUsed := Some 7;
               subscriptionStatus := Some "custom" |} in
  let summarize := {| action := "summarizeText";
                      data := {| text := Some "some text"; imageUrl := None;
                                 data_apiKey := None |} |} in
  let ocr := {| action := "ocrImage";
                data := {| text := None; imageUrl := Some "https://a.b/c.png";
                           data_apiKey := None |} |} in
  truthy (llmApiKey st) = true
  ∧ (serve c [(noFaults, ProcessorReply None, summarize);
              (noFaults, OffscreenUnavailable, ocr);
              (noFaults, ChannelError None, summarize)] st).1 = st.
Proof.
  intros c st summarize ocr. split; [reflexivity |].
  exact (proj2 (proj2 (C2_custom_key_not_metered c st eq_refl)) _).
Defined.

(** Saving a non-blank key in the popup is what establishes the hypothesis
    of C2: it stores the trimmed key, sets the plan to custom and keeps the
    counter. *)
Lemma saveButton_click_stores_key (input : string) (st : SyncStorage) :
  trim input ≠ "" →
  (saveButton_click input st).1 =
    {| llmApiKey := Some (trim input);
       freeTooltipsUsed := freeTooltipsUsed st;
       subscriptionStatus := Some "custom" |}
  ∧ truthy (llmApiKey (saveButton_click input st).1) = true.
Proof.
  intros Hne. unfold saveButton_click.
  destruct (trim input) eqn:Ht; [done |]. by simpl.
Qed.

Lemma saveButton_click_blank (input : string) (st : SyncStorage) :
  trim input = "" → (saveButton_click input st).1 = st.
Proof. intros Ht. unfold saveButton_click. by rewrite Ht. Qed.

(** C3: on the paid plan with no stored credential every call of the gate
    is denied with the subscription-needs-credential error: no key is
    attached, nothing is forwarded to the processor, the store is unchanged
    and the broker answers with code API_KEY_REQUIRED. A web-auth flow that
    returns an access token sets the plan to paid and touches nothing else;
    a flow that fails, or returns no token, leaves the store as it is. *)
Theorem C3_paid_needs_credential (c : Config) (st : SyncStorage) :
  planOf st = "paid" →
  truthy (llmApiKey st) = false →
  (∀ action, ∃ r,
      resolveUsageAndApiKey c noFaults action st = (st, Fulfilled r)
      ∧ error r = Some subscriptionMessage
      ∧ requiresUpgrade r = Some false
      ∧ apiKey r = None)
  ∧ (∀ off m,
        handleRequest c noFaults off m st =
          (st, {| forwarded := None;
                  settled := Fulfilled (needsCredentialResponse c st) |}))
  ∧ (∀ st0 url,
        is_Some (indexOf url "access_token=") →
        (onWebAuthFlow None (Some url) st0).1 =
          {| llmApiKey := llmApiKey st0;
             freeTooltipsUsed := freeTooltipsUsed st0;
             subscriptionStatus := Some "paid" |})
  ∧ (∀ st0 lastError url,
        is_Some lastError ∨ indexOf (or_else url "") "access_token=" = None →
        (onWebAuthFlow lastError url st0).1 = st0).
Proof.
  intros Hplan Hkey. repeat split.
  - intros action. eexists. split; [by apply resolve_paid |]. by repeat split.
  - intros off m.
    by rewrite (handleRequest_denied c noFaults off m st st _
                  (resolve_paid c (Background.action m) st Hplan Hkey) eq_refl).
  - intros st0 url [i Hinc]. unfold onWebAuthFlow.
    destruct url as [| ch url]; [discriminate |].
    simpl truthy. simpl or_else. by rewrite Hinc.
  - intros st0 lastError url [[m ->] | Hinc]; [reflexivity |].
    unfold onWebAuthFlow. destruct lastError; [reflexivity |].
    rewrite Hinc. by rewrite orb_true_r.
Qed.

Lemma C3_paid_needs_credential_witness :
  let c := {| CONFIG_FREE_TIER_LIMIT := Some 100;
              CONFIG_DEFAULT_FREE_API_KEY := Some "sk-shared" |} in
  let st0 := {| llmApiKey := None; freeTooltipsUsed := Some 3;
                subscriptionStatus := Some "free" |} in
  let st := (onWebAuthFlow None
               (Some "https://abc.chromiumapp.org/#access_token=ya29") st0).1 in
  planOf st = "paid"
  ∧ ∀ off m,
      handleRequest c noFaults off m st =
        (st, {| forwarded := None;
                settled := Fulfilled (needsCredentialResponse c st) |}).
Proof.
  intros c st0 st. split; [reflexivity |].
  exact (proj1 (proj2 (C3_paid_needs_credential c st eq_refl eq_refl))).
Defined.

(** C4, as stated, fails: with no fallback credential a summarization
    request of a fresh free-plan user is answered with the very error code
    of an exhausted free tier, the code the broker also returns once the
    ceiling is reached. *)
Lemma C4_counterexample :
  let c := {| CONFIG_FREE_TIER_LIMIT := Some 1000;
              CONFIG_DEFAULT_FREE_API_KEY := Some "" |} in
  let fresh_user := {| llmApiKey := None; freeTooltipsUsed := Some 0;
                       subscriptionStatus := Some "free" |} in
  let worn_out := {| llmApiKey := None; freeTooltipsUsed := Some 1000;
                     subscriptionStatus := Some "free" |} in
  let m := {| action := "summarizeText";
              data := {| text := Some "some text"; imageUrl := None;
                         data_apiKey := None |} |} in
  ∃ r r',
    settled (handleRequest c noFaults (ProcessorReply None) m fresh_user).2
      = Fulfilled r
    ∧ settled (handleRequest c noFaults (ProcessorReply None) m worn_out).2
      = Fulfilled r'
    ∧ resp_error r = Some noFallbackMessage
    ∧ resp_error r' = Some (exhaustedMessage c)
    ∧ errorCode r = Some "FREE_TIER_EXHAUSTED"
    ∧ errorCode r = errorCode r'.
Proof. do 2 eexists. repeat split. Qed.

(** C4 (amended): on the free plan, below the ceiling, with no stored
    credential and no fallback credential configured, a summarization
    request is denied with the free-tier-unavailable message, which differs
    from the exhausted-tier message, and the store is unchanged; the denial
    is flagged [requiresUpgrade], so the broker labels it with the same
    error code FREE_TIER_EXHAUSTED as an exhausted free tier. *)
Theorem C4_no_fallback_credential (c : Config) (st : SyncStorage) :
  planOf st = "free" →
  truthy (llmApiKey st) = false →
  usedOf st < FREE_TIER_LIMIT c →
  DEFAULT_FREE_API_KEY c = "" →
  (∃ r, resolveUsageAndApiKey c noFaults "summarizeText" st = (st, Fulfilled r)
        ∧ error r = Some noFallbackMessage
        ∧ error r ≠ Some (exhaustedMessage c)
        ∧ requiresUpgrade r = Some true
        ∧ apiKey r = None
        ∧ 0 < freeTooltipsRemaining (usageInfo r))
  ∧ ∀ off m, action m = "summarizeText" → ∃ r,
      handleRequest c noFaults off m st =
        (st, {| forwarded := None; settled := Fulfilled r |})
      ∧ success r = false
      ∧ resp_error r = Some noFallbackMessage
      ∧ errorCode r = Some "FREE_TIER_EXHAUSTED".
Proof.
  intros Hplan Hkey Hused Hnone.
  assert (Hnp : planOf st ≠ "paid") by (rewrite Hplan; discriminate).
  pose proof (resolve_noFallback c st Hnp Hkey Hused Hnone) as Hres.
  split.
  - eexists. split; [exact Hres |]. cbn [error requiresUpgrade apiKey usageInfo].
    repeat split; [| simpl; lia].
    intros [= H]; by apply (noFallbackMessage_not_exhausted c).
  - intros off m Hact. eexists. split.
    + apply handleRequest_denied; [by rewrite Hact | reflexivity].
    + by repeat split.
Qed.

Lemma C4_no_fallback_credential_witness :
  let c := {| CONFIG_FREE_TIER_LIMIT := Some 1000;
              CONFIG_DEFAULT_FREE_API_KEY := Some "" |} in
  let st := {| llmApiKey := None; freeTooltipsUsed := Some 0;
               subscriptionStatus := Some "free" |} in
  ∃ r, resolveUsageAndApiKey c noFaults "summarizeText" st = (st, Fulfilled r)
       ∧ error r = Some noFallbackMessage
       ∧ error r ≠ Some (exhaustedMessage c)
       ∧ requiresUpgrade r = Some true
       ∧ apiKey r = None
       ∧ 0 < freeTooltipsRemaining (usageInfo r).
Proof.
  intros c st.
  apply (C4_no_fallback_credential c st);
    [reflexivity | reflexivity | reflexivity | reflexivity].
Defined.

(** C10, as stated, fails: when the storage read throws, [handleRequest]
    rejects and the listener answers with a response that has no
    [usageInfo]. *)
Lemma C10_counterexample :
  let c := {| CONFIG_FREE_TIER_LIMIT := Some 100;
              CONFIG_DEFAULT_FREE_API_KEY := Some "sk-shared" |} in
  let f := {| syncGetThrows := Some (Some "Cannot read properties of undefined (reading 'sync')");
              syncSetThrows := None |} in
  let st := {| llmApiKey := None; freeTooltipsUsed := Some 0;
               subscriptionStatus := Some "free" |} in
  let m := {| action := "summarizeText";
              data := {| text := Some "some text"; imageUrl := None;
                         data_apiKey := None |} |} in
  onMessage c f (ProcessorReply None)
    {| captureLastError := None; capturedDataUrl := None |} m st =
    (st, Some (TooltipReply
                 {| success := false;
                    result := None;
                    resp_error := Some "Cannot read properties of undefined (reading 'sync')";
                    errorCode := Some "UNEXPECTED_ERROR";
                    resp_usageInfo := None |})).
Proof. reflexivity. Qed.

(** C10 (amended): the listener answers every summarizeText or ocrImage
    request. When [handleRequest] resolves (proceed, denial by the gate,
    processor unavailable, channel error, missing or failed processor
    reply), the response carries a [usageInfo] that reports the ceiling, the
    count the store holds after the request and the remaining quota; when
    [handleRequest] rejects, the response has code UNEXPECTED_ERROR and no
    [usageInfo]. *)
Theorem C10_usage_snapshot (c : Config) (f : StorageFaults) (off : Offscreen)
    (cap : Capture) (m : Message) (st : SyncStorage) :
  action m = "summarizeText" ∨ action m = "ocrImage" →
  ∃ st' r,
    onMessage c f off cap m st = (st', Some (TooltipReply r))
    ∧ match settled (handleRequest c f off m st).2 with
      | Fulfilled _ =>
          ∃ u, resp_usageInfo r = Some u
               ∧ freeTierLimit u = FREE_TIER_LIMIT c
               ∧ freeTooltipsUsedInfo u = usedOf st'
               ∧ freeTooltipsRemaining u = Z.max (FREE_TIER_LIMIT c - usedOf st') 0
      | Rejected _ =>
          errorCode r = Some "UNEXPECTED_ERROR" ∧ resp_usageInfo r = None
      end.
Proof.
  intros Hact. unfold onMessage.
  assert (Hcap : String.eqb (action m) "capturePreview" = false)
    by (destruct Hact as [-> | ->]; reflexivity).
  assert (Hreq : String.eqb (action m) "summarizeText"
                 || String.eqb (action m) "ocrImage" = true)
    by (destruct Hact as [-> | ->]; reflexivity).
  rewrite Hcap, Hreq. clear Hcap Hreq Hact.
  unfold handleRequest.
  destruct (resolveUsageAndApiKey c f (action m) st) as [st' [r | e]] eqn:Hres.
  - pose proof (resolve_snapshot c f _ st st' r Hres) as Hsnap.
    destruct (truthy (error r)).
    { do 2 eexists. split; [reflexivity |]. simpl. by eexists. }
    destruct off as [| e | [resp |]];
      (do 2 eexists; split; [reflexivity |]; simpl; by eexists).
  - by do 2 eexists.
Qed.

Lemma C10_usage_snapshot_witness :
  let c := {| CONFIG_FREE_TIER_LIMIT := Some 100;
              CONFIG_DEFAULT_FREE_API_KEY := Some "sk-shared" |} in
  let st := {| llmApiKey := None; freeTooltipsUsed := Some 0;
               subscriptionStatus := Some "free" |} in
  let cap := {| captureLastError := None; capturedDataUrl := None |} in
  let m := {| action := "ocrImage";
              data := {| text := None; imageUrl := Some "https://a.b/c.png";
                         data_apiKey := None |} |} in
  ∃ st' r,
    onMessage c noFaults OffscreenUnavailable cap m st = (st', Some (TooltipReply r))
    ∧ match settled (handleRequest c noFaults OffscreenUnavailable m st).2 with
      | Fulfilled _ =>
          ∃ u, resp_usageInfo r = Some u
               ∧ freeTierLimit u = FREE_TIER_LIMIT c
               ∧ freeTooltipsUsedInfo u = usedOf st'
               ∧ freeTooltipsRemaining u = Z.max (FREE_TIER_LIMIT c - usedOf st') 0
      | Rejected _ =>
          errorCode r = Some "UNEXPECTED_ERROR" ∧ resp_usageInfo r = None
      end.
Proof.
  intros c st cap m.
  apply (C10_usage_snapshot c noFaults OffscreenUnavailable cap m st).
  right. reflexivity.
Defined.

(** ** The result cache *)

Section Cache.

Variables (key value : string) (t0 : Z) (local : gmap string CacheEntry).

Lemma getCachedSummary_absent t (m : gmap string CacheEntry) :
  m !! key = None → getCachedSummary t None key m = (m, Fulfilled None).
Proof. intros Hm. unfold getCachedSummary. by rewrite Hm. Qed.

Lemma getCachedPreview_absent t (m : gmap string CacheEntry) :
  m !! key = None → getCachedPreview t None key m = (m, Fulfilled None).
Proof. intros Hm. unfold getCachedPreview. by rewrite Hm. Qed.

Lemma getCachedSummary_stored t :
  getCachedSummary t None key (cacheSummary t0 None key value local).1 =
    if t - t0 >? SUMMARY_CACHE_DURATION_MS
    then (delete key local, Fulfilled None)
    else (<[key := {| summary := Some value; dataUrl := None; timestamp := t0 |}]> local,
          Fulfilled (Some value)).
Proof.
  unfold getCachedSummary, cacheSummary. simpl. rewrite lookup_insert_eq. simpl.
  destruct (_ >? _); [| reflexivity]. by rewrite delete_insert_eq.
Qed.

Lemma getCachedPreview_stored t :
  getCachedPreview t None key (cachePreview t0 None key value local).1 =
    if t - t0 >? PREVIEW_CACHE_DURATION_MS
    then (delete key local, Fulfilled None)
    else (<[key := {| summary := None; dataUrl := Some value; timestamp := t0 |}]> local,
          Fulfilled (Some value)).
Proof.
  unfold getCachedPreview, cachePreview. simpl. rewrite lookup_insert_eq. simpl.
  destruct (_ >? _); [| reflexivity]. by rewrite delete_insert_eq.
Qed.

End Cache.

(** C7: an entry written at [t0] by [cacheSummary] (TTL 600000 ms) or by
    [cachePreview] (TTL 300000 ms) is returned unchanged, and the store left
    as it is, by every read at a time up to [t0 + TTL]; a read strictly
    after [t0 + TTL] returns absent and leaves the store without the key;
    any later read of that store returns absent and changes nothing. *)
Theorem C7_cache_expiry (key value : string) (t0 : Z)
    (local : gmap string CacheEntry) :
  let summaries := (cacheSummary t0 None key value local).1 in
  let previews := (cachePreview t0 None key value local).1 in
  (∀ t, t ≤ t0 + 600000 →
     getCachedSummary t None key summaries = (summaries, Fulfilled (Some value)))
  ∧ (∀ t, t0 + 600000 < t →
       ∃ after, getCachedSummary t None key summaries = (after, Fulfilled None)
                ∧ after = delete key summaries
                ∧ after !! key = None
                ∧ ∀ t', getCachedSummary t' None key after = (after, Fulfilled None))
  ∧ (∀ t, t ≤ t0 + 300000 →
       getCachedPreview t None key previews = (previews, Fulfilled (Some value)))
  ∧ (∀ t, t0 + 300000 < t →
       ∃ after, getCachedPreview t None key previews = (after, Fulfilled None)
                ∧ after = delete key previews
                ∧ after !! key = None
                ∧ ∀ t', getCachedPreview t' None key after = (after, Fulfilled None)).
Proof.
  intros summaries previews. repeat split.
  - intros t Ht. subst summaries. rewrite getCachedSummary_stored.
    unfold SUMMARY_CACHE_DURATION_MS.
    destruct (Z.gtb_spec (t - t0) (10 * 60 * 1000)); [lia | reflexivity].
  - intros t Ht. exists (delete key local). subst summaries.
    rewrite getCachedSummary_stored. unfold SUMMARY_CACHE_DURATION_MS.
    destruct (Z.gtb_spec (t - t0) (10 * 60 * 1000)); [| lia].
    repeat split.
    + simpl. by rewrite delete_insert_eq.
    + apply lookup_delete_eq.
    + intros t'. apply getCachedSummary_absent, lookup_delete_eq.
  - intros t Ht. subst previews. rewrite getCachedPreview_stored.
    unfold PREVIEW_CACHE_DURATION_MS.
    destruct (Z.gtb_spec (t - t0) (5 * 60 * 1000)); [lia | reflexivity].
  - intros t Ht. exists (delete key local). subst previews.
    rewrite getCachedPreview_stored. unfold PREVIEW_CACHE_DURATION_MS.
    destruct (Z.gtb_spec (t - t0) (5 * 60 * 1000)); [| lia].
    repeat split.
    + simpl. by rewrite delete_insert_eq.
    + apply lookup_delete_eq.
    + intros t'. apply getCachedPreview_absent, lookup_delete_eq.
Qed.

Lemma C7_cache_expiry_witness :
  let stored := (cacheSummary 1000 None "summary::https://a.b/x::Hello" "Hi." ∅).1 in
  getCachedSummary 601000 None "summary::https://a.b/x::Hello" stored
    = (stored, Fulfilled (Some "Hi."))
  ∧ ∃ after,
      getCachedSummary 601001 None "summary::https://a.b/x::Hello" stored
        = (after, Fulfilled None)
      ∧ after = delete "summary::https://a.b/x::Hello" stored
      ∧ after !! "summary::https://a.b/x::Hello" = None
      ∧ ∀ t', getCachedSummary t' None "summary::https://a.b/x::Hello" after
              = (after, Fulfilled None).
Proof.
  intros stored.
  pose proof (C7_cache_expiry "summary::https://a.b/x::Hello" "Hi." 1000 ∅) as H.
  split.
  - apply (proj1 H). lia.
  - apply (proj1 (proj2 H)). lia.
Defined.

(** ** The hover classifier *)

Lemma length_substring_0 (n : nat) (s : string) :
  String.length (substring 0 n s) = Nat.min n (String.length s).
Proof.
  revert n. induction s as [| ch s IH]; intros [| n]; simpl; try reflexivity.
  by rewrite IH.
Qed.

Lemma prefix_substring_0 (n : nat) (s : string) :
  String.prefix (substring 0 n s) s = true.
Proof.
  revert n. induction s as [| ch s IH]; intros [| n]; simpl; try reflexivity.
  rewrite N.eqb_refl. apply IH.
Qed.

Lemma length_append (s1 s2 : string) :
  String.length (s1 +:+ s2) = (String.length s1 + String.length s2)%nat.
Proof. induction s1 as [| ch s1 IH]; simpl; [reflexivity | by rewrite IH]. Qed.

Lemma extractTextFromElement_textBearing (e : Element) :
  textBearing e →
  extractTextFromElement e =
    if (String.length (trimmedText e) <? MIN_TEXT_LENGTH)%nat then None
    else Some (if (MAX_TEXT_LENGTH <? String.length (trimmedText e))%nat
               then slice (trimmedText e) 0 MAX_TEXT_LENGTH +:+ "..."
               else trimmedText e).
Proof.
  intros (Hi & Htag & Hrole). unfold extractTextFromElement, instanceof.
  rewrite Hi. simpl.
  rewrite (bool_decide_eq_false_2 _ Hrole), (bool_decide_eq_true_2 _ Htag).
  reflexivity.
Qed.

(** A payload is never the empty string. *)
Lemma extractTextFromElement_nonempty (e : Element) (p : string) :
  extractTextFromElement e = Some p → (50 ≤ String.length p)%nat.
Proof.
  unfold extractTextFromElement.
  destruct (_ || _); [discriminate |].
  destruct (negb _); [discriminate |].
  set (t := or_else (trim <$> textContent e) "").
  destruct (Nat.ltb_spec (String.length t) MIN_TEXT_LENGTH); [discriminate |].
  intros [= <-]. unfold MIN_TEXT_LENGTH, MAX_TEXT_LENGTH in *.
  destruct (Nat.ltb_spec 2000 (String.length t)); [| done].
  rewrite length_append. unfold slice. rewrite length_substring_0.
  change (String.length "...") with 3%nat. lia.
Qed.



(** Without [role="button"], only links and buttons have a preview key, and
    only for them can its derivation throw. *)
Lemma getPreviewCacheKey_no_role (loc : Location) (e : Element) :
  interface e ≠ HTMLAnchorElement →
  interface e ≠ HTMLButtonElement →
  getAttribute e "role" ≠ Some "button" →
  getPreviewCacheKey loc e = Normal None.
Proof.
  intros Ha Hb Hrole. unfold getPreviewCacheKey, instanceof.
  by rewrite (bool_decide_eq_false_2 _ Ha), (bool_decide_eq_false_2 _ Hb),
    (bool_decide_eq_false_2 _ Hrole).
Qed.


Section HandleHover.

Variables (now : Z) (e : Element) (st : Page).

Let st0 := resetHoverTimeout st.

Lemma resetHoverTimeout_fresh : fresh st0 = fresh st.
Proof. unfold st0, resetHoverTimeout. by destruct (hoverTimeout st). Qed.

Lemma resetHoverTimeout_location : location st0 = location st.
Proof. unfold st0, resetHoverTimeout. by destruct (hoverTimeout st). Qed.




Lemma handleHover_text (p : string) :
  instanceof e HTMLImageElement && truthy (Some (src e)) = false →
  getPreviewCacheKey (location st) e = Normal None →
  extractTextFromElement e = Some p →
  handleHover now (Some e) st = scheduleTextHover now e p st0.
Proof.
  intros Himg Hkey Htext. unfold handleHover. rewrite Himg.
  pose proof (extractTextFromElement_nonempty _ _ Htext) as Hlen.
  destruct p as [| ch rest]; [simpl in Hlen; lia |].
  fold (resetHoverTimeout st). fold st0.
  by rewrite resetHoverTimeout_location, Hkey, Htext.
Qed.

Lemma handleHover_none :
  instanceof e HTMLImageElement && truthy (Some (src e)) = false →
  getPreviewCacheKey (location st) e = Normal None →
  extractTextFromElement e = None →
  handleHover now (Some e) st = (st0, Normal tt).
Proof.
  intros Himg Hkey Htext. unfold handleHover. rewrite Himg.
  fold (resetHoverTimeout st). fold st0.
  by rewrite resetHoverTimeout_location, Hkey, Htext.
Qed.



Lemma scheduleTextHover_cases (p : string) :
  match getSummaryCacheKey (location st) p with
  | Normal sk =>
      (scheduleTextHover now e p st0).2 = Normal tt
      ∧ timers (scheduleTextHover now e p st0).1 =
          (timers st0 ++ [(fresh st, (now + HOVER_DELAY,
                            TextHoverFired e p sk))])%list
  | Throw err => scheduleTextHover now e p st0 = (st0, Throw err)
  end.
Proof.
  unfold scheduleTextHover. rewrite resetHoverTimeout_location.
  destruct (getSummaryCacheKey _ _); [| done].
  unfold setTimeout. simpl. by rewrite resetHoverTimeout_fresh.
Qed.

End HandleHover.

(** The threshold and the payload of the text classifier. *)
Lemma extractTextFromElement_threshold (e : Element) :
  textBearing e →
  let t := trimmedText e in
  (is_Some (extractTextFromElement e) ↔ (50 ≤ String.length t)%nat)
  ∧ ((50 ≤ String.length t ≤ 2000)%nat → extractTextFromElement e = Some t)
  ∧ ((2000 < String.length t)%nat →
       extractTextFromElement e = Some (substring 0 2000 t +:+ "...")
       ∧ String.length (substring 0 2000 t) = 2000%nat
       ∧ String.prefix (substring 0 2000 t) t = true).
Proof.
  intros Htb t.
  pose proof (extractTextFromElement_textBearing e Htb) as Hex.
  fold t in Hex. unfold MIN_TEXT_LENGTH, MAX_TEXT_LENGTH, slice in Hex.
  change (2000 - 0)%nat with 2000%nat in Hex.
  repeat split.
  - intros [p Hp]. rewrite Hp in Hex.
    destruct (Nat.ltb_spec (String.length t) 50); [discriminate | done].
  - intros Hlen. rewrite Hex.
    destruct (Nat.ltb_spec (String.length t) 50); [lia | done].
  - intros [Hlo Hhi]. rewrite Hex.
    destruct (Nat.ltb_spec (String.length t) 50); [lia |].
    destruct (Nat.ltb_spec 2000 (String.length t)); [lia | done].
  - rewrite Hex.
    destruct (Nat.ltb_spec (String.length t) 50); [lia |].
    destruct (Nat.ltb_spec 2000 (String.length t)); [done | lia].
  - rewrite length_substring_0. lia.
  - apply prefix_substring_0.
Qed.

(** A hover of a text-bearing element: nothing but the text pipeline can be
    scheduled, with the payload of the classifier; when the derivation of
    the summary key throws, the exception leaves the listener and nothing
    is scheduled. *)
Lemma handleHover_textBearing (now : Z) (e : Element) (st : Page) :
  textBearing e →
  match extractTextFromElement e with
  | None => handleHover now (Some e) st = (resetHoverTimeout st, Normal tt)
  | Some payload =>
      match getSummaryCacheKey (location st) payload with
      | Normal key =>
          (handleHover now (Some e) st).2 = Normal tt
          ∧ timers (handleHover now (Some e) st).1 =
              (timers (resetHoverTimeout st)
               ++ [(fresh st, (now + 500, TextHoverFired e payload key))])%list
      | Throw err =>
          handleHover now (Some e) st = (resetHoverTimeout st, Throw err)
      end
  end.
Proof.
  intros (Hi & Htag & Hrole).
  assert (Himg : instanceof e HTMLImageElement && truthy (Some (src e)) = false)
    by (unfold instanceof; by rewrite Hi).
  assert (Hkey : getPreviewCacheKey (location st) e = Normal None)
    by (apply getPreviewCacheKey_no_role; [by rewrite Hi | by rewrite Hi | done]).
  destruct (extractTextFromElement e) as [p |] eqn:Hp.
  - rewrite (handleHover_text now e st p Himg Hkey Hp).
    exact (scheduleTextHover_cases now e st p).
  - exact (handleHover_none now e st Himg Hkey Hp).
Qed.

(** C5: where the code departs from the claim. For a text-bearing element
    the classifier returns a payload exactly when the trimmed text has at
    least 50 code units, the trimmed text itself up to 2000 code units and
    otherwise its first 2000 code units followed by [...]; and a hover
    schedules the text pipeline with that payload as long as the summary
    key can be derived. But the key is derived from the first 100 code
    units of the payload, before the timer is set and outside every
    handler: for the paragraph [splitPairParagraph], whose trimmed text has
    128 code units, the cut falls between the two halves of a surrogate
    pair, [encodeURIComponent] throws a [URIError], the exception leaves
    the hover listener, and no pipeline is started: no timer is set, and
    after the debounce delay nothing has been sent and no tooltip is
    shown. *)
Theorem C5_text_summary_threshold :
  (∀ e : Element,
     textBearing e →
     let t := trimmedText e in
     (is_Some (extractTextFromElement e) ↔ (50 ≤ String.length t)%nat)
     ∧ ((50 ≤ String.length t ≤ 2000)%nat → extractTextFromElement e = Some t)
     ∧ ((2000 < String.length t)%nat →
          extractTextFromElement e = Some (substring 0 2000 t +:+ "...")
          ∧ String.length (substring 0 2000 t) = 2000%nat
          ∧ String.prefix (substring 0 2000 t) t = true)
     ∧ ∀ now st,
         match extractTextFromElement e with
         | None =>
             handleHover now (Some e) st = (resetHoverTimeout st, Normal tt)
         | Some payload =>
             match getSummaryCacheKey (location st) payload with
             | Normal key =>
                 (handleHover now (Some e) st).2 = Normal tt
                 ∧ timers (handleHover now (Some e) st).1 =
                     (timers (resetHoverTimeout st)
                      ++ [(fresh st, (now + 500,
                                      TextHoverFired e payload key))])%list
             | Throw err =>
                 handleHover now (Some e) st
                 = (resetHoverTimeout st, Throw err)
             end
         end)
  ∧ (let e := splitPairParagraph in
     let st := initialPage {| origin := "https://example.org"; pathname := "/" |}
                 {[ 1%nat ]} in
     textBearing e
     ∧ String.length (trimmedText e) = 128%nat
     ∧ extractTextFromElement e = Some splitPairText
     ∧ getSummaryCacheKey (location st) splitPairText = Throw "URIError"
     ∧ handleHover 0 (Some e) st = (st, Throw "URIError")
     ∧ ∀ later i,
         run [(0, mouseover (Some e)); (later, timeout i)] st = st).
Proof.
  split.
  - intros e Htb t.
    destruct (extractTextFromElement_threshold e Htb) as (H1 & H2 & H3).
    split_and!; [exact H1 | exact H2 | exact H3 |].
    intros now st. exact (handleHover_textBearing now e st Htb).
  - split_and!.
    + split; [reflexivity | split; [constructor | vm_compute; discriminate]].
    + vm_compute. reflexivity.
    + vm_compute. reflexivity.
    + vm_compute. reflexivity.
    + vm_compute. reflexivity.
    + intros later i. vm_compute. reflexivity.
Qed.




(** ** The tooltip dispatcher *)

(** [showTooltip] always puts a new [div] into the page and tracks it. *)
Lemma showTooltip_shows (now : Z) (e : Element) (content : string)
    (isProcessing : bool) (st : Page) :
  ∃ shown,
    tooltips (showTooltip now e content isProcessing st) =
      (removeFirstWithId TOOLTIP_ID (tooltips (removeCurrentTooltip st))
       ++ [shown])%list
    ∧ tip_node shown = fresh st
    ∧ tip_id shown = ""
    ∧ currentTooltip (showTooltip now e content isProcessing st)
      = Some (tip_node shown).
Proof.
  exists {| tip_node := fresh st; tip_id := "";
            innerHTML := if isProcessing then content +:+ spinner else content |}.
  unfold showTooltip.
  assert (Hfresh : fresh (removeCurrentTooltip st) = fresh st).
  { unfold removeCurrentTooltip. by destruct (currentTooltip st). }
  destruct isProcessing; simpl; rewrite ?Hfresh; by split_and!.
Qed.

Lemma removeCurrentTooltip_atMostCurrent (st : Page) :
  atMostCurrent st → tooltips (removeCurrentTooltip st) = [].
Proof.
  intros [Hnil | (t & Ht & Hcur)]; unfold removeCurrentTooltip.
  - destruct (currentTooltip st); simpl; by rewrite Hnil.
  - rewrite Hcur. simpl. rewrite Ht. unfold removeNode.
    by rewrite filter_cons_False by (intros H; by apply H).
Qed.

Lemma showTooltip_atMostCurrent (now : Z) (e : Element) (content : string)
    (isProcessing : bool) (st : Page) :
  atMostCurrent st → atMostCurrent (showTooltip now e content isProcessing st).
Proof.
  intros Hinv. right.
  destruct (showTooltip_shows now e content isProcessing st)
    as (shown & Hts & _ & _ & Hcur).
  exists shown. rewrite Hts, (removeCurrentTooltip_atMostCurrent st Hinv).
  by split.
Qed.

Lemma atMostCurrent_same (st st' : Page) :
  tooltips st' = tooltips st → currentTooltip st' = currentTooltip st →
  atMostCurrent st → atMostCurrent st'.
Proof. unfold atMostCurrent. intros -> ->. done. Qed.

Lemma atMostCurrent_removeNode (n : nat) (st : Page) :
  atMostCurrent st → atMostCurrent (set_tooltips (removeNode n (tooltips st)) st).
Proof.
  intros [Hnil | (t & Ht & Hcur)]; unfold atMostCurrent; simpl.
  - left. by rewrite Hnil.
  - rewrite Ht. unfold removeNode.
    destruct (decide (tip_node t = n)) as [Heq | Hne].
    + left. by rewrite filter_cons_False by (intros H; by apply H).
    + right. exists t. by rewrite filter_cons_True.
Qed.

(** The page a hover leaves behind: the page as it was (no element under
    the pointer), the page with the pending debounce timer cleared (nothing
    to schedule, or a key derivation threw), or that page with one new
    debounce timer, which [hoverTimeout] names. *)
Lemma handleHover_shape (now : Z) (target : option Element) (st : Page) :
  (handleHover now target st).1 = st
  ∨ (handleHover now target st).1 = resetHoverTimeout st
  ∨ ∃ task,
      isHoverTask task = true
      ∧ (handleHover now target st).1
        = set_hoverTimeout (Some (fresh (resetHoverTimeout st)))
            (setTimeout now task HOVER_DELAY (resetHoverTimeout st)).2.
Proof.
  destruct target as [e |]; [| by left]. right.
  unfold handleHover. fold (resetHoverTimeout st).
  set (st0 := resetHoverTimeout st). clearbody st0.
  assert (Htext :
    (match extractTextFromElement e with
     | Some (String _ _ as text) => scheduleTextHover now e text st0
     | _ => (st0, Normal tt)
     end).1 = st0
    ∨ ∃ task, isHoverTask task = true
        ∧ (match extractTextFromElement e with
           | Some (String _ _ as text) => scheduleTextHover now e text st0
           | _ => (st0, Normal tt)
           end).1
          = set_hoverTimeout (Some (fresh st0))
              (setTimeout now task HOVER_DELAY st0).2).
  { destruct (extractTextFromElement e) as [[| ch rest] |]; [by left | | by left].
    unfold scheduleTextHover.
    destruct (getSummaryCacheKey _ _) as [sk | err]; [| by left].
    right. by eexists (TextHoverFired _ _ _). }
  destruct (_ && _).
  { right. by exists (ImageHoverFired e (src e)). }
  destruct (getPreviewCacheKey _ _) as [[[| ch rest] |] | err];
    [exact Htext | | exact Htext | by left].
  unfold schedulePreviewHover.
  destruct (getButtonSummaryCacheKey _ _ _ _) as [sk | err]; [| by left].
  right. by eexists (PreviewHoverFired _ _ _ _).
Qed.

Lemma handleHover_tooltips (now : Z) (target : option Element) (st : Page) :
  tooltips (handleHover now target st).1 = tooltips st
  ∧ currentTooltip (handleHover now target st).1 = currentTooltip st.
Proof.
  assert (H0 : tooltips (resetHoverTimeout st) = tooltips st
               ∧ currentTooltip (resetHoverTimeout st) = currentTooltip st)
    by (unfold resetHoverTimeout; by destruct (hoverTimeout st)).
  destruct (handleHover_shape now target st) as [-> | [-> | (task & _ & ->)]];
    done.
Qed.

Lemma removeCurrentTooltip_keeps (st : Page) :
  atMostCurrent st → atMostCurrent (removeCurrentTooltip st).
Proof. intros H. left. by apply removeCurrentTooltip_atMostCurrent. Qed.

Lemma resetHoverTimeout_keeps (st : Page) :
  atMostCurrent st → atMostCurrent (resetHoverTimeout st).
Proof.
  apply atMostCurrent_same; unfold resetHoverTimeout;
    by destruct (hoverTimeout st).
Qed.

Lemma sendMessage_keeps (m : Message) (k : Continuation) (st : Page) :
  atMostCurrent st → atMostCurrent (sendMessage m k st).
Proof. by apply atMostCurrent_same. Qed.

Lemma awaitStorage_keeps (k : Continuation) (st : Page) :
  atMostCurrent st → atMostCurrent (awaitStorage k st).
Proof. by apply atMostCurrent_same. Qed.

Lemma onOcrResponse_keeps now target lastError response (st : Page) :
  atMostCurrent st → atMostCurrent (onOcrResponse now target lastError response st).
Proof.
  intros H. unfold onOcrResponse.
  destruct lastError; [by apply showTooltip_atMostCurrent |].
  destruct (succeeded response); [by apply showTooltip_atMostCurrent |].
  destruct (truthy _); by apply showTooltip_atMostCurrent.
Qed.

Lemma onTextCacheRead_keeps now target text summaryKey lastError (st : Page) :
  atMostCurrent st →
  atMostCurrent (onTextCacheRead now target text summaryKey lastError st).
Proof.
  intros H. unfold onTextCacheRead.
  destruct (getCachedSummary now lastError summaryKey (local st)) as [local' read].
  assert (H' : atMostCurrent (set_local local' st))
    by (revert H; by apply atMostCurrent_same).
  destruct (negb _); [done |].
  destruct (truthy _);
    [by apply showTooltip_atMostCurrent | by apply sendMessage_keeps].
Qed.

Lemma onTextResponse_keeps now target summaryKey lastError response (st : Page) :
  atMostCurrent st →
  atMostCurrent (onTextResponse now target summaryKey lastError response st).
Proof.
  intros H. unfold onTextResponse.
  destruct (negb _); [done |].
  destruct lastError; [by apply showTooltip_atMostCurrent |].
  destruct (_ && _); [by apply awaitStorage_keeps |].
  destruct (truthy _); by apply showTooltip_atMostCurrent.
Qed.

Lemma onTextCacheWritten_keeps now target summaryKey stamped result usageFooter
    lastError (st : Page) :
  atMostCurrent st →
  atMostCurrent (onTextCacheWritten now target summaryKey stamped result
                   usageFooter lastError st).
Proof.
  intros H. unfold onTextCacheWritten.
  destruct (cacheSummary stamped lastError summaryKey result (local st))
    as [local' written].
  apply showTooltip_atMostCurrent. revert H. by apply atMostCurrent_same.
Qed.

Lemma onFixedResponse_keeps now fixedTooltip lastError response (st : Page) :
  atMostCurrent st →
  atMostCurrent (onFixedResponse now fixedTooltip lastError response st).
Proof.
  intros [Hnil | (t & Ht & Hcur)]; unfold onFixedResponse, atMostCurrent; simpl.
  - left. by rewrite Hnil.
  - right. rewrite Ht. simpl. eexists. split; [reflexivity |].
    by destruct (bool_decide _).
Qed.

Lemma fire_keeps now task (st : Page) :
  atMostCurrent st → atMostCurrent (fire now task st).
Proof.
  intros H. unfold fire. destruct task.
  - by apply sendMessage_keeps, showTooltip_atMostCurrent.
  - by apply awaitStorage_keeps, showTooltip_atMostCurrent.
  - by apply awaitStorage_keeps, showTooltip_atMostCurrent.
  - destruct (bool_decide _); [by apply removeCurrentTooltip_keeps | done].
  - by apply atMostCurrent_removeNode.
Qed.

(** Every turn of the event loop other than the context-menu message keeps
    at most one tooltip in the page. *)
Lemma step_keeps now ev (st : Page) :
  (∀ action text, ev ≠ runtimeMessage action text) →
  atMostCurrent st → atMostCurrent (step now ev st).
Proof.
  intros Hev H. unfold step.
  destruct ev as [target | target | i | n | n | k e | k e | k e r | a t].
  - revert H. apply atMostCurrent_same; apply handleHover_tooltips.
  - apply resetHoverTimeout_keeps.
    destruct (bool_decide _); [| done].
    apply removeCurrentTooltip_keeps. revert H. by apply atMostCurrent_same.
  - destruct (lookupId i (timers st)) as [[due task] |]; [| done].
    destruct (due <=? now); [| done].
    apply fire_keeps. revert H. by apply atMostCurrent_same.
  - revert H. by apply atMostCurrent_same.
  - revert H. by apply atMostCurrent_same.
  - destruct (lookupId k (pending st)) as [[] |]; try done.
    apply onTextCacheRead_keeps. revert H. by apply atMostCurrent_same.
  - destruct (lookupId k (pending st)) as [[] |]; try done.
    apply onTextCacheWritten_keeps. revert H. by apply atMostCurrent_same.
  - destruct (lookupId k (pending st)) as [[] |]; try done.
    + apply onOcrResponse_keeps. revert H. by apply atMostCurrent_same.
    + apply onTextResponse_keeps. revert H. by apply atMostCurrent_same.
    + apply onFixedResponse_keeps. revert H. by apply atMostCurrent_same.
  - by destruct (Hev a t).
Qed.

(** Hover-only runs (recognition and text pipelines, the preview pipeline
    up to its first suspension): the tooltip replacement rule holds in every
    state they reach. *)
Lemma run_hover_only_at_most_one (events : list (Z * Event)) (st : Page) :
  Forall (λ e, ∀ action text, e.2 ≠ runtimeMessage action text) events →
  atMostCurrent st →
  atMostCurrent (run events st) ∧ (length (tooltips (run events st)) ≤ 1)%nat.
Proof.
  intros Hev. revert st.
  induction Hev as [| [now ev] rest Hnot _ IH]; intros st H; simpl.
  - split; [done |]. destruct H as [-> | (t & -> & _)]; simpl; lia.
  - apply IH. by apply step_keeps.
Qed.

(** The continuations of the text pipeline that run on a storage read or on
    the worker's response check that the target is still in the document,
    and render nothing when it is not. *)
Lemma text_continuations_guarded now target text summaryKey lastError response
    (st : Page) :
  contains st target = false →
  onTextResponse now target summaryKey lastError response st = st
  ∧ tooltips (onTextCacheRead now target text summaryKey lastError st)
    = tooltips st.
Proof.
  intros Hgone. split.
  - unfold onTextResponse. by rewrite Hgone.
  - unfold onTextCacheRead.
    destruct (getCachedSummary now lastError summaryKey (local st))
      as [local' read].
    assert (Hc : contains (set_local local' st) target = false) by exact Hgone.
    by rewrite Hc.
Qed.

(** The continuation of the image pipeline has no such check: whatever the
    page looks like, it puts a tooltip into it. *)
Lemma onOcrResponse_always_shows now target lastError response (st : Page) :
  ∃ shown earlier,
    tooltips (onOcrResponse now target lastError response st)
      = (earlier ++ [shown])%list
    ∧ tip_node shown = fresh st.
Proof.
  unfold onOcrResponse.
  destruct lastError;
    [| destruct (succeeded response); [| destruct (truthy _)]];
    match goal with
    | |- context [showTooltip ?n ?e ?c ?p ?s] =>
        destruct (showTooltip_shows n e c p s) as (shown & Hts & Hnode & _)
    end; exists shown; eexists; eauto.
Qed.

(** Nor has the continuation of the text pipeline that runs once the
    summary is written to the cache. *)
Lemma onTextCacheWritten_always_shows now target summaryKey stamped result
    usageFooter lastError (st : Page) :
  ∃ shown earlier,
    tooltips (onTextCacheWritten now target summaryKey stamped result
                usageFooter lastError st)
      = (earlier ++ [shown])%list
    ∧ tip_node shown = fresh st.
Proof.
  unfold onTextCacheWritten.
  destruct (cacheSummary stamped lastError summaryKey result (local st))
    as [local' written].
  match goal with
  | |- context [showTooltip ?n ?e ?c ?p ?s] =>
      destruct (showTooltip_shows n e c p s) as (shown & Hts & Hnode & _)
  end.
  exists shown. eexists. eauto.
Qed.

(** C8: where the code departs from the claim. An image is hovered, the
    debounce timer fires, the pointer leaves, the image is removed from the
    document, and then the recognition result arrives: the continuation of
    [scheduleImageHover] shows the result tooltip although its target is no
    longer in the document. In the same situation the response continuation
    of the text pipeline leaves the page as it is. *)
Theorem C8_image_result_after_detach :
  let target := {| node := 1; interface := HTMLImageElement; tagName := "IMG";
                   attributes := ∅; id := ""; textContent := Some "";
                   href := ""; src := "https://example.org/chart.png";
                   parentTextContent := None |} in
  let usage := {| plan := "free"; freeTierLimit := 100;
                  freeTooltipsRemaining := 99; freeTooltipsUsedInfo := 1 |} in
  let response := Some {| success := true;
                          result := Some "Quarterly Sales Report";
                          resp_error := None; errorCode := None;
                          resp_usageInfo := Some usage |} in
  let before :=
    run [(0, mouseover (Some target)); (500, timeout 0);
         (700, mouseout 1); (800, elementRemoved 1)]
      (initialPage {| origin := "https://example.org"; pathname := "/" |}
         {[ 1%nat ]}) in
  contains before target = false
  ∧ tooltips before = []
  ∧ pending before = [(2%nat, OcrResponse target)]
  ∧ tooltips (step 2000 (responded 2 None response) before) =
      [{| tip_node := 3; tip_id := "";
          innerHTML :=
            "<p><strong>Image OCR Result:</strong></p><p>Quarterly Sales Report</p>"
            +:+ buildUsageFooter (Some usage) |}]
  ∧ ∀ summaryKey,
      onTextResponse 2000 target summaryKey None response before = before.
Proof.
  intros target usage response before.
  split_and!; [reflexivity | reflexivity | reflexivity | reflexivity |].
  intros summaryKey.
  by apply (text_continuations_guarded 2000 target "" summaryKey None response before).
Qed.

(** The context-menu listener appends its tooltip and removes nothing. *)
Lemma onRuntimeMessage_appends (text : string) (st : Page) :
  ∃ fixedTooltip,
    tooltips (onRuntimeMessage "showSummaryTooltip" (Some text) st)
      = (tooltips st ++ [fixedTooltip])%list
    ∧ tip_node fixedTooltip = fresh st
    ∧ tip_id fixedTooltip = TOOLTIP_ID.
Proof. eexists. unfold onRuntimeMessage. simpl. by split_and!. Qed.

(** C9: where the code departs from the claim. (1) A paragraph is hovered
    and its processing tooltip is shown; the context-menu summary message
    arrives: the page now shows two tooltips. (2) Two context-menu messages
    in a row leave two tooltips with the same id; a hover tooltip shown
    afterwards removes only the first of them. In general the listener adds
    one tooltip to whatever the page shows. *)
Theorem C9_context_menu_second_tooltip :
  let target := {| node := 1; interface := HTMLElement; tagName := "P";
                   attributes := ∅; id := "";
                   textContent :=
                     Some "The quick brown fox jumps over the lazy dog, twice over.";
                   href := ""; src := ""; parentTextContent := None |} in
  let init := initialPage {| origin := "https://example.org"; pathname := "/" |}
                {[ 1%nat ]} in
  let hovered := run [(0, mouseover (Some target)); (500, timeout 0)] init in
  let both := step 900 (runtimeMessage "showSummaryTooltip" (Some "fox")) hovered in
  let twice :=
    run [(0, runtimeMessage "showSummaryTooltip" (Some "fox"));
         (300, runtimeMessage "showSummaryTooltip" (Some "dog"))] init in
  let after := run [(400, mouseover (Some target)); (900, timeout 4)] twice in
  map tip_node (tooltips hovered) = [1%nat]
  ∧ map tip_node (tooltips both) = [1%nat; 3%nat]
  ∧ map tip_id (tooltips both) = [""; TOOLTIP_ID]
  ∧ map tip_id (tooltips twice) = [TOOLTIP_ID; TOOLTIP_ID]
  ∧ map tip_id (tooltips after) = [TOOLTIP_ID; ""]
  ∧ ∀ text st,
      length (tooltips (onRuntimeMessage "showSummaryTooltip" (Some text) st))
      = S (length (tooltips st)).
Proof.
  intros target init hovered both twice after.
  split_and!; [reflexivity | reflexivity | reflexivity | reflexivity | reflexivity |].
  intros text st. destruct (onRuntimeMessage_appends text st) as (t & -> & _).
  rewrite length_app. simpl. lia.
Qed.

(** * Further properties of the code *)

(** ** The usage ledger over runs of requests *)

Section Ledger.

Variable c : Config.

(** One call of the gate either leaves the store alone or replaces the
    counter by its successor. *)
Lemma resolve_store_cases f action st :
  (resolveUsageAndApiKey c f action st).1 = st
  ∨ (truthy (llmApiKey st) = false
     ∧ planOf st ≠ "paid"
     ∧ usedOf st < FREE_TIER_LIMIT c
     ∧ (resolveUsageAndApiKey c f action st).1 =
         {| llmApiKey := llmApiKey st;
            freeTooltipsUsed := Some (usedOf st + 1);
            subscriptionStatus := subscriptionStatus st |}).
Proof.
  unfold resolveUsageAndApiKey, storageSyncGet, storageSyncSet_used.
  destruct (syncGetThrows f); [by left |].
  destruct (truthy (llmApiKey st)) eqn:Hkey; [by left |].
  destruct (StringFacts.eqb_spec (planOf st) "paid") as [| Hplan]; [by left |].
  destruct (Z.geb_spec (usedOf st) (FREE_TIER_LIMIT c)); [by left |].
  destruct (_ && _); [by left |].
  destruct (syncSetThrows f); [by left |].
  right. by split_and!.
Qed.

Lemma handleRequest_store_cases f off m st :
  (handleRequest c f off m st).1 = st
  ∨ (truthy (llmApiKey st) = false
     ∧ planOf st ≠ "paid"
     ∧ usedOf st < FREE_TIER_LIMIT c
     ∧ (handleRequest c f off m st).1 =
         {| llmApiKey := llmApiKey st;
            freeTooltipsUsed := Some (usedOf st + 1);
            subscriptionStatus := subscriptionStatus st |}).
Proof. rewrite handleRequest_store. apply resolve_store_cases. Qed.

End Ledger.

Lemma usedOf_counter k n s :
  usedOf {| llmApiKey := k; freeTooltipsUsed := Some n; subscriptionStatus := s |}
  = n.
Proof. reflexivity. Qed.

(** X1: over any run of requests, whatever the storage and the processor
    do, the broker never touches the stored key or the stored plan, and the
    counter never decreases and grows by at most one per request. *)
Theorem X1_ledger_monotone (c : Config)
    (reqs : list (StorageFaults * Offscreen * Message)) (st : SyncStorage) :
  let st' := (serve c reqs st).1 in
  llmApiKey st' = llmApiKey st
  ∧ subscriptionStatus st' = subscriptionStatus st
  ∧ usedOf st ≤ usedOf st' ≤ usedOf st + Z.of_nat (length reqs).
Proof.
  revert st. induction reqs as [| [[f off] m] rest IH]; intros st.
  { simpl. split_and!; try done; lia. }
  cbn [serve length]. rewrite Nat2Z.inj_succ.
  pose proof (handleRequest_store_cases c f off m st) as Hcases.
  destruct (handleRequest c f off m st) as [st1 h]. cbn [fst] in Hcases.
  specialize (IH st1). destruct (serve c rest st1) as [st2 hs].
  cbn [fst] in IH |- *. destruct IH as (Hk & Hp & Hu).
  assert (Hst1 : llmApiKey st1 = llmApiKey st
                 ∧ subscriptionStatus st1 = subscriptionStatus st
                 ∧ usedOf st ≤ usedOf st1 ≤ usedOf st + 1).
  { destruct Hcases as [-> | (_ & _ & _ & ->)]; [split_and!; try done; lia |].
    rewrite usedOf_counter. split_and!; try done; lia. }
  destruct Hst1 as (Hk1 & Hp1 & Hu1).
  rewrite Hk, Hp. split_and!; try done; lia.
Qed.

(** X2: the gate never lets the counter pass the ceiling: after any run of
    requests the counter is at most the larger of the ceiling and the value
    it started from. *)
Theorem X2_ceiling_respected (c : Config)
    (reqs : list (StorageFaults * Offscreen * Message)) (st : SyncStorage) :
  usedOf (serve c reqs st).1 ≤ Z.max (usedOf st) (FREE_TIER_LIMIT c).
Proof.
  revert st. induction reqs as [| [[f off] m] rest IH]; intros st.
  { simpl. lia. }
  cbn [serve].
  pose proof (handleRequest_store_cases c f off m st) as Hcases.
  destruct (handleRequest c f off m st) as [st1 h]. cbn [fst] in Hcases.
  specialize (IH st1). destruct (serve c rest st1) as [st2 hs].
  cbn [fst] in IH |- *.
  assert (Hst1 : usedOf st1 ≤ Z.max (usedOf st) (FREE_TIER_LIMIT c)).
  { destruct Hcases as [-> | (_ & _ & Hlt & ->)]; [lia |].
    rewrite usedOf_counter. lia. }
  lia.
Qed.



(** X4: whatever the broker forwards to the processor comes from a request
    the gate let through. Without a stored key that means a free plan below
    the ceiling, charged one action; a forwarded summarize request always
    carries a non-empty key (the stored one, or else the configured fallback
    key), and the text and image locator are passed on unchanged. *)
Theorem X4_forwarded_requests (c : Config) (f : StorageFaults) (off : Offscreen)
    (m : Message) (st st' : SyncStorage) (h : Handled) (req : OffscreenRequest) :
  handleRequest c f off m st = (st', h) →
  forwarded h = Some req →
  off_action req = "processInOffscreen"
  ∧ off_type req = (if String.eqb (action m) "summarizeText"
                    then "summarize" else "ocr")
  ∧ text (off_data req) = text (data m)
  ∧ imageUrl (off_data req) = imageUrl (data m)
  ∧ (off_type req = "summarize" → truthy (data_apiKey (off_data req)) = true)
  ∧ (if truthy (llmApiKey st)
     then st' = st ∧ data_apiKey (off_data req) = llmApiKey st
     else planOf st ≠ "paid"
          ∧ usedOf st < FREE_TIER_LIMIT c
          ∧ usedOf st' = usedOf st + 1
          ∧ (action m = "summarizeText" →
               data_apiKey (off_data req) = Some (DEFAULT_FREE_API_KEY c))).
Proof.
  unfold handleRequest, resolveUsageAndApiKey, storageSyncGet, storageSyncSet_used.
  destruct (syncGetThrows f); [by intros [= <- <-] |].
  destruct (truthy (llmApiKey st)) eqn:Hkey.
  { simpl. rewrite Hkey.
    destruct off as [| e | resp]; intros [= <- <-]; [done | |];
      intros [= <-]; simpl; split_and!; try done;
      by destruct (String.eqb (action m) "summarizeText"). }
  destruct (StringFacts.eqb_spec (planOf st) "paid") as [| Hplan];
    [by intros [= <- <-] |].
  destruct (Z.geb_spec (usedOf st) (FREE_TIER_LIMIT c)); [by intros [= <- <-] |].
  destruct (StringFacts.eqb_spec (action m) "summarizeText") as [Hact | Hact]; simpl.
  - destruct (DEFAULT_FREE_API_KEY c) as [| ch key] eqn:Hd; simpl;
      [by intros [= <- <-] |].
    destruct (syncSetThrows f); [by intros [= <- <-] |]. simpl.
    destruct off as [| e | resp]; intros [= <- <-]; [done | |];
      intros [= <-]; simpl; by split_and!.
  - destruct (syncSetThrows f); [by intros [= <- <-] |]. simpl.
    destruct off as [| e | resp]; intros [= <- <-]; [done | |];
      intros [= <-]; simpl; by split_and!.
Qed.

Lemma X4_forwarded_requests_witness :
  let c := {| CONFIG_FREE_TIER_LIMIT := Some 100;
              CONFIG_DEFAULT_FREE_API_KEY := Some "sk-shared" |} in
  let st := {| llmApiKey := None; freeTooltipsUsed := Some 41;
               subscriptionStatus := Some "free" |} in
  let m := {| action := "summarizeText";
              data := {| text := Some "some text"; imageUrl := None;
                         data_apiKey := None |} |} in
  let out := handleRequest c noFaults (ProcessorReply None) m st in
  let req := {| off_action := "processInOffscreen"; off_type := "summarize";
                off_data := {| text := Some "some text"; imageUrl := None;
                               data_apiKey := Some "sk-shared" |} |} in
  forwarded out.2 = Some req
  ∧ truthy (data_apiKey (off_data req)) = true.
Proof.
  intros c st m out req. split; [reflexivity |].
  destruct (X4_forwarded_requests c noFaults (ProcessorReply None) m st
              out.1 out.2 req eq_refl eq_refl) as (_ & _ & _ & _ & Hkey & _).
  by apply Hkey.
Defined.

(** ** Install-time defaults and the popup *)

Import Lifecycle PopupView.

(** X5: the defaults written at install time are the values the gate
    assumes for missing entries: initialising keeps the stored key, the plan
    and the count the gate sees, fills both entries, is idempotent, and
    commutes with every call of the gate (same decision, same snapshot). So
    re-running it on an update never resets a counter or a plan. *)
Theorem X5_install_defaults (c : Config) (f : StorageFaults) (action : string)
    (st : SyncStorage) :
  let st0 := initializeFreeTierDefaults st in
  llmApiKey st0 = llmApiKey st
  ∧ planOf st0 = planOf st
  ∧ usedOf st0 = usedOf st
  ∧ freeTooltipsUsed st0 = Some (usedOf st)
  ∧ subscriptionStatus st0 = Some (planOf st)
  ∧ initializeFreeTierDefaults st0 = st0
  ∧ resolveUsageAndApiKey c f action st0 =
      (initializeFreeTierDefaults (resolveUsageAndApiKey c f action st).1,
       (resolveUsageAndApiKey c f action st).2).
Proof.
  intros st0.
  assert (Hk : llmApiKey st0 = llmApiKey st) by reflexivity.
  assert (Hp : planOf st0 = planOf st).
  { unfold st0, initializeFreeTierDefaults, planOf. simpl.
    by destruct (subscriptionStatus st) as [[| ? ?] |]. }
  assert (Hu : usedOf st0 = usedOf st).
  { unfold st0, initializeFreeTierDefaults, usedOf. simpl.
    by destruct (freeTooltipsUsed st). }
  assert (Hs : subscriptionStatus st0 = Some (planOf st)).
  { unfold st0, initializeFreeTierDefaults, planOf. simpl.
    by destruct (subscriptionStatus st) as [[| ? ?] |]. }
  assert (Hf : freeTooltipsUsed st0 = Some (usedOf st)).
  { unfold st0, initializeFreeTierDefaults, usedOf. simpl.
    by destruct (freeTooltipsUsed st). }
  assert (Hi : initializeFreeTierDefaults st0 = st0).
  { unfold st0. by destruct st as [k [u |] [[| ch s] |]]. }
  split_and!; try done.
  unfold resolveUsageAndApiKey, storageSyncGet, storageSyncSet_used.
  destruct (syncGetThrows f); [reflexivity |].
  rewrite Hk, Hp, Hu.
  destruct (truthy (llmApiKey st)); [reflexivity |].
  destruct (String.eqb (planOf st) "paid"); [reflexivity |].
  destruct (usedOf st >=? FREE_TIER_LIMIT c); [reflexivity |].
  destruct (_ && _); [reflexivity |].
  destruct (syncSetThrows f); [reflexivity |].
  reflexivity.
Qed.

(** X6: when the popup shows a count, it is the count the gate works with:
    the plan is not paid and no key is stored; the line reads
    [max(ceiling - used, 0) of ceiling]; at 0 every request is denied as
    exhausted, and above 0 a recognition request proceeds and reports one
    less. *)
Theorem X6_popup_count_is_gate_count (c : Config) (st : SyncStorage) :
  unlimited (renderUsage c st) = false →
  let remaining := Z.max (FREE_TIER_LIMIT c - usedOf st) 0 in
  usageCount (renderUsage c st) =
    pretty remaining +:+ " of " +:+ pretty (FREE_TIER_LIMIT c)
    +:+ " free tooltips remaining"
  ∧ truthy (llmApiKey st) = false
  ∧ planOf st ≠ "paid"
  ∧ (remaining = 0 →
       ∀ action, ∃ r,
         resolveUsageAndApiKey c noFaults action st = (st, Fulfilled r)
         ∧ error r = Some (exhaustedMessage c))
  ∧ (0 < remaining →
       ∃ st' r,
         resolveUsageAndApiKey c noFaults "ocrImage" st = (st', Fulfilled r)
         ∧ error r = None
         ∧ freeTooltipsRemaining (usageInfo r) = remaining - 1).
Proof.
  unfold renderUsage.
  destruct (StringFacts.eqb_spec (planOf st) "paid") as [| Hplan]; [discriminate |].
  destruct (truthy (llmApiKey st)) eqn:Hkey; [discriminate |].
  destruct (String.eqb (planOf st) "custom"); [discriminate |].
  intros _. change (false || false || false) with false. cbv iota.
  cbn [usageCount]. unfold Math_max. split_and!; try done.
  - intros Hzero action. eexists. split.
    + apply resolve_exhausted; [done | done | lia].
    + reflexivity.
  - intros Hpos. do 2 eexists. split.
    + apply resolve_free_proceeds; [done | done | lia | discriminate].
    + cbn -[Z.max Z.sub Z.add]. split; [reflexivity | lia].
Qed.

Lemma X6_popup_count_is_gate_count_witness :
  let c := {| CONFIG_FREE_TIER_LIMIT := Some 100;
              CONFIG_DEFAULT_FREE_API_KEY := Some "" |} in
  let st := {| llmApiKey := None; freeTooltipsUsed := Some 97;
               subscriptionStatus := Some "free" |} in
  usageCount (renderUsage c st) = "3 of 100 free tooltips remaining"
  ∧ truthy (llmApiKey st) = false.
Proof.
  intros c st.
  destruct (X6_popup_count_is_gate_count c st eq_refl) as (Hline & Hkey & _).
  split; [exact Hline | exact Hkey].
Defined.

(** X7: the popup and the gate disagree in two stored states without a
    key. On the paid plan the popup announces unlimited tooltips while the
    gate denies every request; with the plan left at custom the popup
    announces unlimited tooltips while the gate meters the free tier. *)
Theorem X7_popup_unlimited_without_key (c : Config) (st : SyncStorage) :
  truthy (llmApiKey st) = false →
  planOf st = "paid" ∨ planOf st = "custom" →
  unlimited (renderUsage c st) = true
  ∧ (planOf st = "paid" →
       ∀ off m,
         handleRequest c noFaults off m st =
           (st, {| forwarded := None;
                   settled := Fulfilled (needsCredentialResponse c st) |}))
  ∧ (planOf st = "custom" →
       FREE_TIER_LIMIT c ≤ usedOf st →
       ∀ action, ∃ r,
         resolveUsageAndApiKey c noFaults action st = (st, Fulfilled r)
         ∧ error r = Some (exhaustedMessage c)).
Proof.
  intros Hkey Hplan. split_and!.
  - unfold renderUsage. destruct Hplan as [-> | ->]; [done |].
    by rewrite Hkey.
  - intros Hpaid off m.
    by rewrite (handleRequest_denied c noFaults off m st st _
                  (resolve_paid c (action m) st Hpaid Hkey) eq_refl).
  - intros Hcustom Hused action. eexists.
    split; [apply resolve_exhausted; [by rewrite Hcustom | done | done] |].
    reflexivity.
Qed.

Lemma X7_popup_unlimited_without_key_witness :
  let c := {| CONFIG_FREE_TIER_LIMIT := Some 100;
              CONFIG_DEFAULT_FREE_API_KEY := Some "sk-shared" |} in
  let st := {| llmApiKey := None; freeTooltipsUsed := Some 3;
               subscriptionStatus := Some "paid" |} in
  unlimited (renderUsage c st) = true
  ∧ ∀ off m,
      handleRequest c noFaults off m st =
        (st, {| forwarded := None;
                settled := Fulfilled (needsCredentialResponse c st) |}).
Proof.
  intros c st.
  destruct (X7_popup_unlimited_without_key c st eq_refl (or_introl eq_refl))
    as (Hun & Hpaid & _).
  split; [exact Hun | exact (Hpaid eq_refl)].
Defined.

(** A web-auth flow that returns a token sets the plan to paid and nothing
    else. *)
Lemma onWebAuthFlow_token (url : string) (st : SyncStorage) :
  is_Some (indexOf url "access_token=") →
  (onWebAuthFlow None (Some url) st).1 =
    {| llmApiKey := llmApiKey st;
       freeTooltipsUsed := freeTooltipsUsed st;
       subscriptionStatus := Some "paid" |}.
Proof.
  intros [i Hinc]. unfold onWebAuthFlow.
  destruct url as [| ch url]; [discriminate |].
  simpl truthy. simpl or_else. by rewrite Hinc.
Qed.

(** X8: the order of upgrading and saving a key matters for what is
    stored. Saving a key after a successful upgrade overwrites the paid
    plan with custom, and the gate then reports plan custom; upgrading
    after saving keeps the key and the gate reports plan paid. In both
    orders the trimmed key is stored, the counter is kept and requests
    proceed with that key. *)
Theorem X8_upgrade_and_save_order (c : Config) (input url : string)
    (st : SyncStorage) :
  trim input ≠ "" →
  is_Some (indexOf url "access_token=") →
  let saved_last :=
    (saveButton_click input (onWebAuthFlow None (Some url) st).1).1 in
  let upgraded_last :=
    (onWebAuthFlow None (Some url) (saveButton_click input st).1).1 in
  saved_last = {| llmApiKey := Some (trim input);
                  freeTooltipsUsed := freeTooltipsUsed st;
                  subscriptionStatus := Some "custom" |}
  ∧ upgraded_last = {| llmApiKey := Some (trim input);
                       freeTooltipsUsed := freeTooltipsUsed st;
                       subscriptionStatus := Some "paid" |}
  ∧ ∀ action, ∃ r1 r2,
      resolveUsageAndApiKey c noFaults action saved_last
        = (saved_last, Fulfilled r1)
      ∧ resolveUsageAndApiKey c noFaults action upgraded_last
        = (upgraded_last, Fulfilled r2)
      ∧ apiKey r1 = Some (trim input) ∧ apiKey r2 = Some (trim input)
      ∧ plan (usageInfo r1) = "custom" ∧ plan (usageInfo r2) = "paid".
Proof.
  intros Hne Htok saved_last upgraded_last.
  pose proof (λ s, onWebAuthFlow_token url s Htok) as Hup.
  assert (Hs : saved_last = {| llmApiKey := Some (trim input);
                               freeTooltipsUsed := freeTooltipsUsed st;
                               subscriptionStatus := Some "custom" |}).
  { unfold saved_last.
    rewrite (proj1 (saveButton_click_stores_key input _ Hne)).
    by rewrite Hup. }
  assert (Hu : upgraded_last = {| llmApiKey := Some (trim input);
                                  freeTooltipsUsed := freeTooltipsUsed st;
                                  subscriptionStatus := Some "paid" |}).
  { unfold upgraded_last. rewrite Hup.
    by rewrite (proj1 (saveButton_click_stores_key input st Hne)). }
  split_and!; [done | done |].
  intros action. rewrite Hs, Hu.
  assert (Hkey : truthy (Some (trim input)) = true)
    by (destruct (trim input); [done | reflexivity]).
  do 2 eexists. split_and!.
  - by apply resolve_custom.
  - by apply resolve_custom.
  - reflexivity.
  - reflexivity.
  - reflexivity.
  - reflexivity.
Qed.

Lemma X8_upgrade_and_save_order_witness :
  let c := {| CONFIG_FREE_TIER_LIMIT := Some 100;
              CONFIG_DEFAULT_FREE_API_KEY := Some "" |} in
  let st := {| llmApiKey := None; freeTooltipsUsed := Some 12;
               subscriptionStatus := Some "free" |} in
  let url := "https://abc.chromiumapp.org/#access_token=ya29" in
  (saveButton_click "  sk-mine " (onWebAuthFlow None (Some url) st).1).1
    = {| llmApiKey := Some "sk-mine"; freeTooltipsUsed := Some 12;
         subscriptionStatus := Some "custom" |}
  ∧ (onWebAuthFlow None (Some url) (saveButton_click "  sk-mine " st).1).1
    = {| llmApiKey := Some "sk-mine"; freeTooltipsUsed := Some 12;
         subscriptionStatus := Some "paid" |}.
Proof.
  intros c st url.
  destruct (X8_upgrade_and_save_order c "  sk-mine " url st
              ltac:(vm_compute; discriminate) ltac:(vm_compute; eauto))
    as (H1 & H2 & _).
  split; [exact H1 | exact H2].
Defined.

(** X9: the stored plan becomes paid only through a web-auth flow that is
    started with a configured client id, ends without error and returns a
    URL containing an access token; saving a key never makes the plan
    paid. *)
Theorem X9_paid_only_by_token (cid : option string)
    (flow : option string * option string) (input : string) (st : SyncStorage) :
  planOf st ≠ "paid" →
  (planOf (startGoogleUpgrade cid flow st).1 = "paid" →
     truthy cid = true
     ∧ flow.1 = None
     ∧ ∃ url, flow.2 = Some url ∧ is_Some (indexOf url "access_token="))
  ∧ planOf (saveButton_click input st).1 ≠ "paid".
Proof.
  intros Hfree. split.
  - unfold startGoogleUpgrade, onWebAuthFlow.
    destruct (truthy cid); [| by intros H].
    destruct flow as [[m |] url]; simpl; [by intros H |].
    destruct (truthy url) eqn:Hurl; simpl; [| by intros H].
    destruct url as [[| ch url] |]; try discriminate. simpl.
    case_bool_decide as Hidx; [by intros H |].
    intros _. split_and!; try done. exists (String ch url). split; [done |].
    by destruct (indexOf (String ch url) "access_token="); [eexists |].
  - unfold saveButton_click. destruct (truthy (Some (trim input))); [| done].
    unfold planOf. simpl. discriminate.
Qed.

Lemma X9_paid_only_by_token_witness :
  let st := {| llmApiKey := None; freeTooltipsUsed := Some 12;
               subscriptionStatus := Some "free" |} in
  let flow := (None, Some "https://abc.chromiumapp.org/#access_token=ya29") in
  planOf (startGoogleUpgrade (Some "client-id") flow st).1 = "paid"
  ∧ planOf (startGoogleUpgrade None flow st).1 ≠ "paid"
  ∧ planOf (saveButton_click "sk-mine" st).1 ≠ "paid".
Proof.
  intros st flow. split; [reflexivity |]. split.
  - intros H.
    destruct (proj1 (X9_paid_only_by_token None flow "sk-mine" st
                       ltac:(vm_compute; discriminate)) H) as (Hcid & _).
    discriminate Hcid.
  - exact (proj2 (X9_paid_only_by_token None flow "sk-mine" st
                    ltac:(vm_compute; discriminate))).
Defined.

(** ** The offscreen document *)

Lemma delayBudget_nonneg (remaining : nat) : 0 ≤ delayBudget remaining.
Proof.
  induction remaining as [| rest IH]; [done |]. cbn [delayBudget].
  destruct (_ <=? _)%nat; lia.
Qed.

Lemma pingOffscreen_cases (p : Ping) :
  match pingOffscreen p with
  | Fulfilled _ => p = PingOk
  | Rejected _ => p ≠ PingOk
  end.
Proof. by destruct p. Qed.

Lemma ensureLoop_spec (ping : nat → Ping) (remaining : nat) (w : Worker) :
  (remaining ≤ MAX_ATTEMPTS)%nat →
  let out := ensureLoop remaining ping w in
  (pinged out.1 ≤ pinged w + remaining)%nat
  ∧ delayed w ≤ delayed out.1 ≤ delayed w + delayBudget remaining
  ∧ ((0 < remaining)%nat → hasDocument out.1 = true)
  ∧ match out.2 with
    | Fulfilled _ =>
        remaining = O
        ∨ ∃ a, (MAX_ATTEMPTS - remaining < a ≤ MAX_ATTEMPTS)%nat
               ∧ ping a = PingOk
               ∧ pinged out.1 = (pinged w + (a - (MAX_ATTEMPTS - remaining)))%nat
               ∧ ∀ b, (MAX_ATTEMPTS - remaining < b < a)%nat → ping b ≠ PingOk
    | Rejected e =>
        (∀ a, (MAX_ATTEMPTS - remaining < a ≤ MAX_ATTEMPTS)%nat → ping a ≠ PingOk)
        ∧ pinged out.1 = (pinged w + remaining)%nat
        ∧ pingOffscreen (ping MAX_ATTEMPTS) = Rejected e
    end.
Proof.
  revert w. induction remaining as [| rest IH]; intros w Hle.
  { simpl. split_and!; lia. }
  cbn [ensureLoop delayBudget].
  pose proof (delayBudget_nonneg rest) as Hbudget.
  set (attempt := (MAX_ATTEMPTS - rest)%nat).
  set (w1 := if negb (hasDocument w)
             then delay (100 * Z.of_nat attempt) (createOffscreen w) else w).
  assert (Hw1 : hasDocument w1 = true ∧ pinged w1 = pinged w
                ∧ delayed w ≤ delayed w1 ≤ delayed w + 100 * Z.of_nat attempt).
  { unfold w1, createOffscreen. destruct (hasDocument w) eqn:Hd; simpl.
    - split_and!; try done; lia.
    - split_and!; try done; lia. }
  destruct Hw1 as (Hd1 & Hp1 & Hdel1).
  assert (Hattempt : (attempt = MAX_ATTEMPTS - rest)%nat) by reflexivity.
  clearbody attempt w1. unfold MAX_ATTEMPTS in *.
  pose proof (pingOffscreen_cases (ping attempt)) as Hping.
  destruct (pingOffscreen (ping attempt)) as [[] | e] eqn:Hres.
  - (* the ping of this attempt is answered *)
    cbn [fst snd countPing pinged delayed hasDocument].
    split; [lia |]. split; [destruct (5 <=? attempt)%nat; lia |].
    split; [done |].
    right. exists attempt. split; [lia |]. split; [done |]. split; [lia |].
    intros b Hb. lia.
  - destruct (Nat.leb_spec 5 attempt) as [Hlast | Hmore].
    + (* the last attempt failed *)
      cbn [fst snd countPing pinged delayed hasDocument].
      assert (rest = O) by lia. subst rest.
      assert (attempt = 5%nat) by lia. subst attempt.
      split; [lia |]. split; [lia |]. split; [done |].
      split; [| split; [lia | done]].
      intros a Ha. by assert (a = 5%nat) as -> by lia.
    + (* another attempt follows *)
      set (w2 := delay (150 * Z.of_nat attempt) (closeDocument (countPing w1))).
      assert (Hw2 : pinged w2 = S (pinged w1)
                    ∧ delayed w2 = delayed w1 + 150 * Z.of_nat attempt).
      { unfold w2, closeDocument. simpl. by rewrite Hd1. }
      destruct Hw2 as (Hp2 & Hdel2). clearbody w2.
      specialize (IH w2 ltac:(lia)). cbv zeta in IH.
      destruct (ensureLoop rest ping w2) as [w' [[] | e']].
      * cbn [fst snd] in IH |- *. destruct IH as (IHp & IHd & IHdoc & IHr).
        destruct IHr as [-> | (a & Ha & Hok & Hcount & Hfirst)]; [lia |].
        split; [lia |]. split; [lia |]. split; [intros _; apply IHdoc; lia |].
        right. exists a. split; [lia |]. split; [done |]. split; [lia |].
        intros b Hb. destruct (decide (b = attempt)) as [-> | Hne]; [done |].
        apply Hfirst. lia.
      * cbn [fst snd] in IH |- *. destruct IH as (IHp & IHd & IHdoc & IHr).
        destruct IHr as (Hnone & Hcount & Hlasterr).
        split; [lia |]. split; [lia |]. split; [intros _; apply IHdoc; lia |].
        split; [| split; [lia | done]].
        intros a Ha. destruct (decide (a = attempt)) as [-> | Hne]; [done |].
        apply Hnone. lia.
Qed.

(** X10: [ensureOffscreenReady] sends at most five pings and spends at most
    3000 ms in its delays; it leaves the document in existence; it succeeds
    exactly when one of the first five pings is answered, having sent as
    many pings as the number of the first answered one; otherwise it has
    sent five pings and fails with the error of the fifth. *)
Theorem X10_offscreen_retries (ping : nat → Ping) (w : Worker) :
  let out := ensureOffscreenReady ping w in
  (pinged out.1 ≤ pinged w + 5)%nat
  ∧ delayed w ≤ delayed out.1 ≤ delayed w + 3000
  ∧ hasDocument out.1 = true
  ∧ match out.2 with
    | Fulfilled _ =>
        ∃ a, (1 ≤ a ≤ 5)%nat ∧ ping a = PingOk
             ∧ pinged out.1 = (pinged w + a)%nat
             ∧ ∀ b, (1 ≤ b < a)%nat → ping b ≠ PingOk
    | Rejected e =>
        (∀ a, (1 ≤ a ≤ 5)%nat → ping a ≠ PingOk)
        ∧ pinged out.1 = (pinged w + 5)%nat
        ∧ pingOffscreen (ping 5%nat) = Rejected e
    end.
Proof.
  intros out.
  pose proof (ensureLoop_spec ping MAX_ATTEMPTS w (le_n _)) as H.
  fold (ensureOffscreenReady ping w) in H. fold out in H. cbv zeta in H.
  change (delayBudget MAX_ATTEMPTS) with 3000 in H. unfold MAX_ATTEMPTS in H.
  destruct H as (Hp & Hd & Hdoc & Hr).
  split_and!; try lia; [apply Hdoc; lia |].
  destruct out.2 as [[] | e].
  - destruct Hr as [| (a & Ha & Hok & Hcount & Hfirst)]; [lia |].
    exists a. split; [lia |]. split; [done |]. split; [lia |].
    intros b Hb. apply Hfirst. lia.
  - destruct Hr as (Hnone & Hcount & Hlast).
    split; [| split; [lia | done]]. intros a Ha. apply Hnone. lia.
Qed.

Lemma X10_offscreen_retries_witness :
  let w := {| hasDocument := false; created := 0; closed := 0; pinged := 0;
              delayed := 0 |} in
  let never := λ _ : nat, PingTimedOut in
  let third := λ a : nat, if (a =? 3)%nat then PingOk else PingUnexpected in
  (ensureOffscreenReady never w).2
    = Rejected (Some "Timed out waiting for offscreen ping response.")
  ∧ delayed (ensureOffscreenReady never w).1 = 3000
  ∧ pinged (ensureOffscreenReady third w).1 = 3%nat
  ∧ hasDocument (ensureOffscreenReady third w).1 = true.
Proof.
  intros w never third.
  destruct (X10_offscreen_retries third w) as (_ & _ & Hdoc & _).
  split_and!; [reflexivity | reflexivity | reflexivity | exact Hdoc].
Defined.

(** ** The processor *)

Import OffscreenJs.

Lemma trimStart_fixed (s : string) :
  match s with
  | EmptyString => True
  | String ch _ => isWhiteSpace ch = false
  end →
  trimStart s = s.
Proof. destruct s as [| ch s]; [done |]. simpl. by intros ->. Qed.

Lemma trimStart_head (s : string) :
  match trimStart s with
  | EmptyString => True
  | String ch _ => isWhiteSpace ch = false
  end.
Proof.
  induction s as [| ch s IH]; [done |]. simpl.
  destruct (isWhiteSpace ch) eqn:Hws; [exact IH | by simpl].
Qed.

Lemma trimEnd_head (s : string) :
  match s with
  | EmptyString => True
  | String ch _ => isWhiteSpace ch = false
  end →
  match trimEnd s with
  | EmptyString => True
  | String ch _ => isWhiteSpace ch = false
  end.
Proof.
  destruct s as [| ch s]; [done |]. simpl. intros Hch.
  destruct (trimEnd s); [by rewrite Hch | done].
Qed.

Lemma trimEnd_idempotent (s : string) : trimEnd (trimEnd s) = trimEnd s.
Proof.
  induction s as [| ch s IH]; [done |]. simpl.
  destruct (trimEnd s) as [| ch' kept] eqn:Hkept.
  - destruct (isWhiteSpace ch) eqn:Hws; [done |]. simpl. by rewrite Hws.
  - change (trimEnd (String ch (String ch' kept)))
      with (match trimEnd (String ch' kept) with
            | EmptyString =>
                if isWhiteSpace ch then EmptyString else String ch EmptyString
            | kept' => String ch kept'
            end).
    by rewrite IH.
Qed.

(** Trimming twice is trimming once. *)
Lemma trim_idempotent (s : string) : trim (trim s) = trim s.
Proof.
  unfold trim.
  rewrite (trimStart_fixed (trimEnd (trimStart s)))
    by apply trimEnd_head, trimStart_head.
  apply trimEnd_idempotent.
Qed.

Lemma extractOpenAIOutputText_trimmed (payload : option Payload) :
  trim (extractOpenAIOutputText payload) = extractOpenAIOutputText payload.
Proof.
  unfold extractOpenAIOutputText.
  destruct payload as [p |]; [| done].
  destruct (output_text p); [apply trim_idempotent |].
  destruct (match output p with Some _ => _ | None => _ end);
    [| apply trim_idempotent].
  destruct (choices p) as [[| first rest] |]; try done.
  destruct (truthy (message_content first)); [apply trim_idempotent | done].
Qed.

(** X11: a summarize request answered with [success: true] always has a
    result that is non-empty and carries no white space at either end; this
    happens only when the request carried a non-empty key and the
    completion endpoint answered with a payload, from which the result is
    extracted. Without a key the answer is the missing-key error whatever
    the endpoint would do. *)
Theorem X11_summary_success (data : MessageData) (fetched : Fetched) :
  let r := processLLM "summarize" data fetched in
  (success r = true →
     ∃ summary payload,
       result r = Some summary
       ∧ summary ≠ ""
       ∧ trim summary = summary
       ∧ truthy (data_apiKey data) = true
       ∧ fetched = HttpOk (Fulfilled payload)
       ∧ summary = extractOpenAIOutputText payload)
  ∧ (success r = false → truthy (resp_error r) = true ∧ result r = None)
  ∧ (truthy (data_apiKey data) = false →
       r = failure "Missing OpenAI API key.").
Proof.
  intros r. unfold r, processLLM, callOpenAISummarize. simpl.
  destruct (truthy (data_apiKey data)) eqn:Hkey; simpl.
  2: { split_and!; try done. }
  destruct fetched as [m | status body statusText | [payload | m]]; simpl.
  - split_and!; try done. intros _. split; [| done]. by destruct m as [[| ? ?] |].
  - split_and!; try done.
  - destruct (extractOpenAIOutputText payload) as [| ch rest] eqn:Hout; simpl.
    + split_and!; try done.
    + split_and!; try done. intros _. exists (String ch rest), payload.
      split_and!; try done. rewrite <- Hout. apply extractOpenAIOutputText_trimmed.
  - split_and!; try done. intros _. split; [| done]. by destruct m as [[| ? ?] |].
Qed.

Lemma X11_summary_success_witness :
  let data := {| text := Some "A long paragraph."; imageUrl := None;
                 data_apiKey := Some "sk-shared" |} in
  let payload := {| output_text := Some "  A summary.  "; output := None;
                    choices := None |} in
  let r := processLLM "summarize" data (HttpOk (Fulfilled (Some payload))) in
  success r = true
  ∧ ∃ summary p,
      result r = Some summary
      ∧ summary ≠ ""
      ∧ trim summary = summary
      ∧ truthy (data_apiKey data) = true
      ∧ HttpOk (Fulfilled (Some payload)) = HttpOk (Fulfilled p)
      ∧ summary = extractOpenAIOutputText p.
Proof.
  intros data payload r. split; [reflexivity |].
  apply (proj1 (X11_summary_success data (HttpOk (Fulfilled (Some payload))))).
  reflexivity.
Defined.

(** X12: the recognition path of the processor. A request with an image
    locator always succeeds with a non-empty text; a locator that contains
    [chart] gets the chart text even when it also contains [code]; a type
    other than [summarize] and [ocr] is answered with the
    unknown-processing-type error. *)
Theorem X12_recognition_answers (type : string) (data : MessageData)
    (fetched : Fetched) (url : string) :
  (imageUrl data = Some url →
     ∃ recognized,
       processLLM "ocr" data fetched = successWith recognized
       ∧ recognized ≠ ""
       ∧ (is_Some (indexOf url "chart") →
            recognized = runClientSideOCR "chart"))
  ∧ (type ≠ "summarize" → type ≠ "ocr" →
       processLLM type data fetched = failure "Unknown processing type.").
Proof.
  split.
  - intros Hurl. unfold processLLM. simpl. rewrite Hurl.
    eexists. split; [reflexivity |]. unfold runClientSideOCR. split.
    + destruct (is_Some_b (indexOf url "chart")); [done |].
      destruct (is_Some_b (indexOf url "code")); done.
    + intros [i Hi]. by rewrite Hi.
  - intros Hs Ho. unfold processLLM.
    apply StringFacts.eqb_neq in Hs, Ho. by rewrite Hs, Ho.
Qed.

Lemma X12_recognition_answers_witness :
  let data := {| text := None;
                 imageUrl := Some "https://a.b/code-chart.png";
                 data_apiKey := None |} in
  ∃ recognized,
    processLLM "ocr" data (FetchFailed None) = successWith recognized
    ∧ recognized ≠ ""
    ∧ (is_Some (indexOf "https://a.b/code-chart.png" "chart") →
         recognized = runClientSideOCR "chart").
Proof.
  intros data.
  apply (proj1 (X12_recognition_answers "ocr" data (FetchFailed None)
                  "https://a.b/code-chart.png")).
  reflexivity.
Defined.

(** ** Escaping and cache keys *)

Lemma escapeHtml_cons (ch : N) (rest : string) :
  escapeHtml (String ch rest) =
    (if N.eqb ch (unitOf "&") then "&amp;"
     else if N.eqb ch (unitOf "<") then "&lt;"
     else if N.eqb ch (unitOf ">") then "&gt;"
     else if N.eqb ch (unitOf dq) then "&quot;"
     else if N.eqb ch (unitOf "'") then "&#39;"
     else String ch EmptyString) +:+ escapeHtml rest.
Proof. reflexivity. Qed.

(** Only an ampersand starts an entity. *)
Lemma unescapeHtml_other (ch : N) (u : string) :
  ch ≠ unitOf "&" → unescapeHtml (String ch u) = String ch (unescapeHtml u).
Proof.
  intros Hne. destruct ch as [| p]; [done |].
  do 6 (destruct p as [p | p |]; try done).
Qed.

(** X13: the text that [escapeHtml] returns contains none of the characters
    [<], [>], the double quote and the apostrophe, and escaping loses
    nothing: the entities read back give the original text, so two texts
    with the same escaped form are equal. *)
Theorem X13_escapeHtml_safe_and_faithful (s : string) :
  Forall (λ ch, ¬ markup ch) (String.units (escapeHtml s))
  ∧ unescapeHtml (escapeHtml s) = s
  ∧ ∀ s', escapeHtml s = escapeHtml s' → s = s'.
Proof.
  assert (Hback : ∀ t, unescapeHtml (escapeHtml t) = t).
  { induction t as [| ch t IH]; [done |]. rewrite escapeHtml_cons.
    generalize dependent (escapeHtml t). intros u IH.
    destruct (N.eqb_spec ch (unitOf "&")) as [-> | H1].
    { change (unescapeHtml ("&amp;" +:+ u))
        with (String (unitOf "&") (unescapeHtml u)).
      by rewrite IH. }
    destruct (N.eqb_spec ch (unitOf "<")) as [-> | H2].
    { change (unescapeHtml ("&lt;" +:+ u))
        with (String (unitOf "<") (unescapeHtml u)).
      by rewrite IH. }
    destruct (N.eqb_spec ch (unitOf ">")) as [-> | H3].
    { change (unescapeHtml ("&gt;" +:+ u))
        with (String (unitOf ">") (unescapeHtml u)).
      by rewrite IH. }
    destruct (N.eqb_spec ch (unitOf dq)) as [-> | H4].
    { change (unescapeHtml ("&quot;" +:+ u))
        with (String (unitOf dq) (unescapeHtml u)).
      by rewrite IH. }
    destruct (N.eqb_spec ch (unitOf "'")) as [-> | H5].
    { change (unescapeHtml ("&#39;" +:+ u))
        with (String (unitOf "'") (unescapeHtml u)).
      by rewrite IH. }
    change (String ch "" +:+ u) with (String ch u).
    by rewrite (unescapeHtml_other ch u H1), IH. }
  split_and!.
  - induction s as [| ch s IH]; [constructor |]. rewrite escapeHtml_cons.
    rewrite StringFacts.units_app. apply Forall_app. split; [| exact IH].
    unfold markup.
    destruct (N.eqb_spec ch (unitOf "&")) as [-> | H1];
      [repeat constructor; intros [H | [H | [H | H]]]; discriminate H |].
    destruct (N.eqb_spec ch (unitOf "<")) as [-> | H2];
      [repeat constructor; intros [H | [H | [H | H]]]; discriminate H |].
    destruct (N.eqb_spec ch (unitOf ">")) as [-> | H3];
      [repeat constructor; intros [H | [H | [H | H]]]; discriminate H |].
    destruct (N.eqb_spec ch (unitOf dq)) as [-> | H4];
      [repeat constructor; intros [H | [H | [H | H]]]; discriminate H |].
    destruct (N.eqb_spec ch (unitOf "'")) as [-> | H5];
      [repeat constructor; intros [H | [H | [H | H]]]; discriminate H |].
    repeat constructor. intros [H | [H | [H | H]]]; congruence.
  - apply Hback.
  - intros s' Heq. by rewrite <- (Hback s), Heq, Hback.
Qed.

Lemma substring_0_app (n : nat) (t s : string) :
  (n ≤ String.length t)%nat → substring 0 n (t +:+ s) = substring 0 n t.
Proof.
  revert n. induction t as [| ch t IH]; intros [| n] Hn.
  - by destruct s.
  - simpl in Hn. lia.
  - reflexivity.
  - simpl in *. f_equal. apply IH. lia.
Qed.

(** X14: the summary cache key depends on the first 100 characters of the
    text only: two texts that agree on a prefix of at least 100 characters
    get the same key on the same page, whatever follows. *)
Theorem X14_summary_key_prefix (loc : Location) (t s1 s2 : string) :
  (100 ≤ String.length t)%nat →
  getSummaryCacheKey loc (t +:+ s1) = getSummaryCacheKey loc (t +:+ s2).
Proof.
  intros Hlen. unfold getSummaryCacheKey, slice.
  change (100 - 0)%nat with 100%nat.
  by rewrite !substring_0_app.
Qed.

Lemma X14_summary_key_prefix_witness :
  let loc := {| origin := "https://example.org"; pathname := "/" |} in
  let t := "The quick brown fox jumps over the lazy dog, twice over, and then once more for good measure; and that is all." in
  getSummaryCacheKey loc (t +:+ " First ending.")
  = getSummaryCacheKey loc (t +:+ " Second ending.").
Proof.
  intros loc t.
  apply (X14_summary_key_prefix loc t " First ending." " Second ending.").
  vm_compute. lia.
Defined.

(** X15: the three kinds of cache key never coincide, so a cached preview
    never changes what a lookup of a text summary or of a button summary
    returns, and a cached summary never changes what a preview lookup
    returns. *)
Theorem X15_cache_namespaces (loc : Location) (text buttonText : string)
    (href : option string) (e e' : Element)
    (summaryKey buttonKey previewKey : string) :
  getSummaryCacheKey loc text = Normal summaryKey →
  getButtonSummaryCacheKey loc e buttonText href = Normal buttonKey →
  getPreviewCacheKey loc e' = Normal (Some previewKey) →
  summaryKey ≠ previewKey
  ∧ buttonKey ≠ previewKey
  ∧ summaryKey ≠ buttonKey
  ∧ ∀ now stamped value local,
      getCachedSummary now None summaryKey
        (cachePreview stamped None previewKey value local).1
      = (let out := getCachedSummary now None summaryKey local in
         ((cachePreview stamped None previewKey value out.1).1, out.2))
      ∧ (getCachedPreview now None previewKey
           (cacheSummary stamped None summaryKey value local).1).2
        = (getCachedPreview now None previewKey local).2.
Proof.
  intros Hsk Hbk Hpk.
  assert (Hp : String.get 0 previewKey = Some (unitOf "p")).
  { unfold getPreviewCacheKey in Hpk.
    destruct (_ && _); [discriminate |].
    destruct (if instanceof e' HTMLAnchorElement then _ else _); [| discriminate].
    destruct (encodeURIComponent _); [| discriminate].
    by injection Hpk as <-. }
  assert (Hs : String.get 0 summaryKey = Some (unitOf "s")).
  { unfold getSummaryCacheKey in Hsk.
    destruct (encodeURIComponent _); [| discriminate]. by injection Hsk as <-. }
  assert (Hb : String.get 0 buttonKey = Some (unitOf "b")).
  { unfold getButtonSummaryCacheKey in Hbk.
    destruct (encodeURIComponent _); [| discriminate]. by injection Hbk as <-. }
  assert (H1 : summaryKey ≠ previewKey).
  { intros H. apply (f_equal (String.get 0)) in H. rewrite Hp, Hs in H.
    discriminate H. }
  split_and!.
  - exact H1.
  - intros H. apply (f_equal (String.get 0)) in H. rewrite Hp, Hb in H.
    discriminate H.
  - intros H. apply (f_equal (String.get 0)) in H. rewrite Hs, Hb in H.
    discriminate H.
  - intros now stamped value local. split.
    + unfold getCachedSummary, cachePreview. cbn [fst snd].
      rewrite lookup_insert_ne by done.
      destruct (local !! summaryKey) as [entry |]; [| done].
      destruct (_ >? _); [| done]. cbn [fst snd].
      by rewrite delete_insert_ne by done.
    + unfold getCachedPreview, cacheSummary. cbn [fst snd].
      rewrite lookup_insert_ne by done.
      destruct (local !! previewKey) as [entry |]; [| done].
      by destruct (_ >? _).
Qed.

Lemma X15_cache_namespaces_witness :
  let loc := {| origin := "https://example.org"; pathname := "/" |} in
  let link := {| node := 1; interface := HTMLAnchorElement; tagName := "A";
                 attributes := ∅; id := ""; textContent := Some "Docs";
                 href := "https://example.org/docs"; src := "";
                 parentTextContent := None |} in
  getSummaryCacheKey loc "Docs" = Normal "summary::https://example.org/::Docs"
  ∧ "summary::https://example.org/::Docs"
    ≠ "preview::link::https://example.org/::https%3A%2F%2Fexample.org%2Fdocs"
  ∧ "button-summary::https://example.org/::https%3A%2F%2Fexample.org%2Fdocs"
    ≠ "preview::link::https://example.org/::https%3A%2F%2Fexample.org%2Fdocs".
Proof.
  intros loc link.
  destruct (X15_cache_namespaces loc "Docs" "Docs"
              (Some "https://example.org/docs") link link
              "summary::https://example.org/::Docs"
              "button-summary::https://example.org/::https%3A%2F%2Fexample.org%2Fdocs"
              "preview::link::https://example.org/::https%3A%2F%2Fexample.org%2Fdocs"
              eq_refl eq_refl eq_refl) as (H1 & H2 & _).
  split; [reflexivity | split; [exact H1 | exact H2]].
Defined.

(** X16: cache entries are independent and a read never adds one: reading
    or writing one key leaves every other key as it was, and the store a
    read leaves behind is contained in the store it found. A failed storage
    call rejects and changes nothing. *)
Theorem X16_cache_isolation (now : Z) (lastError : option string)
    (key other value : string) (local : gmap string CacheEntry) :
  key ≠ other →
  (getCachedSummary now lastError key local).1 !! other = local !! other
  ∧ (getCachedPreview now lastError key local).1 !! other = local !! other
  ∧ (cacheSummary now lastError key value local).1 !! other = local !! other
  ∧ (cachePreview now lastError key value local).1 !! other = local !! other
  ∧ (getCachedSummary now lastError key local).1 ⊆ local
  ∧ (getCachedPreview now lastError key local).1 ⊆ local
  ∧ (is_Some lastError →
       getCachedSummary now lastError key local = (local, Rejected lastError)
       ∧ cacheSummary now lastError key value local = (local, Rejected lastError)
       ∧ getCachedPreview now lastError key local = (local, Rejected lastError)
       ∧ cachePreview now lastError key value local = (local, Rejected lastError)).
Proof.
  intros Hne.
  unfold getCachedSummary, getCachedPreview, cacheSummary, cachePreview.
  destruct lastError as [m |].
  { split_and!; try done. }
  destruct (local !! key) as [entry |] eqn:Hentry; cbn [fst snd].
  - destruct (_ >? _), (_ >? _); cbn [fst snd];
      rewrite ?lookup_delete_ne, ?lookup_insert_ne by done;
      split_and!; try done; try apply delete_subseteq;
      try (by intros [? [=]]).
  - rewrite ?lookup_insert_ne by done.
    split_and!; try done; try (by intros [? [=]]).
Qed.

Lemma X16_cache_isolation_witness :
  let local : gmap string CacheEntry :=
    {[ "summary::p::a" := {| summary := Some "A"; dataUrl := None; timestamp := 0 |};
       "summary::p::b" := {| summary := Some "B"; dataUrl := None; timestamp := 0 |} ]} in
  (getCachedSummary 700000 None "summary::p::a" local).1 !! "summary::p::b"
  = local !! "summary::p::b".
Proof.
  intros local.
  apply (X16_cache_isolation 700000 None "summary::p::a" "summary::p::b" "" local).
  discriminate.
Defined.

(** X17: writing a key again replaces the value and restarts its lifetime:
    after two writes at [t1] and [t2], a read up to [t2 + TTL] returns the
    second value, also when the first write is older than the TTL, and the
    store is the one a single write of the second value gives. *)
Theorem X17_cache_overwrite (key v1 v2 : string) (t1 t2 t : Z)
    (local : gmap string CacheEntry) :
  t ≤ t2 + 600000 →
  let twice := (cacheSummary t2 None key v2 (cacheSummary t1 None key v1 local).1).1 in
  twice = (cacheSummary t2 None key v2 local).1
  ∧ getCachedSummary t None key twice = (twice, Fulfilled (Some v2)).
Proof.
  intros Ht twice.
  assert (Htwice : twice = (cacheSummary t2 None key v2 local).1).
  { unfold twice, cacheSummary. cbn [fst]. apply insert_insert_eq. }
  split; [exact Htwice |]. rewrite Htwice.
  rewrite getCachedSummary_stored. unfold SUMMARY_CACHE_DURATION_MS.
  destruct (Z.gtb_spec (t - t2) (10 * 60 * 1000)); [lia | reflexivity].
Qed.

Lemma X17_cache_overwrite_witness :
  let twice :=
    (cacheSummary 900000 None "summary::p::a" "new"
       (cacheSummary 0 None "summary::p::a" "old" ∅).1).1 in
  getCachedSummary 1000000 None "summary::p::a" twice
  = (twice, Fulfilled (Some "new")).
Proof.
  intros twice.
  apply (proj2 (X17_cache_overwrite "summary::p::a" "old" "new" 0 900000
                  1000000 ∅ ltac:(lia))).
Defined.

(** ** The debounce timer *)

Lemma extends_same (st st' : Page) :
  timers st' = timers st → fresh st' = fresh st →
  hoverTimeout st' = hoverTimeout st → extends st st'.
Proof.
  intros Ht Hf Hh. split_and!; [done | lia |].
  exists []. rewrite app_nil_r. split_and!; [done | constructor | constructor].
Qed.

Lemma extends_trans (st1 st2 st3 : Page) :
  extends st1 st2 → extends st2 st3 → extends st1 st3.
Proof.
  intros (Hh1 & Hf1 & e1 & Ht1 & He1 & Hn1) (Hh2 & Hf2 & e2 & Ht2 & He2 & Hn2).
  split_and!; [congruence | lia |].
  exists (e1 ++ e2)%list. split_and!.
  - by rewrite Ht2, Ht1, app_assoc.
  - apply Forall_app. split.
    + eapply Forall_impl; [exact He1 |]. intros t [? ?]. split; [lia | done].
    + eapply Forall_impl; [exact He2 |]. intros t [? ?]. split; [lia | done].
  - rewrite fmap_app. apply NoDup_app. split_and!; [done | | done].
    intros i Hi1 Hi2.
    apply list_elem_of_fmap in Hi1 as (t1 & -> & Hin1).
    apply list_elem_of_fmap in Hi2 as (t2 & Heq & Hin2).
    rewrite Forall_forall in He1, He2.
    destruct (He1 _ Hin1) as [? _]. destruct (He2 _ Hin2) as [? _]. lia.
Qed.

Lemma timersOk_extends (st st' : Page) :
  timersOk st → extends st st' → timersOk st'.
Proof.
  intros (Hlt & Hnd & Hhov) (Hh & Hf & extra & Ht & He & Hne).
  unfold timersOk. rewrite Ht, Hh. split_and!.
  - apply Forall_app. split.
    + eapply Forall_impl; [exact Hlt |]. intros t ?. simpl in *. lia.
    + eapply Forall_impl; [exact He |]. intros t [? ?]. simpl in *. lia.
  - rewrite fmap_app. apply NoDup_app. split_and!; [done | | done].
    intros i Hi1 Hi2.
    apply list_elem_of_fmap in Hi1 as (t1 & -> & Hin1).
    apply list_elem_of_fmap in Hi2 as (t2 & Heq & Hin2).
    rewrite Forall_forall in Hlt, He.
    specialize (Hlt _ Hin1). destruct (He _ Hin2) as [? _]. simpl in *. lia.
  - apply Forall_app. split; [done |].
    eapply Forall_impl; [exact He |]. intros t [_ Hno] Hyes. congruence.
Qed.

Lemma NoDup_fst_filter {A} (P : nat * A → Prop) `{∀ t, Decision (P t)}
    (l : list (nat * A)) :
  NoDup l.*1 → NoDup (filter P l).*1.
Proof.
  intros Hnd. eapply sublist_NoDup; [exact Hnd |].
  apply fmap_sublist, sublist_filter.
Qed.

(** Removing timers keeps the table in order. *)
Lemma timersOk_filter (P : nat * (Z * TimerTask) → Prop)
    `{∀ t, Decision (P t)} (st : Page) :
  timersOk st → timersOk (set_timers (filter P (timers st)) st).
Proof.
  intros (Hlt & Hnd & Hhov). unfold timersOk. simpl. split_and!.
  - apply Forall_forall. intros t Ht. apply list_elem_of_filter in Ht as [_ Ht].
    rewrite Forall_forall in Hlt. by apply Hlt.
  - by apply NoDup_fst_filter.
  - apply Forall_forall. intros t Ht. apply list_elem_of_filter in Ht as [_ Ht].
    rewrite Forall_forall in Hhov. by apply Hhov.
Qed.

(** What [showTooltip] does to the timer table: a tooltip that is not a
    processing tooltip gets one auto-hide timer, due 5000 ms later; a
    processing tooltip gets none. *)
Lemma showTooltip_timers now e content isProcessing (st : Page) :
  hoverTimeout (showTooltip now e content isProcessing st) = hoverTimeout st
  ∧ fresh (showTooltip now e content isProcessing st)
    = (if isProcessing then S (fresh st) else S (S (fresh st)))
  ∧ timers (showTooltip now e content isProcessing st)
    = (timers st ++
       if isProcessing then []
       else [(S (fresh st), (now + 5000, AutoHide (fresh st)))])%list
  ∧ pending (showTooltip now e content isProcessing st) = pending st
  ∧ sent (showTooltip now e content isProcessing st) = sent st
  ∧ local (showTooltip now e content isProcessing st) = local st
  ∧ attached (showTooltip now e content isProcessing st) = attached st.
Proof.
  unfold showTooltip, removeCurrentTooltip.
  destruct (currentTooltip st), isProcessing; simpl;
    rewrite ?app_nil_r; by split_and!.
Qed.

Lemma showTooltip_extends now e content isProcessing (st : Page) :
  extends st (showTooltip now e content isProcessing st).
Proof.
  destruct (showTooltip_timers now e content isProcessing st)
    as (Hh & Hf & Ht & _).
  split_and!; [done | destruct isProcessing; lia |].
  eexists. split; [exact Ht |]. rewrite Hf.
  destruct isProcessing; [split; constructor |].
  split; [| repeat constructor; set_solver].
  apply Forall_singleton. simpl. split; [lia | done].
Qed.

Lemma sendMessage_extends m k (st : Page) : extends st (sendMessage m k st).
Proof.
  unfold extends. simpl. split_and!; [done | lia |].
  exists []. rewrite app_nil_r. split_and!; [done | constructor | constructor].
Qed.

Lemma awaitStorage_extends k (st : Page) : extends st (awaitStorage k st).
Proof.
  unfold extends. simpl. split_and!; [done | lia |].
  exists []. rewrite app_nil_r. split_and!; [done | constructor | constructor].
Qed.

Lemma onOcrResponse_extends now target lastError response (st : Page) :
  extends st (onOcrResponse now target lastError response st).
Proof.
  unfold onOcrResponse.
  destruct lastError; [apply showTooltip_extends |].
  destruct (succeeded response); [apply showTooltip_extends |].
  destruct (truthy _); apply showTooltip_extends.
Qed.

Lemma onTextCacheRead_extends now target text summaryKey lastError (st : Page) :
  extends st (onTextCacheRead now target text summaryKey lastError st).
Proof.
  unfold onTextCacheRead.
  destruct (getCachedSummary now lastError summaryKey (local st)) as [local' read].
  assert (H0 : extends st (set_local local' st)) by by apply extends_same.
  destruct (negb _); [done |].
  destruct (truthy _); (eapply extends_trans; [exact H0 |]);
    [apply showTooltip_extends | apply sendMessage_extends].
Qed.

Lemma onTextResponse_extends now target summaryKey lastError response (st : Page) :
  extends st (onTextResponse now target summaryKey lastError response st).
Proof.
  unfold onTextResponse.
  destruct (negb _); [by apply extends_same |].
  destruct lastError; [apply showTooltip_extends |].
  destruct (_ && _); [apply awaitStorage_extends |].
  destruct (truthy _); apply showTooltip_extends.
Qed.

Lemma onTextCacheWritten_extends now target summaryKey stamped result
    usageFooter lastError (st : Page) :
  extends st (onTextCacheWritten now target summaryKey stamped result
                usageFooter lastError st).
Proof.
  unfold onTextCacheWritten.
  destruct (cacheSummary stamped lastError summaryKey result (local st))
    as [local' written].
  eapply extends_trans; [| apply showTooltip_extends]. by apply extends_same.
Qed.

Lemma onFixedResponse_extends now fixedTooltip lastError response (st : Page) :
  extends st (onFixedResponse now fixedTooltip lastError response st).
Proof.
  unfold onFixedResponse, extends. simpl. split_and!; [done | lia |].
  eexists [_]. split_and!; [done | | repeat constructor; set_solver].
  apply Forall_singleton. simpl. split; [lia | done].
Qed.

Lemma onRuntimeMessage_extends action text (st : Page) :
  extends st (onRuntimeMessage action text st).
Proof.
  unfold onRuntimeMessage. destruct text as [text |]; [| by apply extends_same].
  destruct (negb _); [by apply extends_same |].
  unfold extends. simpl. split_and!; [done | lia |].
  exists []. rewrite app_nil_r. split_and!; [done | constructor | constructor].
Qed.

Lemma fire_extends now task (st : Page) : extends st (fire now task st).
Proof.
  unfold fire. destruct task.
  - eapply extends_trans; [apply showTooltip_extends | apply sendMessage_extends].
  - eapply extends_trans; [apply showTooltip_extends | apply awaitStorage_extends].
  - eapply extends_trans; [apply showTooltip_extends | apply awaitStorage_extends].
  - destruct (bool_decide _); [| by apply extends_same].
    unfold removeCurrentTooltip. destruct (currentTooltip st); by apply extends_same.
  - by apply extends_same.
Qed.

Lemma filter_no_hover (l : list (nat * (Z * TimerTask))) :
  Forall (λ t, isHoverTask t.2.2 = false) l →
  filter (λ t, isHoverTask t.2.2 = true) l = [].
Proof.
  induction 1 as [| t l Ht _ IH]; [done |].
  rewrite filter_cons_False by congruence. exact IH.
Qed.

(** After the pending debounce timer is cleared no debounce timer is left. *)
Lemma resetHoverTimeout_clears (st : Page) :
  timersOk st →
  timersOk (resetHoverTimeout st)
  ∧ debouncing (resetHoverTimeout st) = []
  ∧ hoverTimeout (resetHoverTimeout st) = None
  ∧ fresh (resetHoverTimeout st) = fresh st.
Proof.
  intros Hok. pose proof Hok as (Hlt & Hnd & Hhov).
  unfold resetHoverTimeout, debouncing.
  destruct (hoverTimeout st) as [i |] eqn:Hi.
  - pose proof (timersOk_filter (λ t, t.1 ≠ i) st Hok) as (Hlt' & Hnd' & _).
    assert (Hnone : Forall (λ t, isHoverTask t.2.2 = false)
                      (filter (λ t, t.1 ≠ i) (timers st))).
    { apply Forall_forall. intros t Ht.
      apply list_elem_of_filter in Ht as [Hne Ht].
      rewrite Forall_forall in Hhov. specialize (Hhov _ Ht).
      destruct (isHoverTask t.2.2); [| done].
      specialize (Hhov eq_refl). congruence. }
    split_and!; try done.
    + unfold timersOk, clearTimeout. simpl. split_and!; try done.
      eapply Forall_impl; [exact Hnone |]. intros t Hno Hyes. congruence.
    + unfold clearTimeout. simpl. by apply filter_no_hover.
  - split_and!; try done.
    rewrite Forall_forall in Hhov.
    destruct (filter _ (timers st)) as [| t l] eqn:Hf; [done |].
    assert (Ht : t ∈ filter (λ t, isHoverTask t.2.2 = true) (timers st))
      by (rewrite Hf; left).
    apply list_elem_of_filter in Ht as [Hyes Ht].
    specialize (Hhov _ Ht Hyes). congruence.
Qed.

Lemma schedule_timersOk now task (st : Page) :
  timersOk st → debouncing st = [] →
  timersOk (set_hoverTimeout (Some (fresh st)) (setTimeout now task HOVER_DELAY st).2).
Proof.
  intros (Hlt & Hnd & Hhov) Hnone. unfold timersOk. simpl. split_and!.
  - apply Forall_app. split.
    + eapply Forall_impl; [exact Hlt |]. intros t ?. simpl in *. lia.
    + apply Forall_singleton. simpl. lia.
  - rewrite fmap_app. apply NoDup_app. split_and!; [done | |].
    + intros i Hi1 Hi2. apply list_elem_of_fmap in Hi1 as (t1 & -> & Hin1).
      apply list_elem_of_singleton in Hi2.
      rewrite Forall_forall in Hlt. specialize (Hlt _ Hin1). simpl in *. lia.
    + repeat constructor. set_solver.
  - apply Forall_app. split; [| by repeat constructor].
    apply Forall_forall. intros t Ht Hyes.
    assert (t ∈ debouncing st) by (apply list_elem_of_filter; done).
    rewrite Hnone in *. by apply not_elem_of_nil in H.
Qed.

Lemma handleHover_timersOk now target (st : Page) :
  timersOk st → timersOk (handleHover now target st).1.
Proof.
  intros Hok.
  destruct (resetHoverTimeout_clears st Hok) as (Hok0 & Hnone & _ & _).
  destruct (handleHover_shape now target st) as [-> | [-> | (task & _ & ->)]];
    [done | done | by apply schedule_timersOk].
Qed.

Lemma step_timersOk now ev (st : Page) :
  timersOk st → timersOk (step now ev st).
Proof.
  intros Hok. unfold step.
  destruct ev as [target | target | i | n | n | k e | k e | k e r | a t].
  - by apply handleHover_timersOk.
  - apply resetHoverTimeout_clears.
    destruct (bool_decide _); [| done].
    eapply timersOk_extends; [exact Hok |].
    unfold removeCurrentTooltip. simpl.
    destruct (currentTooltip st); by apply extends_same.
  - destruct (lookupId i (timers st)) as [[due task] |]; [| done].
    destruct (due <=? now); [| done].
    eapply timersOk_extends; [| apply fire_extends].
    by apply (timersOk_filter (λ e, e.1 ≠ i)).
  - eapply timersOk_extends; [exact Hok | by apply extends_same].
  - eapply timersOk_extends; [exact Hok | by apply extends_same].
  - destruct (lookupId k (pending st)) as [[] |]; try done.
    eapply timersOk_extends; [| apply onTextCacheRead_extends].
    eapply timersOk_extends; [exact Hok | by apply extends_same].
  - destruct (lookupId k (pending st)) as [[] |]; try done.
    eapply timersOk_extends; [| apply onTextCacheWritten_extends].
    eapply timersOk_extends; [exact Hok | by apply extends_same].
  - destruct (lookupId k (pending st)) as [[] |]; try done.
    + eapply timersOk_extends; [| apply onOcrResponse_extends].
      eapply timersOk_extends; [exact Hok | by apply extends_same].
    + eapply timersOk_extends; [| apply onTextResponse_extends].
      eapply timersOk_extends; [exact Hok | by apply extends_same].
    + eapply timersOk_extends; [| apply onFixedResponse_extends].
      eapply timersOk_extends; [exact Hok | by apply extends_same].
  - eapply timersOk_extends; [exact Hok | apply onRuntimeMessage_extends].
Qed.

Lemma timersOk_at_most_one (st : Page) :
  timersOk st →
  (length (debouncing st) ≤ 1)%nat
  ∧ ∀ t, t ∈ debouncing st → hoverTimeout st = Some t.1.
Proof.
  intros (_ & Hnd & Hhov). unfold debouncing.
  assert (Hall : ∀ t, t ∈ filter (λ t, isHoverTask t.2.2 = true) (timers st) →
                      hoverTimeout st = Some t.1).
  { intros t Ht. apply list_elem_of_filter in Ht as [Hyes Ht].
    rewrite Forall_forall in Hhov. by apply Hhov. }
  split; [| exact Hall].
  pose proof (NoDup_fst_filter (λ t, isHoverTask t.2.2 = true) _ Hnd) as Hnd'.
  destruct (filter _ (timers st)) as [| t1 [| t2 rest]]; simpl; try lia.
  exfalso.
  assert (H1 := Hall t1 ltac:(left)).
  assert (H2 := Hall t2 ltac:(right; left)).
  rewrite H1 in H2. injection H2 as H2.
  simpl in Hnd'. apply NoDup_cons in Hnd' as [Hnotin _].
  apply Hnotin. rewrite H2. left.
Qed.

(** X18: in every state a run of events reaches from a page whose timer
    table is in order, at most one debounce timer is pending, and it is the
    one [hoverTimeout] names: a new hover always replaces the pending start
    of the previous one. *)
Theorem X18_one_debounce_timer (events : list (Z * Event)) (st : Page) :
  timersOk st →
  timersOk (run events st)
  ∧ (length (debouncing (run events st)) ≤ 1)%nat
  ∧ ∀ t, t ∈ debouncing (run events st) →
         hoverTimeout (run events st) = Some t.1.
Proof.
  revert st. induction events as [| [now ev] rest IH]; intros st Hok; simpl.
  - split; [done |]. by apply timersOk_at_most_one.
  - apply IH. by apply step_timersOk.
Qed.

Lemma initialPage_timersOk loc elements : timersOk (initialPage loc elements).
Proof. unfold timersOk. simpl. split_and!; constructor. Qed.

Lemma X18_one_debounce_timer_witness :
  let p := {| node := 1; interface := HTMLElement; tagName := "P";
              attributes := ∅; id := "";
              textContent :=
                Some "The quick brown fox jumps over the lazy dog, twice over.";
              href := ""; src := ""; parentTextContent := None |} in
  let img := {| node := 2; interface := HTMLImageElement; tagName := "IMG";
                attributes := ∅; id := ""; textContent := Some "";
                href := ""; src := "https://example.org/chart.png";
                parentTextContent := None |} in
  let st := run [(0, mouseover (Some p)); (100, mouseover (Some img))]
              (initialPage {| origin := "https://example.org"; pathname := "/" |}
                 {[ 1%nat; 2%nat ]}) in
  (length (debouncing st) ≤ 1)%nat
  ∧ debouncing st
    = [(1%nat, (600, ImageHoverFired img "https://example.org/chart.png"))].
Proof.
  intros p img st.
  destruct (X18_one_debounce_timer
              [(0, mouseover (Some p)); (100, mouseover (Some img))]
              (initialPage {| origin := "https://example.org"; pathname := "/" |}
                 {[ 1%nat; 2%nat ]})
              (initialPage_timersOk _ _)) as (_ & Hle & _).
  split; [exact Hle | reflexivity].
Defined.

Lemma no_hover_iff (st : Page) :
  debouncing st = [] ↔ Forall (λ t, isHoverTask t.2.2 = false) (timers st).
Proof.
  split; [| apply filter_no_hover].
  intros Hnone. apply Forall_forall. intros t Ht.
  destruct (isHoverTask t.2.2) eqn:Hyes; [| done].
  assert (t ∈ debouncing st) by (apply list_elem_of_filter; done).
  rewrite Hnone in *. by apply not_elem_of_nil in H.
Qed.

Lemma lookupId_elem {A} (i : nat) (l : list (nat * A)) (x : A) :
  lookupId i l = Some x → (i, x) ∈ l.
Proof.
  unfold lookupId. destruct (find _ l) as [[j y] |] eqn:Hfind; [| done].
  intros [= <-]. apply find_some in Hfind as [Hin Hj].
  apply bool_decide_eq_true in Hj. simpl in Hj. subst j.
  by apply list_elem_of_In.
Qed.

Lemma handleHover_sent now target (st : Page) :
  sent (handleHover now target st).1 = sent st
  ∧ pending (handleHover now target st).1 = pending st
  ∧ local (handleHover now target st).1 = local st.
Proof.
  assert (H0 : sent (resetHoverTimeout st) = sent st
               ∧ pending (resetHoverTimeout st) = pending st
               ∧ local (resetHoverTimeout st) = local st)
    by (unfold resetHoverTimeout; by destruct (hoverTimeout st)).
  destruct (handleHover_shape now target st) as [-> | [-> | (task & _ & ->)]];
    done.
Qed.

(** A timer that fires while no debounce timer is pending starts no
    pipeline. *)
Lemma timeout_without_debounce now i (st : Page) :
  debouncing st = [] →
  debouncing (step now (timeout i) st) = []
  ∧ sent (step now (timeout i) st) = sent st
  ∧ pending (step now (timeout i) st) = pending st.
Proof.
  intros Hnone. unfold step.
  destruct (lookupId i (timers st)) as [[due task] |] eqn:Hlook; [| done].
  destruct (due <=? now); [| done].
  apply lookupId_elem in Hlook.
  pose proof (proj1 (no_hover_iff st) Hnone) as Hall.
  assert (Htask : isHoverTask task = false).
  { rewrite Forall_forall in Hall. exact (Hall _ Hlook). }
  assert (Hdrop : Forall (λ t, isHoverTask t.2.2 = false) (dropId i (timers st))).
  { apply Forall_forall. intros t Ht. apply list_elem_of_filter in Ht as [_ Ht].
    rewrite Forall_forall in Hall. by apply Hall. }
  destruct task; try discriminate; unfold fire.
  - destruct (bool_decide _); [| by split_and!; [apply no_hover_iff |..]].
    unfold removeCurrentTooltip. simpl.
    destruct (currentTooltip st); by split_and!; [apply no_hover_iff |..].
  - by split_and!; [apply no_hover_iff |..].
Qed.

Lemma resetHoverTimeout_sent (st : Page) :
  sent (resetHoverTimeout st) = sent st
  ∧ pending (resetHoverTimeout st) = pending st
  ∧ tooltips (resetHoverTimeout st) = tooltips st
  ∧ currentTooltip (resetHoverTimeout st) = currentTooltip st.
Proof. unfold resetHoverTimeout. by destruct (hoverTimeout st). Qed.

(** A pointer-out leaves no debounce timer behind, and sends nothing. *)
Lemma mouseout_clears now n (st : Page) :
  timersOk st →
  timersOk (step now (mouseout n) st)
  ∧ debouncing (step now (mouseout n) st) = []
  ∧ hoverTimeout (step now (mouseout n) st) = None
  ∧ sent (step now (mouseout n) st) = sent st
  ∧ pending (step now (mouseout n) st) = pending st.
Proof.
  intros Hok. unfold step.
  set (st2 := if bool_decide (n ∈ mouseoutOnce st) then _ else st).
  assert (H2 : timersOk st2 ∧ sent st2 = sent st ∧ pending st2 = pending st).
  { unfold st2. destruct (bool_decide _); [| done].
    unfold removeCurrentTooltip. simpl.
    destruct (currentTooltip st); split_and!; try done;
      (eapply timersOk_extends; [exact Hok | by apply extends_same]). }
  destruct H2 as (Hok2 & Hs2 & Hp2).
  destruct (resetHoverTimeout_clears st2 Hok2) as (Hok3 & Hnone & Hh & _).
  destruct (resetHoverTimeout_sent st2) as (Hs3 & Hp3 & _).
  split_and!; try done; congruence.
Qed.

(** X19: a pointer-out before the debounce timer fires cancels the hover:
    after a pointer-over followed by a pointer-out no debounce timer is
    pending, nothing has been sent to the background worker and no callback
    has been registered; and whatever timers fire afterwards, nothing is
    sent and nothing is registered. *)
Theorem X19_pointer_out_cancels (now0 now1 : Z) (target : option Element)
    (n : nat) (fires : list (Z * nat)) (st : Page) :
  timersOk st →
  let left := step now1 (mouseout n) (step now0 (mouseover target) st) in
  let later := run (map (λ f, (f.1, timeout f.2)) fires) left in
  debouncing left = []
  ∧ hoverTimeout left = None
  ∧ sent later = sent st
  ∧ pending later = pending st
  ∧ debouncing later = [].
Proof.
  intros Hok left later.
  assert (Hleft : debouncing left = [] ∧ hoverTimeout left = None
                  ∧ sent left = sent st ∧ pending left = pending st).
  { assert (Hok1 : timersOk (step now0 (mouseover target) st))
      by by apply handleHover_timersOk.
    destruct (mouseout_clears now1 n _ Hok1) as (_ & Hnone & Hh & Hs & Hp).
    destruct (handleHover_sent now0 target st) as (Hs1 & Hp1 & _).
    split_and!; try done.
    - rewrite <- Hs1. exact Hs.
    - rewrite <- Hp1. exact Hp. }
  destruct Hleft as (Hnone & Hh & Hs & Hp).
  assert (Hrun : ∀ start, debouncing start = [] →
            let fin := run (map (λ f, (f.1, timeout f.2)) fires) start in
            sent fin = sent start ∧ pending fin = pending start
            ∧ debouncing fin = []).
  { clear. induction fires as [| [t i] rest IH]; intros start Hnone; [done |].
    cbn [map run fst snd].
    destruct (timeout_without_debounce t i start Hnone) as (Hn' & Hs' & Hp').
    destruct (IH _ Hn') as (Hs'' & Hp'' & Hn'').
    split_and!; [congruence | congruence | done]. }
  destruct (Hrun left Hnone) as (Hs' & Hp' & Hn').
  split_and!; try done; unfold later; congruence.
Qed.

Lemma X19_pointer_out_cancels_witness :
  let p := {| node := 1; interface := HTMLElement; tagName := "P";
              attributes := ∅; id := "";
              textContent :=
                Some "The quick brown fox jumps over the lazy dog, twice over.";
              href := ""; src := ""; parentTextContent := None |} in
  let init := initialPage {| origin := "https://example.org"; pathname := "/" |}
                {[ 1%nat ]} in
  let later := run [(0, mouseover (Some p)); (300, mouseout 1); (500, timeout 0)]
                 init in
  sent later = [] ∧ pending later = [] ∧ tooltips later = [].
Proof.
  intros p init later.
  destruct (X19_pointer_out_cancels 0 300 (Some p) 1 [(500, 0%nat)] init
              (initialPage_timersOk _ _)) as (_ & _ & Hs & Hp & _).
  split_and!; [exact Hs | exact Hp | reflexivity].
Defined.

(** What [showTooltip] leaves in the page: the tooltips that survive the two
    removals, then the new one, which becomes the current tooltip. *)
Lemma showTooltip_tooltips now e content isProcessing (st : Page) :
  tooltips (showTooltip now e content isProcessing st)
  = (removeFirstWithId TOOLTIP_ID (tooltips (removeCurrentTooltip st))
     ++ [{| tip_node := fresh st; tip_id := "";
            innerHTML := if isProcessing then content +:+ spinner
                         else content |}])%list
  ∧ currentTooltip (showTooltip now e content isProcessing st) = Some (fresh st).
Proof.
  unfold showTooltip, removeCurrentTooltip.
  by destruct (currentTooltip st), isProcessing.
Qed.

(** X20: the text pipeline after its cache read, for a target that is still
    in the document. A storage error, a missing entry, an expired entry or
    an entry with an empty summary all lead to exactly one summarizeText
    request for the hovered text and no new tooltip; a fresh entry with a
    summary is shown, escaped, as the current tooltip, without any request
    and without touching the store. *)
Theorem X20_summary_cache_read (now : Z) (target : Element)
    (text key : string) (lastError : option string) (st : Page) :
  node target ∈ attached st →
  let st' := onTextCacheRead now target text key lastError st in
  ((is_Some lastError ∨ local st !! key = None
    ∨ ∃ entry, local st !! key = Some entry
        ∧ (now - timestamp entry > SUMMARY_CACHE_DURATION_MS
           ∨ truthy (summary entry) = false)) →
   sent st' = (sent st ++ [summarizeRequest text])%list
   ∧ pending st' = (pending st ++ [(fresh st, TextResponse target key)])%list
   ∧ tooltips st' = tooltips st
   ∧ timers st' = timers st)
  ∧ (∀ entry s,
       lastError = None → local st !! key = Some entry →
       now - timestamp entry ≤ SUMMARY_CACHE_DURATION_MS →
       summary entry = Some s → s ≠ "" →
       sent st' = sent st ∧ pending st' = pending st ∧ local st' = local st
       ∧ currentTooltip st' = Some (fresh st)
       ∧ last (tooltips st')
         = Some {| tip_node := fresh st; tip_id := "";
                   innerHTML := "<p><strong>Summary:</strong></p><p>"
                                +:+ escapeHtml s +:+ "</p>" |}).
Proof.
  intros Hin st'. split.
  - intros Hmiss.
    assert (Hread : ∃ local',
              getCachedSummary now lastError key (local st)
              = (local', match lastError with
                         | Some m => Rejected (Some m)
                         | None => Fulfilled None
                         end)
              ∨ ∃ entry, lastError = None
                  ∧ getCachedSummary now lastError key (local st)
                    = (local', Fulfilled (summary entry))
                  ∧ truthy (summary entry) = false).
    { unfold getCachedSummary. destruct lastError as [m |]; [by eexists; left |].
      destruct Hmiss as [[? [=]] | [Hnone | (entry & Hsome & Hwhy)]].
      - rewrite Hnone. by eexists; left.
      - rewrite Hsome. cbv zeta.
        destruct (now - timestamp entry >? SUMMARY_CACHE_DURATION_MS) eqn:Hexp;
          [by eexists; left |].
        destruct Hwhy as [Hgt | Hfalsy]; [lia |].
        eexists; right. by exists entry. }
    unfold st', onTextCacheRead.
    destruct Hread as (local' & [-> | (entry & -> & -> & Hfalsy)]).
    + unfold contains. cbn [attached set_local].
      rewrite (bool_decide_eq_true_2 _ Hin). cbn [negb].
      by destruct lastError.
    + unfold contains. cbn [attached set_local].
      rewrite (bool_decide_eq_true_2 _ Hin). cbn [negb].
      by rewrite Hfalsy.
  - intros entry s -> Hsome Hfresh Hsum Hne.
    unfold st', onTextCacheRead, getCachedSummary. rewrite Hsome. cbv zeta.
    replace (now - timestamp entry >? SUMMARY_CACHE_DURATION_MS) with false
      by (symmetry; rewrite Z.gtb_ltb; apply Z.ltb_ge; lia).
    unfold contains. cbn [attached set_local].
    rewrite (bool_decide_eq_true_2 _ Hin). cbn [negb]. rewrite Hsum.
    destruct s as [| ch rest]; [done |]. cbn [truthy default].
    match goal with
    | |- context [showTooltip ?n ?e ?c ?p ?s] =>
        destruct (showTooltip_timers n e c p s) as (_ & _ & _ & Hp & Hs & Hl & _);
        destruct (showTooltip_tooltips n e c p s) as (Hts & Hcur)
    end.
    rewrite Hp, Hs, Hl, Hcur, Hts, last_snoc. done.
Qed.

Lemma X20_summary_cache_read_witness :
  let p := {| node := 1; interface := HTMLElement; tagName := "P";
              attributes := ∅; id := "";
              textContent :=
                Some "The quick brown fox jumps over the lazy dog, twice over.";
              href := ""; src := ""; parentTextContent := None |} in
  let st := set_local {[ "k" := {| summary := Some "a <b> fox";
                                   dataUrl := None; timestamp := 1000 |} ]}
              (initialPage {| origin := "https://example.org"; pathname := "/" |}
                 {[ 1%nat ]}) in
  sent (onTextCacheRead 600000 p "The quick brown fox" "k" None st) = []
  ∧ last (tooltips (onTextCacheRead 600000 p "The quick brown fox" "k" None st))
    = Some {| tip_node := 0; tip_id := "";
              innerHTML :=
                "<p><strong>Summary:</strong></p><p>a &lt;b&gt; fox</p>" |}.
Proof.
  intros p st.
  assert (Hin : node p ∈ attached st) by (vm_compute; reflexivity).
  destruct (X20_summary_cache_read 600000 p "The quick brown fox" "k" None st Hin)
    as (_ & Hhit).
  destruct (Hhit {| summary := Some "a <b> fox"; dataUrl := None;
                    timestamp := 1000 |} "a <b> fox"
              eq_refl eq_refl ltac:(vm_compute; discriminate) eq_refl
              ltac:(discriminate)) as (Hs & _ & _ & _ & Hlast).
  split; [exact Hs | exact Hlast].
Defined.

(** X22: the context-menu path end to end. A click on another menu item or
    without selected text sends nothing to the tab. Otherwise the listener
    of the content script appends one fixed tooltip and sends exactly one
    summarizeText request for the selected text; its response callback,
    whatever the response, keeps the tooltips in place, sends nothing and
    schedules the removal of that tooltip 5000 ms later; the removal takes
    out that tooltip and no other. *)
Theorem X22_context_menu_path (menuItemId : string)
    (selectionText : option string) (st : Page) :
  let shown :=
    match onContextMenuClicked menuItemId selectionText with
    | Some (action, text) => onRuntimeMessage action text st
    | None => st
    end in
  ((menuItemId ≠ "summarizeWithAI" ∨ truthy selectionText = false) →
   shown = st)
  ∧ (∀ text, menuItemId = "summarizeWithAI" → selectionText = Some text →
       text ≠ "" →
       sent shown = (sent st ++ [summarizeRequest text])%list
       ∧ pending shown
         = (pending st ++ [(S (fresh st), FixedResponse (fresh st))])%list
       ∧ tip_node <$> tooltips shown
         = ((tip_node <$> tooltips st) ++ [fresh st])%list)
  ∧ (∀ now n lastError response (st2 : Page),
       let answered := onFixedResponse now n lastError response st2 in
       timers answered
       = (timers st2 ++ [(fresh st2, (now + AUTO_HIDE_DELAY, RemoveFixed n))])%list
       ∧ tip_node <$> tooltips answered = tip_node <$> tooltips st2
       ∧ sent answered = sent st2 ∧ pending answered = pending st2
       ∧ currentTooltip answered = currentTooltip st2)
  ∧ (∀ now n (st3 : Page),
       tooltips (fire now (RemoveFixed n) st3)
       = filter (λ t, tip_node t ≠ n) (tooltips st3)
       ∧ n ∉ (tip_node <$> tooltips (fire now (RemoveFixed n) st3))).
Proof.
  intros shown. split_and!.
  - intros Hno. unfold shown, onContextMenuClicked.
    destruct Hno as [Hid | Hsel].
    + by rewrite (proj2 (StringFacts.eqb_neq _ _) Hid).
    + by rewrite Hsel, andb_false_r.
  - intros text -> -> Hne. unfold shown, onContextMenuClicked.
    destruct text as [| ch rest]; [done |].
    rewrite StringFacts.eqb_refl. cbn [truthy andb].
    unfold onRuntimeMessage. rewrite StringFacts.eqb_refl. cbn [negb].
    cbv zeta. unfold sendMessage.
    cbn [sent pending tooltips fresh tip_node set_fresh set_pending set_sent
         set_tooltips].
    split_and!; try done. by rewrite fmap_app.
  - intros now n lastError response st2 answered.
    unfold answered, onFixedResponse. cbv zeta. unfold setTimeout. simpl.
    split_and!; try done. unfold setInnerHTML.
    rewrite <- list_fmap_compose. apply list_fmap_ext.
    intros i t _. simpl. by destruct (bool_decide _).
  - intros now n st3. split; [done |]. cbn [fire tooltips set_tooltips].
    unfold removeNode. intros Hin. apply list_elem_of_fmap in Hin as (t & -> & Ht).
    apply list_elem_of_filter in Ht as [Hneq _]. done.
Qed.

Lemma X22_context_menu_path_witness :
  let st := initialPage {| origin := "https://example.org"; pathname := "/" |} ∅ in
  let shown :=
    match onContextMenuClicked "summarizeWithAI" (Some "fox") with
    | Some (action, text) => onRuntimeMessage action text st
    | None => st
    end in
  sent shown = [summarizeRequest "fox"]
  ∧ pending shown = [(1%nat, FixedResponse 0)]
  ∧ tip_node <$> tooltips shown = [0%nat].
Proof.
  intros st shown.
  destruct (X22_context_menu_path "summarizeWithAI" (Some "fox") st)
    as (_ & Hyes & _).
  exact (Hyes "fox" eq_refl eq_refl ltac:(discriminate)).
Defined.

(** X23: the life of a result tooltip. [showTooltip] of a result schedules
    one hide timer 5000 ms ahead and a processing tooltip schedules none;
    when the hide timer runs while its tooltip is still the current one,
    the tooltip leaves the page and no tooltip is current; when a newer
    tooltip has been shown in between, the old timer changes nothing. *)
Theorem X23_auto_hide (now later : Z) (e : Element) (content : string)
    (st : Page) :
  let shown := showTooltip now e content false st in
  timers shown
  = (timers st
     ++ [(S (fresh st), (now + AUTO_HIDE_DELAY, AutoHide (fresh st)))])%list
  ∧ timers (showTooltip now e content true st) = timers st
  ∧ currentTooltip (fire later (AutoHide (fresh st)) shown) = None
  ∧ (fresh st ∉ tip_node <$> tooltips (fire later (AutoHide (fresh st)) shown))
  ∧ ∀ now' e' content' isProcessing,
      let newer := showTooltip now' e' content' isProcessing shown in
      fire later (AutoHide (fresh st)) newer = newer.
Proof.
  intros shown.
  destruct (showTooltip_timers now e content false st) as (_ & Hf & Ht & _).
  destruct (showTooltip_timers now e content true st) as (_ & _ & Ht' & _).
  destruct (showTooltip_tooltips now e content false st) as (Hts & Hcur).
  fold shown in Hf, Ht, Hts, Hcur.
  split_and!.
  - exact Ht.
  - by rewrite Ht', app_nil_r.
  - unfold fire. rewrite Hcur, bool_decide_eq_true_2 by done.
    unfold removeCurrentTooltip. by rewrite Hcur.
  - unfold fire. rewrite Hcur, bool_decide_eq_true_2 by done.
    unfold removeCurrentTooltip. rewrite Hcur. cbn [tooltips set_currentTooltip set_tooltips].
    unfold removeNode. intros Hin. apply list_elem_of_fmap in Hin as (t & Heq & Hin).
    apply list_elem_of_filter in Hin as [Hneq _]. done.
  - intros now' e' content' isProcessing newer.
    destruct (showTooltip_tooltips now' e' content' isProcessing shown)
      as (_ & Hcur').
    fold newer in Hcur'. unfold fire.
    rewrite bool_decide_eq_false_2; [done |].
    rewrite Hcur', Hf. intros [= Heq]. lia.
Qed.

(** The hover handler on a text block: the debounce timer it sets. *)
Lemma handleHover_text_eq now e p loc key (st : Page) :
  location st = loc →
  instanceof e HTMLImageElement && truthy (Some (src e)) = false →
  getPreviewCacheKey loc e = Normal None →
  extractTextFromElement e = Some p →
  getSummaryCacheKey loc p = Normal key →
  step now (mouseover (Some e)) st
  = set_hoverTimeout (Some (fresh (resetHoverTimeout st)))
      (setTimeout now (TextHoverFired e p key)
         HOVER_DELAY (resetHoverTimeout st)).2.
Proof.
  intros <- Himg Hkey Htext Hsk. unfold step.
  rewrite (handleHover_text now e st p Himg Hkey Htext).
  unfold scheduleTextHover. by rewrite (resetHoverTimeout_location st), Hsk.
Qed.

Lemma step_mouseout_tracked now n (st : Page) :
  n ∈ mouseoutOnce st →
  step now (mouseout n) st
  = resetHoverTimeout
      (removeCurrentTooltip
         (set_mouseoutOnce (filter (λ m, m ≠ n) (mouseoutOnce st)) st)).
Proof. intros Hin. unfold step. by rewrite (bool_decide_eq_true_2 _ Hin). Qed.

Lemma onTextCacheRead_miss now target text key (st : Page) :
  contains st target = true →
  local st !! key = None →
  onTextCacheRead now target text key None st
  = sendMessage (summarizeRequest text) (TextResponse target key)
      (set_local (local st) st).
Proof.
  intros Hin Hnone. unfold onTextCacheRead, getCachedSummary. rewrite Hnone.
  change (contains (set_local (local st) st) target) with (contains st target).
  by rewrite Hin.
Qed.

Lemma onTextCacheRead_hit now target text key entry s (st : Page) :
  contains st target = true →
  local st !! key = Some entry →
  now - timestamp entry ≤ SUMMARY_CACHE_DURATION_MS →
  summary entry = Some s → s ≠ "" →
  onTextCacheRead now target text key None st
  = showTooltip now target
      ("<p><strong>Summary:</strong></p><p>" +:+ escapeHtml s +:+ "</p>")
      false (set_local (local st) st).
Proof.
  intros Hin Hsome Hfresh Hsum Hne.
  unfold onTextCacheRead, getCachedSummary. rewrite Hsome. cbv zeta.
  replace (now - timestamp entry >? SUMMARY_CACHE_DURATION_MS) with false
    by (symmetry; rewrite Z.gtb_ltb; apply Z.ltb_ge; lia).
  change (contains (set_local (local st) st) target) with (contains st target).
  rewrite Hin, Hsum. by destruct s.
Qed.

Lemma onTextResponse_ok now target key r s (st : Page) :
  contains st target = true →
  success r = true → result r = Some s → s ≠ "" →
  onTextResponse now target key None (Some r) st
  = awaitStorage
      (TextCacheWritten target key now s (buildUsageFooter (resp_usageInfo r)))
      st.
Proof.
  intros Hin Hok Hres Hne. unfold onTextResponse. rewrite Hin.
  cbn [negb succeeded mbind option_bind]. rewrite Hok, Hres.
  by destruct s.
Qed.


Lemma step_timeout_due now i due task (st : Page) :
  lookupId i (timers st) = Some (due, task) → due ≤ now →
  step now (timeout i) st
  = fire now task (set_timers (dropId i (timers st)) st).
Proof.
  intros Hlook Hdue. unfold step. rewrite Hlook.
  by rewrite (proj2 (Z.leb_le _ _) Hdue).
Qed.

Lemma step_storageGot_text now k target text key lastError (st : Page) :
  lookupId k (pending st) = Some (TextCacheRead target text key) →
  step now (storageGot k lastError) st
  = onTextCacheRead now target text key lastError
      (set_pending (dropId k (pending st)) st).
Proof. intros Hlook. unfold step. by rewrite Hlook. Qed.

Lemma step_responded_text now k target key lastError response (st : Page) :
  lookupId k (pending st) = Some (TextResponse target key) →
  step now (responded k lastError response) st
  = onTextResponse now target key lastError response
      (set_pending (dropId k (pending st)) st).
Proof. intros Hlook. unfold step. by rewrite Hlook. Qed.

Lemma step_storageSet_text now k target key stamped result footer lastError
    (st : Page) :
  lookupId k (pending st)
  = Some (TextCacheWritten target key stamped result footer) →
  step now (storageSet k lastError) st
  = onTextCacheWritten now target key stamped result footer lastError
      (set_pending (dropId k (pending st)) st).
Proof. intros Hlook. unfold step. by rewrite Hlook. Qed.

Lemma sendMessage_sent m k (st : Page) :
  sent (sendMessage m k st) = (sent st ++ [m])%list.
Proof. reflexivity. Qed.

Lemma sendMessage_local m k (st : Page) : local (sendMessage m k st) = local st.
Proof. reflexivity. Qed.

Lemma set_local_sent l (st : Page) : sent (set_local l st) = sent st.
Proof. reflexivity. Qed.

Lemma set_local_local l (st : Page) : local (set_local l st) = l.
Proof. reflexivity. Qed.

Lemma onTextCacheRead_expired now target text key entry (st : Page) :
  contains st target = true →
  local st !! key = Some entry →
  now - timestamp entry > SUMMARY_CACHE_DURATION_MS →
  onTextCacheRead now target text key None st
  = sendMessage (summarizeRequest text) (TextResponse target key)
      (set_local (delete key (local st)) st).
Proof.
  intros Hin Hsome Hold.
  unfold onTextCacheRead, getCachedSummary. rewrite Hsome. cbv zeta.
  replace (now - timestamp entry >? SUMMARY_CACHE_DURATION_MS) with true
    by (symmetry; rewrite Z.gtb_ltb; apply Z.ltb_lt; lia).
  change (contains (set_local (delete key (local st)) st) target)
    with (contains st target).
  by rewrite Hin.
Qed.

(** X21: the text pipeline end to end, with its cache. A text block whose
    summary key can be derived is hovered on a fresh page, the debounce
    timer fires, the cache read misses, the background worker answers with
    a summary, the summary is stored, the pointer leaves, and the same
    block is hovered again. If the second cache read happens within ten
    minutes of the answer, the whole run has sent exactly one summarizeText
    request, no callback is left waiting and the page shows exactly one
    tooltip, the escaped summary. If it happens later, a second request for
    the same text is sent and the stale entry has been removed from the
    store. *)
Theorem X21_second_hover_from_cache (loc : Location) (elements : gset nat)
    (e : Element) (text key s : string) (r : Response)
    (t0 t1 t2 t3 t4 t5 t6 t7 t8 : Z) :
  instanceof e HTMLImageElement && truthy (Some (src e)) = false →
  getPreviewCacheKey loc e = Normal None →
  extractTextFromElement e = Some text →
  getSummaryCacheKey loc text = Normal key →
  node e ∈ elements →
  success r = true → result r = Some s → s ≠ "" →
  t0 + HOVER_DELAY ≤ t1 → t6 + HOVER_DELAY ≤ t7 →
  let final :=
    run [(t0, mouseover (Some e)); (t1, timeout 0); (t2, storageGot 2 None);
         (t3, responded 3 None (Some r)); (t4, storageSet 4 None);
         (t5, mouseout (node e));
         (t6, mouseover (Some e)); (t7, timeout 7); (t8, storageGot 9 None)]
      (initialPage loc elements) in
  (t8 - t3 ≤ SUMMARY_CACHE_DURATION_MS →
   sent final = [summarizeRequest text]
   ∧ pending final = []
   ∧ innerHTML <$> tooltips final
     = ["<p><strong>Summary:</strong></p><p>" +:+ escapeHtml s +:+ "</p>"])
  ∧ (t8 - t3 > SUMMARY_CACHE_DURATION_MS →
     sent final = [summarizeRequest text; summarizeRequest text]
     ∧ local final !! key = None).
Proof.
  intros Himg Hkey Htext Hsk Hin Hok Hres Hne H01 H67 final.
  pose proof (bool_decide_eq_true_2 _ Hin) as Hat.
  unfold final. cbn [run].
  rewrite (handleHover_text_eq t0 e text loc key);
    [| vm_compute; reflexivity | exact Himg | exact Hkey | exact Htext
     | exact Hsk].
  rewrite (step_timeout_due t1 0 (t0 + HOVER_DELAY) (TextHoverFired e text key));
    [| vm_compute; reflexivity | exact H01].
  rewrite (step_storageGot_text t2 2 e text key); [| vm_compute; reflexivity].
  rewrite onTextCacheRead_miss; [| exact Hat | vm_compute; reflexivity].
  rewrite (step_responded_text t3 3 e key); [| vm_compute; reflexivity].
  rewrite (onTextResponse_ok t3 e key r s);
    [| exact Hat | exact Hok | exact Hres | exact Hne].
  rewrite (step_storageSet_text t4 4 e key t3 s
             (buildUsageFooter (resp_usageInfo r)));
    [| vm_compute; reflexivity].
  rewrite step_mouseout_tracked; [| apply list_elem_of_here].
  rewrite (handleHover_text_eq t6 e text loc key);
    [| vm_compute; reflexivity | exact Himg | exact Hkey | exact Htext
     | exact Hsk].
  rewrite (step_timeout_due t7 7 (t6 + HOVER_DELAY) (TextHoverFired e text key));
    [| vm_compute; reflexivity | exact H67].
  rewrite (step_storageGot_text t8 9 e text key); [| vm_compute; reflexivity].
  match goal with
  | |- context [onTextCacheRead t8 e text key None ?S] =>
      assert (Hstored :
        local S = <[key := {| summary := Some s; dataUrl := None;
                              timestamp := t3 |}]> (∅ : gmap string CacheEntry))
        by (vm_compute; reflexivity);
      assert (Hlook :
        local S !! key = Some {| summary := Some s; dataUrl := None;
                                 timestamp := t3 |})
        by (rewrite Hstored; apply lookup_insert_eq)
  end.
  split.
  - intros H38.
    rewrite (onTextCacheRead_hit t8 e text key
               {| summary := Some s; dataUrl := None; timestamp := t3 |} s);
      [| exact Hat | exact Hlook | exact H38 | reflexivity | exact Hne].
    split_and!; vm_compute; reflexivity.
  - intros H38.
    rewrite (onTextCacheRead_expired t8 e text key
               {| summary := Some s; dataUrl := None; timestamp := t3 |});
      [| exact Hat | exact Hlook | exact H38].
    split.
    + rewrite sendMessage_sent, set_local_sent. vm_compute; reflexivity.
    + rewrite sendMessage_local, set_local_local. apply lookup_delete_eq.
Qed.

Lemma X21_second_hover_from_cache_witness :
  let text :=
    "The quick brown fox "
    +:+ String 55357 (String 56832 " jumps over the lazy dog, twice over.") in
  let p := {| node := 1; interface := HTMLElement; tagName := "P";
              attributes := ∅; id := ""; textContent := Some text;
              href := ""; src := ""; parentTextContent := None |} in
  let r := {| success := true; result := Some "A fox <jumps>.";
              resp_error := None; errorCode := None; resp_usageInfo := None |} in
  let final :=
    run [(0, mouseover (Some p)); (500, timeout 0); (510, storageGot 2 None);
         (900, responded 3 None (Some r)); (910, storageSet 4 None);
         (2000, mouseout 1);
         (3000, mouseover (Some p)); (3500, timeout 7);
         (3510, storageGot 9 None)]
      (initialPage {| origin := "https://example.org"; pathname := "/" |}
         {[ 1%nat ]}) in
  sent final = [summarizeRequest text]
  ∧ pending final = []
  ∧ innerHTML <$> tooltips final
    = ["<p><strong>Summary:</strong></p><p>A fox &lt;jumps&gt;.</p>"].
Proof.
  intros text p r final.
  assert (Hin : node p ∈ ({[ 1%nat ]} : gset nat)) by (vm_compute; reflexivity).
  destruct (X21_second_hover_from_cache
              {| origin := "https://example.org"; pathname := "/" |}
              {[ 1%nat ]} p text
              "summary::https://example.org/::The%20quick%20brown%20fox%20%F0%9F%98%80%20jumps%20over%20the%20lazy%20dog%2C%20twice%20over."
              "A fox <jumps>." r 0 500 510 900 910 2000 3000 3500 3510
              eq_refl eq_refl eq_refl eq_refl Hin eq_refl eq_refl
              ltac:(discriminate) ltac:(vm_compute; discriminate)
              ltac:(vm_compute; discriminate)) as (Hhit & _).
  exact (Hhit ltac:(vm_compute; discriminate)).
Defined.

(** ** Texts without surrogates *)








